(** * McMaster catalog scraper: table extraction and traversal

    A shallow embedding of [src/scraper/scraper.py] (with the document
    store of [src/database/database.py]) and the properties of its
    specification that were checked against it.

    Conventions of the embedding.
    - A Selenium element is the snapshot of what the code reads from it:
      [find_element] on a missing child raises [NoSuchElementException],
      [find_elements] returns a (possibly empty) list and never raises.
    - Python [None] is [None] of an [option]; a [dict] with string keys
      is a [gmap string _]; a [str] is the bytes of its UTF-8 encoding.
    - Stateful code lives in the monad [M]: a state transformer whose
      result is a value or a raised exception.  The state survives a raise,
      as the mutations of a Python program do.
    - [time.sleep] and info-level logging are not modelled; [logging.error]
      and [logging.warning] append to the [log] of the state. *)

From Stdlib Require Import ZArith Ascii String.
From stdpp Require Import base option list strings gmap fin_maps.

(* ===================================================================== *)
(** ** Python strings *)

Module PyStr.

(** A text is held as the bytes of its UTF-8 encoding, which is also what
    a string literal of this file denotes. *)
Definition byte (n : N) : ascii := ascii_of_N n.

(** The UTF-8 encoding of the code point [cp]. *)
Definition utf8 (cp : N) : list ascii :=
  if (cp <? 128)%N then [byte cp]
  else if (cp <? 2048)%N
  then [byte (192 + cp / 64); byte (128 + cp mod 64)]
  else if (cp <? 65536)%N
  then [byte (224 + cp / 4096); byte (128 + (cp / 64) mod 64);
        byte (128 + cp mod 64)]
  else [byte (240 + cp / 262144); byte (128 + (cp / 4096) mod 64);
        byte (128 + (cp / 64) mod 64); byte (128 + cp mod 64)].

(** The code points for which [str.isspace] holds, the ones that
    [str.strip] removes: TAB, LF, VT, FF, CR, FS, GS, RS, US, the space,
    NEL (U+0085), the no-break space (U+00A0), U+1680, U+2000 to U+200A,
    the line and paragraph separators (U+2028, U+2029), U+202F, U+205F
    and the ideographic space (U+3000). *)
Definition whitespace_code_points : list N :=
  [9; 10; 11; 12; 13; 28; 29; 30; 31; 32; 133; 160; 5760;
   8192; 8193; 8194; 8195; 8196; 8197; 8198; 8199; 8200; 8201; 8202;
   8232; 8233; 8239; 8287; 12288]%N.

(** The white-space characters as byte sequences. *)
Definition whitespace : list (list ascii) := utf8 <$> whitespace_code_points.

Fixpoint starts_with (w s : list ascii) : bool :=
  match w, s with
  | [], _ => true
  | a :: w', b :: s' => Ascii.eqb a b && starts_with w' s'
  | _ :: _, [] => false
  end.

(** The rest of [s] after the first of [pats] that [s] starts with. *)
Fixpoint drop_first (pats : list (list ascii)) (s : list ascii)
  : option (list ascii) :=
  match pats with
  | [] => None
  | w :: pats' =>
      if starts_with w s then Some (drop (length w) s) else drop_first pats' s
  end.

(** Characters of [pats] are taken off the front of [s] as long as there
    is one; every step takes at least one byte, so [length s] steps are
    enough. *)
Fixpoint lstrip_by (pats : list (list ascii)) (fuel : nat) (s : list ascii)
  : list ascii :=
  match fuel with
  | 0 => s
  | S fuel' =>
      match drop_first pats s with
      | Some rest => lstrip_by pats fuel' rest
      | None => s
      end
  end.

Definition lstrip_bytes (s : list ascii) : list ascii :=
  lstrip_by whitespace (length s) s.

(** The same from the end.  In UTF-8 no character is the end of another,
    so the bytes of a white-space character at the end of a text are that
    character. *)
Definition rstrip_bytes (s : list ascii) : list ascii :=
  reverse (lstrip_by (reverse <$> whitespace) (length s) (reverse s)).

(** [s.lstrip()] *)
Definition lstrip (s : string) : string :=
  string_of_list_ascii (lstrip_bytes (list_ascii_of_string s)).

(** [s.rstrip()] *)
Definition rstrip (s : string) : string :=
  string_of_list_ascii (rstrip_bytes (list_ascii_of_string s)).

(** [s.strip()] *)
Definition strip (s : string) : string :=
  string_of_list_ascii
    (rstrip_bytes (lstrip_bytes (list_ascii_of_string s))).

(** [s.replace(a, b)] for one-character [a] and [b]. *)
Fixpoint replace (a b : ascii) (s : string) : string :=
  match s with
  | String c s' => String (if Ascii.eqb c a then b else c) (replace a b s')
  | EmptyString => EmptyString
  end.

Definition newline : ascii := ascii_of_nat 10.
Definition underscore : ascii := ascii_of_nat 95.

(** The truth value of a string: [if txt:] *)
Definition truthy (s : string) : bool :=
  match s with EmptyString => false | _ => true end.

End PyStr.

(** [x.text.strip().replace('\n', '_')], the normalisation applied to
    every text the table extractor reads. *)
Definition strip_replace (text : string) : string :=
  PyStr.replace PyStr.newline PyStr.underscore (PyStr.strip text).

(* ===================================================================== *)
(** ** Python lists *)

Module PyList.

(** [l.insert(i, x)]: a negative index counts from the end, and an index
    out of range is clamped to the ends. *)
Definition insert {A} (i : Z) (x : A) (l : list A) : list A :=
  let n := Z.of_nat (length l) in
  let k := if (i <? 0)%Z then Z.max 0 (n + i) else Z.min i n in
  take (Z.to_nat k) l ++ x :: drop (Z.to_nat k) l.

(** [x in l] *)
Definition contains (x : string) (l : list string) : bool :=
  bool_decide (x ∈ l).

End PyList.

(* ===================================================================== *)
(** ** Exceptions *)

Inductive exn : Type :=
| AccessRestrictedError
| NoSuchElementException
| TimeoutException
| NoSuchWindowException
| IndexError
| OSError
| JSONDecodeError.

#[global] Instance exn_eq_dec : EqDecision exn.
Proof. solve_decision. Defined.

Inductive result (A : Type) : Type :=
| Ok (a : A)
| Raise (e : exn).
Arguments Ok {A} a.
Arguments Raise {A} e.

(** [parent.find_element(...)] on the snapshot of an optional child. *)
Definition find_element {A} (child : option A) : result A :=
  match child with
  | Some x => Ok x
  | None => Raise NoSuchElementException
  end.

(** [try: m except NoSuchElementException: h] *)
Definition except_NoSuchElement {A} (m : result A) (h : result A) : result A :=
  match m with
  | Raise NoSuchElementException => h
  | _ => m
  end.

(* ===================================================================== *)
(** ** The table extractor *)

(** A [<tr>]: the text of its first [<th>] (if any), the texts of its
    [<td>] cells, and the text of the whole row. *)
Record tr_element : Type := {
  tr_th : option string;
  tr_td : list string;
  tr_text : string
}.

(** A [<table>]: the rows of its [<tbody>] (if any) and the texts of the
    [<td>] cells of its [<thead>] (if any). *)
Record table_element : Type := {
  table_tbody : option (list tr_element);
  table_thead : option (list string)
}.

(** A Row Record, the [row_data] dict. *)
Abbreviation row_record := (gmap string (option string)).

Module TableExtractor.

(** Step 1: [dimension_value], from the first row: the text of its
    [<th>], or the text of the row when [find_element] raises. *)
Definition dimension_of (rows : list tr_element) : option string :=
  match rows with
  | [] => None
  | row0 :: _ =>
      match find_element (tr_th row0) with
      | Ok first_th => Some (strip_replace first_th)
      | Raise _ => Some (strip_replace (tr_text row0))
      end
  end.

(** Step 2, the loop over [header_cells]: the non-empty normalised
    texts, in order. *)
Fixpoint header_loop (header_cells : list string) (headers : list string)
  : list string :=
  match header_cells with
  | [] => headers
  | h :: rest =>
      let txt := strip_replace h in
      header_loop rest (if PyStr.truthy txt then headers ++ [txt] else headers)
  end.

(** The header labels read from [<thead>]; none when [find_element]
    raises. *)
Definition header_labels (table : table_element) : list string :=
  match find_element (table_thead table) with
  | Ok header_cells => header_loop header_cells []
  | Raise _ => []
  end.

(** [headers] after [headers.insert(-1, "serial_nu")]. *)
Definition headers_of (table : table_element) : list string :=
  PyList.insert (-1) "serial_nu" (header_labels table).

(** The [try] around [row.find_element(By.TAG_NAME, 'th')]: the new
    value of [current_property_b]. *)
Definition update_property_b (dimension_value : option string)
    (current_property_b : option string) (row : tr_element) : option string :=
  match find_element (tr_th row) with
  | Ok th =>
      let th_text := strip_replace th in
      if PyStr.truthy th_text && negb (bool_decide (Some th_text = dimension_value))
      then Some th_text
      else current_property_b
  | Raise _ => current_property_b
  end.

(** [for i, cell in enumerate(cells)]: a cell whose index has a header
    is stored under it, the others are ignored. *)
Fixpoint fill_cells (headers : list string) (i : nat) (cells : list string)
    (row_data : row_record) : row_record :=
  match cells with
  | [] => row_data
  | cell :: rest =>
      let cell_text := strip_replace cell in
      fill_cells headers (S i) rest
        (match headers !! i with
         | Some h => <[h := Some cell_text]> row_data
         | None => row_data
         end)
  end.

(** The dict literal that starts a [row_data]. *)
Definition new_row_data (dimension_value current_property_b : option string)
  : row_record :=
  <["Property B" := current_property_b]>
    (<["Property A" := dimension_value]> ∅).

(** One iteration of [for row in rows], on the loop state
    [(current_property_b, data)]. *)
Definition row_step (dimension_value : option string) (headers : list string)
    (st : option string * list row_record) (row : tr_element)
  : option string * list row_record :=
  let current_property_b := update_property_b dimension_value st.1 row in
  let cells := tr_td row in
  match cells with
  | [] => (current_property_b, st.2)
  | _ :: _ =>
      let row_data := new_row_data dimension_value current_property_b in
      (current_property_b, st.2 ++ [fill_cells headers 0 cells row_data])
  end.

(** Step 3: the loop, from [current_property_b = None] and [data = []]. *)
Definition parse_rows (dimension_value : option string) (headers : list string)
    (rows : list tr_element) : option string * list row_record :=
  foldl (row_step dimension_value headers) (None, []) rows.

(** The body of the outer [try]. *)
Definition extract_try (table : table_element) : result (list row_record) :=
  match find_element (table_tbody table) with
  | Raise NoSuchElementException => Ok []
  | Raise e => Raise e
  | Ok rows =>
      let dimension_value := dimension_of rows in
      let headers := headers_of table in
      Ok (parse_rows dimension_value headers rows).2
  end.

(** [McMasterScraper.extract_data_from_table_ele]: the outer handler
    logs and returns the empty list. *)
Definition extract_data_from_table_ele (table : table_element)
  : result (list row_record) :=
  except_NoSuchElement (extract_try table) (Ok []).

End TableExtractor.

Import TableExtractor.

(* ===================================================================== *)
(** ** Snapshots of the pages the traversal reads *)

(** A [<section>] of [#PageCntnr]. *)
Record section_element : Type := {
  section_class : string;
  section_h3 : option string;
  section_img_src : list (option string);
  section_CpyCntnr : option string
}.

(** An [<a>] of a [GroupPrsnttn] container; [anchor_ke] is the text of
    its title element (class [ke]). *)
Record type_anchor : Type := {
  anchor_href : string;
  anchor_ke : option string
}.

(** A [GroupPrsnttn] container. *)
Record type_group : Type := {
  group_visible : bool;
  group_in_PageCntnr : bool;
  group_h3 : option string;
  group_anchors : list type_anchor
}.

(** An [<a>] tile of [#ClientRenderedContentWebPart]; the four children
    are looked up with [find_element]. *)
Record subcat_tile : Type := {
  tile_href : string;
  tile_image : option string;
  tile_title : option string;
  tile_copy : option string;
  tile_product_count : option string
}.

(** The home page: [li] items of a [subcat] block of a [catg] element. *)
Record subcat_item : Type := {
  item_text : string;
  item_a_href : option string
}.

Record subcat_block : Type := {
  block_h2 : option string;
  block_items : list subcat_item
}.

Record category_element : Type := {
  category_h1 : option string;
  category_subcats : list subcat_block
}.

(** What the code can observe of a loaded page. *)
Record page : Type := {
  current_url : string;
  (** [#ProdDatProtectionWebPart_MainContentCntnr] visible within 2s *)
  ProdDatProtection_visible : bool;
  (** [#MainContent] visible within the 60s wait *)
  MainContent_visible : bool;
  (** every [<table>] of the page, in document order *)
  page_tables : list table_element;
  (** [#ClientRenderedContentWebPart]: visible or not, and its anchors *)
  ClientRenderedContent : option (bool * list subcat_tile);
  (** every element of class [GroupPrsnttn] *)
  GroupPrsnttn : list type_group;
  (** [#PageCntnr]: its [<section>]s *)
  PageCntnr : option (list section_element);
  (** [#ProductPage] present *)
  ProductPage : bool;
  (** [#ProdPageContent] present within the 60s wait *)
  ProdPageContent : bool;
  (** [#HomePageContent]: visible or not, and its [catg] elements *)
  HomePageContent : option (bool * list category_element)
}.

(** The page of a window that has loaded nothing. *)
Definition blank_page : page :=
  {| current_url := "about:blank";
     ProdDatProtection_visible := false;
     MainContent_visible := false;
     page_tables := [];
     ClientRenderedContent := None;
     GroupPrsnttn := [];
     PageCntnr := None;
     ProductPage := false;
     ProdPageContent := false;
     HomePageContent := None |}.

(* ===================================================================== *)
(** ** Documents and the durable skip list *)

(** One entry of [product_data["data"]]: the rows of a table, or one of
    the marker dicts [{"error": ...}] and [{"info": ...}]. *)
Inductive table_result : Type :=
| TableRows (rows : list row_record)
| ExtractionFailed (e : exn)
| NoTableData
| TableExtractionFailed (e : exn).

(** The [product_data] dict. *)
Record product_data : Type := {
  category : string;
  subcategory_1 : string;
  subcategory_2 : string;
  subcategory_3 : string;
  title : string;
  link : string;
  timestamp : string;
  images : list string;
  description : option string;
  data : list table_result
}.

(** The file [src/config/skip_list.json] as this program leaves it:
    absent, or the array items written so far and whether the array was
    completed (a file that was only truncated is [FileText [] false] and
    is not valid JSON).  Other contents, such as valid JSON that is not an
    array of strings, which [json.load] would return as they are, have no
    state here. *)
Inductive file_state : Type :=
| FileAbsent
| FileText (items : list string) (complete : bool).

(** The steps of [with open(SKIP_LIST_FILE, 'w') as f: json.dump(l, f)]:
    opening with mode ['w'] creates or truncates the file, the encoder
    then writes the items in order, and the closing bracket ends the
    array. *)
Inductive file_op : Type :=
| OpenTruncate
| WriteItem (item : string)
| CloseArray.

Definition apply_op (f : file_state) (op : file_op) : file_state :=
  match op with
  | OpenTruncate => FileText [] false
  | WriteItem item =>
      match f with
      | FileText items _ => FileText (items ++ [item]) false
      | FileAbsent => FileText [item] false
      end
  | CloseArray =>
      match f with
      | FileText items _ => FileText items true
      | FileAbsent => FileText [] true
      end
  end.

Definition dump_ops (skip_list : list string) : list file_op :=
  OpenTruncate :: (WriteItem <$> skip_list) ++ [CloseArray].

Definition run_ops (ops : list file_op) (f : file_state) : file_state :=
  foldl apply_op f ops.

(** The file left behind when the process dies after [n] steps of a
    write. *)
Definition crash_after (n : nat) (ops : list file_op) (f : file_state)
  : file_state :=
  run_ops (take n ops) f.

Inductive log_level : Type := ERROR | WARNING.

Record log_record : Type := {
  log_lvl : log_level;
  log_msg : string;
  log_exn : option exn
}.

(* ===================================================================== *)
(** ** The state of the process and its monad *)

Record state : Type := {
  (** the module-level list [things_to_skip] *)
  things_to_skip : list string;
  (** the file [SKIP_LIST_FILE], and whether it can be opened for writing *)
  skip_file : file_state;
  skip_file_writable : bool;
  (** the MongoDB collection behind [db_client] *)
  collection : list product_data;
  (** [driver.window_handles] (each with the page it shows) and the index
      of the window the driver is switched to *)
  window_handles : list page;
  current_window : nat;
  log : list log_record
}.

Definition set_things_to_skip (l : list string) (st : state) : state :=
  {| things_to_skip := l; skip_file := skip_file st;
     skip_file_writable := skip_file_writable st; collection := collection st;
     window_handles := window_handles st; current_window := current_window st;
     log := log st |}.

Definition set_skip_file (f : file_state) (st : state) : state :=
  {| things_to_skip := things_to_skip st; skip_file := f;
     skip_file_writable := skip_file_writable st; collection := collection st;
     window_handles := window_handles st; current_window := current_window st;
     log := log st |}.

Definition set_collection (c : list product_data) (st : state) : state :=
  {| things_to_skip := things_to_skip st; skip_file := skip_file st;
     skip_file_writable := skip_file_writable st; collection := c;
     window_handles := window_handles st; current_window := current_window st;
     log := log st |}.

Definition set_windows (hs : list page) (cur : nat) (st : state) : state :=
  {| things_to_skip := things_to_skip st; skip_file := skip_file st;
     skip_file_writable := skip_file_writable st; collection := collection st;
     window_handles := hs; current_window := cur;
     log := log st |}.

Definition add_log (r : log_record) (st : state) : state :=
  {| things_to_skip := things_to_skip st; skip_file := skip_file st;
     skip_file_writable := skip_file_writable st; collection := collection st;
     window_handles := window_handles st; current_window := current_window st;
     log := log st ++ [r] |}.

Definition M (A : Type) : Type := state → result A * state.

Definition ret {A} (a : A) : M A := fun st => (Ok a, st).

Definition raise {A} (e : exn) : M A := fun st => (Raise e, st).

Definition bind {A B} (m : M A) (k : A → M B) : M B :=
  fun st =>
    match m st with
    | (Ok a, st') => k a st'
    | (Raise e, st') => (Raise e, st')
    end.

#[global] Instance M_ret : MRet M := @ret.
#[global] Instance M_bind : MBind M := fun A B k m => bind m k.

(** [try: m except Exception as e: h e] *)
Definition try_except {A} (m : M A) (h : exn → M A) : M A :=
  fun st =>
    match m st with
    | (Raise e, st') => h e st'
    | r => r
    end.

(** [try: m finally: f] *)
Definition try_finally {A} (m : M A) (f : M unit) : M A :=
  fun st =>
    match m st with
    | (r, st') =>
        match f st' with
        | (Ok _, st'') => (r, st'')
        | (Raise e, st'') => (Raise e, st'')
        end
    end.

Definition get {A} (f : state → A) : M A := fun st => (Ok (f st), st).

Definition modify (f : state → state) : M unit := fun st => (Ok (), f st).

Definition lift {A} (r : result A) : M A := fun st => (r, st).

(** [for x in xs: body x] *)
Fixpoint for_each {A} (body : A → M unit) (xs : list A) : M unit :=
  match xs with
  | [] => ret ()
  | x :: rest => body x ;; for_each body rest
  end.

Definition error_record (msg : string) (e : option exn) : log_record :=
  {| log_lvl := ERROR; log_msg := msg; log_exn := e |}.

Definition logging_error (msg : string) (e : option exn) : M unit :=
  modify (add_log (error_record msg e)).

Definition logging_warning (msg : string) : M unit :=
  modify (add_log {| log_lvl := WARNING; log_msg := msg; log_exn := None |}).

(* ===================================================================== *)
(** ** The skip-list store *)

Definition default_list : list string :=
  [""; "Socket Head Screws"; "Rounded Head Screws"; "Hex Head Screws";
   "Flat Head Screws"; "Tapping Screws"; "Shoulder Screws"; "Set Screws";
   "Wood Screws"; "Thumb Screws"; "Carriage Bolts"; "12-Point Screws";
   "Captive Panel Screws"; "Drywall Screws"; "Fastener Assortments"; "Studs";
   "Square Head Screws"; "Elevator Bolts"; "Hanger Bolts"; "T-Bolts";
   "Plow Bolts"; "Pentagon Head Screws"; "Hold-Down Bolts"; "Jack Screws";
   "Joint Clamps for Wood"; "Binding Barrels and Screws"; "Threaded Rods";
   "Standoffs"; "Standoff Caps"; "Single-End Studs"; "Thread Adapters";
   "Rivet Nuts"; "Weld Nuts"; "Anchors"; "Spring Plungers"; "Captive Pins";
   "Screw Nails"; "Nails"; "Anchor Toggles"; "Rivets"; "Antislip Fluid";
   "Tapping Screw Installation Tools"; "Hanger Bolt Driver Bits";
   "Anchor Installation Tools"; "Magnets"; "Setup Studs"; "T-Slot Bolts";
   "Drill Bushing Lock Screws"].

(** [with open(SKIP_LIST_FILE, 'w') as f: json.dump(l, f, indent=2)] *)
Definition open_w_json_dump (l : list string) : M unit :=
  fun st =>
    if skip_file_writable st
    then (Ok (), set_skip_file (run_ops (dump_ops l) (skip_file st)) st)
    else (Raise OSError, st).

(** [with open(SKIP_LIST_FILE, 'r') as f: return json.load(f)] *)
Definition open_r_json_load : M (list string) :=
  f ← get skip_file;
  match f with
  | FileText items true => ret items
  | FileText _ false => raise JSONDecodeError
  | FileAbsent => raise OSError
  end.

Definition load_skip_list : M (list string) :=
  try_except
    (f ← get skip_file;
     match f with
     | FileText _ _ => open_r_json_load
     | FileAbsent => open_w_json_dump default_list ;; ret default_list
     end)
    (fun e => logging_error "Error loading skip list" (Some e) ;; ret []).

Definition save_skip_list (skip_list : list string) : M unit :=
  try_except
    (open_w_json_dump skip_list)
    (fun e => logging_error "Error saving skip list" (Some e)).

(** [things_to_skip.append(key)] *)
Definition things_to_skip_append (key : string) : M unit :=
  modify (fun st => set_things_to_skip (things_to_skip st ++ [key]) st).

(** The statement repeated at every place that learns a key:
    [if key not in things_to_skip: things_to_skip.append(key);
     save_skip_list(things_to_skip)]. *)
Definition add_to_skip_list (key : string) : M unit :=
  skip ← get things_to_skip;
  if PyList.contains key skip then ret ()
  else
    things_to_skip_append key ;;
    skip' ← get things_to_skip;
    save_skip_list skip'.

(* ===================================================================== *)
(** ** The document store *)

(** [db_client.insert_document(document)] *)
Definition insert_document (document : product_data) : M unit :=
  modify (fun st => set_collection (collection st ++ [document]) st).

(** [db_client.find_document({"link": l})] *)
Definition find_document (l : string) : M (option product_data) :=
  c ← get collection;
  ret (head (filter (fun d => link d = l) c)).

(* ===================================================================== *)
(** ** The driver *)

Definition current_page : M page :=
  fun st =>
    match window_handles st !! current_window st with
    | Some p => (Ok p, st)
    | None => (Raise NoSuchWindowException, st)
    end.

(** [self.driver.switch_to.window(self.driver.window_handles[-1])] *)
Definition switch_to_last_window : M unit :=
  fun st =>
    match window_handles st with
    | [] => (Raise IndexError, st)
    | hs => (Ok (), set_windows hs (length hs - 1) st)
    end.

(** [self.driver.quit()] *)
Definition driver_quit : M unit :=
  modify (set_windows [] 0).

(** [self.setup_driver()]: a fresh browser with one empty window. *)
Definition setup_driver : M unit :=
  modify (set_windows [blank_page] 0).

(* ===================================================================== *)
(** ** McMasterScraper *)

Section McMasterScraper.

(** The site: the page a URL loads.  *)
Variable web : string → page.

(** The capture time [ist_timestamp], read from the clock. *)
Variable ist_timestamp : string.

Definition base_url : string := "https://www.mcmaster.com/".

(** [load_site]: [self.driver.get(self.base_url)] *)
Definition load_site : M unit :=
  current_page ;;
  modify (fun st =>
            set_windows (<[current_window st := web base_url]> (window_handles st))
                        (current_window st) st).

(** [window.open(url)] in the current window, then the switch to the
    new last window. *)
Definition open_new_tab (url : string) : M unit :=
  current_page ;;
  modify (fun st =>
            set_windows (window_handles st ++ [web url]) (current_window st) st) ;;
  switch_to_last_window.

(** [driver.close()], then the switch to the first window if one is
    left. *)
Definition close_current_tab : M unit :=
  current_page ;;
  modify (fun st =>
            set_windows (delete (current_window st) (window_handles st)) 0 st).

(** [self.wait.until(EC.visibility_of_element_located((By.ID, "MainContent")))] *)
Definition wait_for_page_to_load : M unit :=
  p ← current_page;
  if MainContent_visible p then ret () else raise TimeoutException.

Definition access_restricted : M bool :=
  try_except
    (p ← current_page;
     if ProdDatProtection_visible p then ret true else raise TimeoutException)
    (fun _ => ret false).

Definition whether_types_index_page_or_not : M bool :=
  wait_for_page_to_load ;;
  try_except
    (p ← current_page;
     ret (0 <? length (GroupPrsnttn p))%nat)
    (fun _ => ret false).

Definition whether_subcat_index_page_or_not : M bool :=
  wait_for_page_to_load ;;
  try_except
    (p ← current_page;
     lift (find_element (ClientRenderedContent p)) ;;
     ret true)
    (fun _ => ret false).

Definition whether_product_page_or_not : M bool :=
  wait_for_page_to_load ;;
  try_except
    (p ← current_page;
     lift (find_element (PageCntnr p)) ;;
     if (length (filter (fun g => group_in_PageCntnr g = true)
                        (GroupPrsnttn p)) =? 0)%nat
     then ret true
     else
       lift (find_element (if ProductPage p then Some () else None)) ;;
       ret true)
    (fun _ => ret false).

Definition whether_table_page_or_not : M bool :=
  wait_for_page_to_load ;;
  try_except
    (p ← current_page;
     match page_tables p with
     | _ :: _ => ret true
     | [] => ret false
     end)
    (fun _ => ret false).

(** [for table_idx, table_e in enumerate(table_elements, 1)] of
    [product_section_scrape_data], on [product_data["data"]]. *)
Fixpoint tables_loop (table_elements : list table_element)
    (data : list table_result) : M (list table_result) :=
  match table_elements with
  | [] => ret data
  | table_e :: rest =>
      match extract_data_from_table_ele table_e with
      | Ok table_data => tables_loop rest (data ++ [TableRows table_data])
      | Raise e =>
          logging_error "Failed to extract table" (Some e) ;;
          tables_loop rest (data ++ [ExtractionFailed e])
      end
  end.

(** [img_links]: the stripped [src] of every image that has one, without
    repetitions.  The order in which Python lists a set is not fixed and
    changes from run to run; the order of first occurrence stands for it
    here, and no statement below depends on the order of the images. *)
Definition img_links_of (srcs : list (option string)) : list string :=
  remove_dups
    (omap (fun src =>
             match src with
             | Some s => if PyStr.truthy s then Some (PyStr.strip s) else None
             | None => None
             end) srcs).

Definition product_section_scrape_data (product_link : string)
    (product_page_container : section_element)
    (subcat_name1 subcat_name2 subcat_name3 category_name : string) : M unit :=
  product_title ← lift (find_element (section_h3 product_page_container));
  let img_links := img_links_of (section_img_src product_page_container) in
  let product_desc := PyStr.strip <$> section_CpyCntnr product_page_container in
  data ←
    try_except
      (p ← current_page;
       table_elements ←
         match page_tables p with
         | [] => raise TimeoutException
         | ts => ret ts
         end;
       tables_loop table_elements [])
      (fun e =>
         match e with
         | TimeoutException =>
             logging_warning "No tables found for product" ;;
             ret [NoTableData]
         | _ =>
             logging_error "Error processing tables" (Some e) ;;
             ret [TableExtractionFailed e]
         end);
  insert_document
    {| category := category_name;
       subcategory_1 := subcat_name1;
       subcategory_2 := subcat_name2;
       subcategory_3 := subcat_name3;
       title := product_title;
       link := product_link;
       timestamp := ist_timestamp;
       images := img_links;
       description := product_desc;
       data := data |} ;;
  if PyStr.truthy product_title
  then add_to_skip_list product_title
  else ret ().

Definition handle_product_page (product_link : string)
    (subcat_name1 subcat_name2 category_name subcat_name3 title : string)
  : M unit :=
  p ← current_page;
  let product_link := current_url p in
  (if ProdPageContent p then ret () else raise TimeoutException) ;;
  found ←
    try_except
      (p ← current_page;
       sections ← lift (find_element (PageCntnr p));
       ret (Some sections))
      (fun _ => logging_error "Failed to locate #PageCntnr" None ;; ret None);
  match found with
  | None => ret ()
  | Some sections =>
      for_each
        (fun sec =>
           let section_class := PyStr.strip (section_class sec) in
           if bool_decide (section_class = "ap") then ret ()
           else product_section_scrape_data product_link sec
                  subcat_name1 subcat_name2 subcat_name3 category_name)
        sections
  end.

(** [except AccessRestrictedError as e: raise e
     except Exception as e: logging.error(...); continue] *)
Definition except_continue (msg : string) (body : M unit) : M unit :=
  try_except body
    (fun e =>
       match e with
       | AccessRestrictedError => raise e
       | _ => logging_error msg (Some e)
       end).

(** [except AccessRestrictedError as e: raise e
     except Exception as e: logging.error(...); raise e] *)
Definition except_reraise (msg : string) (body : M unit) : M unit :=
  try_except body
    (fun e =>
       match e with
       | AccessRestrictedError => raise e
       | _ => logging_error msg (Some e) ;; raise e
       end).

(** The body of the [try] of one product of a type group.  The optional
    image and description of the anchor are read for the log only and
    raise nothing. *)
Definition types_product_body
    (subcat_name1 subcat_name2 category_name subcat_name3 : string)
    (type_e : type_anchor) : M unit :=
  let link := anchor_href type_e in
  title ← lift (find_element (anchor_ke type_e));
  skip ← get things_to_skip;
  if PyList.contains title skip then ret ()
  else
    found ← find_document link;
    match found with
    | Some _ => add_to_skip_list title
    | None =>
        open_new_tab link ;;
        switch_to_last_window ;;
        restricted ← access_restricted;
        if (restricted : bool) then raise AccessRestrictedError
        else
          handle_product_page link subcat_name1 subcat_name2 category_name
            subcat_name3 title ;;
          close_current_tab ;;
          switch_to_last_window
    end.

(** One iteration of [for product_idx, type_e in enumerate(type_elements, 1)]:
    the [try] with its handlers. *)
Definition types_product_item
    (subcat_name1 subcat_name2 category_name subcat_name3 : string)
    (type_e : type_anchor) : M unit :=
  except_continue "Error processing product"
    (types_product_body subcat_name1 subcat_name2 category_name
       subcat_name3 type_e).

(** The body of the [try] of one type group. *)
Definition types_group_body
    (subcat_name1 subcat_name2 category_name subcat_name3 : string)
    (types_cntr : type_group) : M unit :=
  lift (find_element (group_h3 types_cntr)) ;;
  let type_elements := group_anchors types_cntr in
  for_each
    (types_product_item subcat_name1 subcat_name2 category_name subcat_name3)
    type_elements.

(** One iteration of [for group_idx, types_cntr in enumerate(types_containers, 1)]:
    the [try] with its handlers. *)
Definition types_group_item
    (subcat_name1 subcat_name2 category_name subcat_name3 : string)
    (types_cntr : type_group) : M unit :=
  except_continue "Error processing type group"
    (types_group_body subcat_name1 subcat_name2 category_name
       subcat_name3 types_cntr).

(** [self.wait.until(EC.visibility_of_all_elements_located(
      (By.CLASS_NAME, "GroupPrsnttn")))] *)
Definition wait_visibility_of_all_GroupPrsnttn : M (list type_group) :=
  p ← current_page;
  match GroupPrsnttn p with
  | [] => raise TimeoutException
  | gs => if forallb group_visible gs then ret gs else raise TimeoutException
  end.

Definition handle_types_index_page
    (subcat_name1 subcat_name2 category_name subcat_name3 : string) : M unit :=
  except_reraise "Failed to process types index page"
    (types_containers ← wait_visibility_of_all_GroupPrsnttn;
     for_each
       (types_group_item subcat_name1 subcat_name2 category_name subcat_name3)
       types_containers).

(** The dispatch of [handle_subcategories_index_page] on the page just
    opened for one tile. *)
Definition subcat_dispatch
    (link subcat_name1 subcat_name2 category_name subcat_name3 : string)
  : M unit :=
  restricted ← access_restricted;
  if (restricted : bool) then raise AccessRestrictedError
  else
    is_table ← whether_table_page_or_not;
    if (is_table : bool)
    then handle_product_page link subcat_name1 subcat_name2 category_name
           subcat_name3 ""
    else
      is_product ← whether_product_page_or_not;
      if (is_product : bool)
      then handle_product_page link subcat_name1 subcat_name2 category_name
             subcat_name3 ""
      else
        is_types ← whether_types_index_page_or_not;
        if (is_types : bool)
        then handle_types_index_page subcat_name1 subcat_name2 category_name
               subcat_name3
        else ret ().

(** The body of the [try] of one tile of a subcategory index. *)
Definition subcat_tile_body (subcat_name1 subcat_name2 category_name : string)
    (subcat_e : subcat_tile) : M unit :=
  let link := tile_href subcat_e in
  lift (find_element (tile_image subcat_e)) ;;
  title ← lift (find_element (tile_title subcat_e));
  let subcat_name3 := PyStr.strip title in
  lift (find_element (tile_copy subcat_e)) ;;
  lift (find_element (tile_product_count subcat_e)) ;;
  skip ← get things_to_skip;
  if PyList.contains subcat_name3 skip then ret ()
  else
    open_new_tab link ;;
    switch_to_last_window ;;
    subcat_dispatch link subcat_name1 subcat_name2 category_name subcat_name3 ;;
    add_to_skip_list subcat_name3 ;;
    close_current_tab ;;
    switch_to_last_window.

(** One iteration of [for idx, subcat_e in enumerate(subcat_eles, 1)]:
    the [try] with its handlers. *)
Definition subcat_tile_item (subcat_name1 subcat_name2 category_name : string)
    (subcat_e : subcat_tile) : M unit :=
  except_continue "Error processing subcategory item"
    (subcat_tile_body subcat_name1 subcat_name2 category_name subcat_e).

(** [self.wait.until(EC.visibility_of_element_located(
      (By.ID, "ClientRenderedContentWebPart")))] and its anchors *)
Definition wait_visibility_of_ClientRenderedContent : M (list subcat_tile) :=
  p ← current_page;
  match ClientRenderedContent p with
  | Some (true, subcat_eles) => ret subcat_eles
  | _ => raise TimeoutException
  end.

Definition handle_subcategories_index_page
    (subcat_name1 subcat_name2 category_name : string) : M unit :=
  except_reraise "Failed to process subcategories index page"
    (subcat_eles ← wait_visibility_of_ClientRenderedContent;
     for_each (subcat_tile_item subcat_name1 subcat_name2 category_name)
       subcat_eles).

(** The dispatch of [run] on the page just opened for one leaf item. *)
Definition run_dispatch
    (sc_it_link subcat_name1 subcat_name2 category_name skip_item_name : string)
  : M unit :=
  restricted ← access_restricted;
  if (restricted : bool) then raise AccessRestrictedError
  else
    is_table ← whether_table_page_or_not;
    if (is_table : bool)
    then
      handle_product_page sc_it_link subcat_name1 subcat_name2 category_name
        "" "" ;;
      add_to_skip_list skip_item_name
    else
      is_subcat ← whether_subcat_index_page_or_not;
      if (is_subcat : bool)
      then
        handle_subcategories_index_page subcat_name1 subcat_name2
          category_name ;;
        add_to_skip_list skip_item_name
      else
        is_types ← whether_types_index_page_or_not;
        if (is_types : bool)
        then
          handle_types_index_page subcat_name1 subcat_name2 category_name "" ;;
          add_to_skip_list skip_item_name
        else logging_warning "Unhandeled page encountered".

(** One [li] item of a subcategory block of the home page. *)
Definition run_item (category_name subcat_name1 : string)
    (sc_it : subcat_item) : M unit :=
  let subcat_name2 := item_text sc_it in
  sc_it_link ← lift (find_element (item_a_href sc_it));
  let skip_item_name := category_name +:+ "/" +:+ subcat_name2 in
  skip ← get things_to_skip;
  if PyList.contains skip_item_name skip then ret ()
  else
    open_new_tab sc_it_link ;;
    run_dispatch sc_it_link subcat_name1 subcat_name2 category_name
      skip_item_name ;;
    close_current_tab.

Definition run_subcat (category_name : string) (subcat_e : subcat_block)
  : M unit :=
  subcat_name1 ← lift (find_element (block_h2 subcat_e));
  for_each (run_item category_name subcat_name1) (block_items subcat_e).

Definition run_category (cat_ele : category_element) : M unit :=
  cat_h1 ← lift (find_element (category_h1 cat_ele));
  if bool_decide (cat_h1 = "") then ret ()
  else
    let category_name := cat_h1 in
    for_each (run_subcat category_name) (category_subcats cat_ele).

(** [self.wait.until(EC.visibility_of_element_located(
      (By.ID, "HomePageContent")))] and its [catg] elements *)
Definition wait_visibility_of_HomePageContent : M (list category_element) :=
  p ← current_page;
  match HomePageContent p with
  | Some (true, category_eles) => ret category_eles
  | _ => raise TimeoutException
  end.

(** The body of the [try] of [run]. *)
Definition run_try : M unit :=
  load_site ;;
  category_eles ← wait_visibility_of_HomePageContent;
  for_each run_category (drop 5 category_eles).

Definition run : M unit :=
  try_finally
    (try_except run_try
       (fun e =>
          match e with
          | AccessRestrictedError =>
              logging_error "Access restricted" (Some e) ;; raise e
          | _ =>
              logging_error "Error in main run function" (Some e) ;; raise e
          end))
    driver_quit.

(** [run_scraper]: a new scraper is set up and run; whatever it raises
    is logged, and the skip list is saved once more. *)
Definition run_scraper : M unit :=
  setup_driver ;;
  try_finally
    (try_except run
       (fun e =>
          match e with
          | AccessRestrictedError =>
              logging_error "Scraping stopped due to access restrictions" (Some e)
          | _ =>
              logging_error "Scraping failed with error" (Some e)
          end))
    (skip ← get things_to_skip; save_skip_list skip).

End McMasterScraper.


(* ===================================================================== *)
(** ** Page kinds *)

Inductive page_kind : Type :=
| KAccessRestricted
| KTablePage
| KSubcategoryIndex
| KTypesIndex
| KProductPage
| KUnknown.

(** The precedence the specification asks for, on the outcomes of the
    five checks: Access-Restricted, then Table Page, then
    Subcategory-Index, then Types-Index, then Product Page, else Unknown. *)
Definition specified_precedence
    (restricted table subcat types product : bool) : page_kind :=
  if restricted then KAccessRestricted
  else if table then KTablePage
  else if subcat then KSubcategoryIndex
  else if types then KTypesIndex
  else if product then KProductPage
  else KUnknown.

(** What the four [whether_..._or_not] probes answer on a page whose main
    content is visible. *)
Definition has_table (p : page) : bool :=
  match page_tables p with
  | _ :: _ => true
  | [] => false
  end.

Definition has_rendered_content (p : page) : bool :=
  match ClientRenderedContent p with
  | Some _ => true
  | None => false
  end.

Definition has_groups (p : page) : bool :=
  (0 <? length (GroupPrsnttn p))%nat.

Definition has_product_shape (p : page) : bool :=
  match PageCntnr p with
  | Some _ =>
      (length (filter (fun g => group_in_PageCntnr g = true) (GroupPrsnttn p)) =? 0)%nat
      || ProductPage p
  | None => false
  end.

(** The order in which [run] consults the checks. *)
Definition run_order (restricted : bool) (p : page) : page_kind :=
  if restricted then KAccessRestricted
  else if has_table p then KTablePage
  else if has_rendered_content p then KSubcategoryIndex
  else if has_groups p then KTypesIndex
  else KUnknown.

(** The order in which [handle_subcategories_index_page] consults them. *)
Definition subcat_order (restricted : bool) (p : page) : page_kind :=
  if restricted then KAccessRestricted
  else if has_table p then KTablePage
  else if has_product_shape p then KProductPage
  else if has_groups p then KTypesIndex
  else KUnknown.

(* ===================================================================== *)
(** ** The write-through state of the skip list *)

(** Since the state in which the list was [l0] and the file [f0], either
    neither has changed, or the file holds the complete current list. *)
Definition written_through (l0 : list string) (f0 : file_state) (st : state)
  : Prop :=
  skip_file_writable st = true ∧
  ((things_to_skip st = l0 ∧ skip_file st = f0) ∨
   skip_file st = FileText (things_to_skip st) true).

(** A computation keeps a property of the state, whatever it returns or
    raises. *)
Definition preserves {A} (I : state → Prop) (m : M A) : Prop :=
  ∀ st, I st → I (m st).2.

(* ===================================================================== *)
(** ** Start-up and the entry points *)

(** The character that [replace('\n', '_')] leaves in the place of [c]. *)
Definition nl_to_us (c : ascii) : ascii :=
  if Ascii.eqb c PyStr.newline then PyStr.underscore else c.

(** The module-level statement [things_to_skip = load_skip_list()], run
    when [scraper.py] is imported. *)
Definition module_init : M unit :=
  l ← load_skip_list;
  modify (set_things_to_skip l).

(** The entry of [product_data["data"]] for one table. *)
Definition table_result_of (table_e : table_element) : table_result :=
  match extract_data_from_table_ele table_e with
  | Ok table_data => TableRows table_data
  | Raise e => ExtractionFailed e
  end.

(** The document that [product_section_scrape_data] builds for a section
    with the title [product_title] on the page [p]. *)
Definition section_document (ist_timestamp : string) (p : page)
    (product_link : string) (sec : section_element)
    (subcat_name1 subcat_name2 subcat_name3 category_name product_title : string)
  : product_data :=
  {| category := category_name;
     subcategory_1 := subcat_name1;
     subcategory_2 := subcat_name2;
     subcategory_3 := subcat_name3;
     title := product_title;
     link := product_link;
     timestamp := ist_timestamp;
     images := img_links_of (section_img_src sec);
     description := PyStr.strip <$> section_CpyCntnr sec;
     data := match page_tables p with
             | [] => [NoTableData]
             | ts => table_result_of <$> ts
             end |}.

(** A section that [handle_product_page] passes over. *)
Definition is_ap (sec : section_element) : bool :=
  bool_decide (PyStr.strip (section_class sec) = "ap").

(** The documents of the sections of a page, in order: one for every
    section that is not passed over and has a title. *)
Definition section_documents (ist_timestamp : string) (p : page)
    (subcat_name1 subcat_name2 subcat_name3 category_name : string)
    (sections : list section_element) : list product_data :=
  omap (fun sec =>
          if is_ap sec then None
          else section_document ist_timestamp p (current_url p) sec
                 subcat_name1 subcat_name2 subcat_name3 category_name
                 <$> section_h3 sec)
       sections.

Section EntryPoint.

Variable web : string → page.
Variable ist_timestamp : string.

(** The loop of [main.py], [for attempt in range(n)]: a new scraper is
    made and run; [AccessRestrictedError] leads to the next attempt, any
    other exception leaves the loop and the program, and a run that
    returns ends the loop ([break]).  The [else] branch of the loop only
    prints. *)
Fixpoint main_attempts (n : nat) : M unit :=
  match n with
  | 0 => ret ()
  | S n' =>
      try_except
        (setup_driver ;; run web ist_timestamp)
        (fun e =>
           match e with
           | AccessRestrictedError => main_attempts n'
           | _ => raise e
           end)
  end.

Definition max_retries : nat := 5.

(** [main.py]: the import of the scraper module, then the loop. *)
Definition main : M unit :=
  module_init ;;
  main_attempts max_retries.

End EntryPoint.

(** A computation does not raise [AccessRestrictedError]. *)
Definition never_restricted {A} (m : M A) : Prop :=
  ∀ st, (m st).1 ≠ Raise AccessRestrictedError.

(** A computation that ends normally or with [AccessRestrictedError]. *)
Definition ok_or_restricted (m : M unit) : Prop :=
  ∀ st, (m st).1 = Ok () ∨ (m st).1 = Raise AccessRestrictedError.
(* ===================================================================== *)
(** ** Concrete inputs *)

(** A table whose header has the two labels Material and Length and whose
    only body row has a single data cell. *)
Definition short_row_table : table_element :=
  {| table_tbody :=
       Some [ {| tr_th := Some "2-56"; tr_td := ["Steel"];
                 tr_text := "2-56 Steel" |} ];
     table_thead := Some ["Material"; "Length"] |}.


(** The two body rows of the example of the specification: dimension
    2-56, a first row with the row header 2-56 and the cells Steel and
    10mm, a second row with the cells Brass and 12mm. *)
Definition example_rows : list tr_element :=
  [ {| tr_th := Some "2-56"; tr_td := ["Steel"; "10mm"];
       tr_text := "2-56 Steel 10mm" |};
    {| tr_th := None; tr_td := ["Brass"; "12mm"];
       tr_text := "Brass 12mm" |} ].

(** The example without a [<thead>]. *)
Definition example_table_no_thead : table_element :=
  {| table_tbody := Some example_rows; table_thead := None |}.

(** The example with the labels Material and Length in the cells of a
    [<thead>]. *)
Definition example_table_thead : table_element :=
  {| table_tbody := Some example_rows;
     table_thead := Some ["Material"; "Length"] |}.

(** A small site.  The home page has five leading categories, which [run]
    passes over, and one category with one subcategory block. *)
Definition filler_category : category_element :=
  {| category_h1 := Some "Filler"; category_subcats := [] |}.

Definition home_page (items : list subcat_item) : page :=
  {| current_url := base_url;
     ProdDatProtection_visible := false;
     MainContent_visible := true;
     page_tables := [];
     ClientRenderedContent := None;
     GroupPrsnttn := [];
     PageCntnr := None;
     ProductPage := false;
     ProdPageContent := false;
     HomePageContent :=
       Some (true,
             replicate 5 filler_category ++
             [ {| category_h1 := Some "Fastening";
                  category_subcats :=
                    [ {| block_h2 := Some "Fasteners";
                         block_items := items |} ] |} ]) |}.

Definition socket_cap_section : section_element :=
  {| section_class := "prod";
     section_h3 := Some "Socket Cap";
     section_img_src := [Some " cap.png "; None];
     section_CpyCntnr := Some "Alloy steel." |}.

(** A page with one table and one product section; [indicator] says
    whether its data-protection element is visible, [loaded] whether its
    main content becomes visible. *)
Definition table_page (url : string) (indicator loaded : bool) : page :=
  {| current_url := url;
     ProdDatProtection_visible := indicator;
     MainContent_visible := loaded;
     page_tables := [example_table_thead];
     ClientRenderedContent := None;
     GroupPrsnttn := [];
     PageCntnr := Some [socket_cap_section];
     ProductPage := true;
     ProdPageContent := true;
     HomePageContent := None |}.

(** A page that has group-presentation containers inside its page
    container and the product-page marker as well, and no table. *)
Definition groups_and_marker_page : page :=
  {| current_url := "https://www.mcmaster.com/washers";
     ProdDatProtection_visible := false;
     MainContent_visible := true;
     page_tables := [];
     ClientRenderedContent := None;
     GroupPrsnttn :=
       [ {| group_visible := true; group_in_PageCntnr := true;
            group_h3 := Some "Washers"; group_anchors := [] |} ];
     PageCntnr := Some [socket_cap_section];
     ProductPage := true;
     ProdPageContent := true;
     HomePageContent := None |}.

Definition screws_item : subcat_item :=
  {| item_text := "Screws"; item_a_href := Some "https://www.mcmaster.com/screws" |}.

Definition nuts_item : subcat_item :=
  {| item_text := "Nuts"; item_a_href := Some "https://www.mcmaster.com/nuts" |}.

(** The site whose only leaf is the table page for Screws. *)
Definition screws_site (indicator : bool) (url : string) : page :=
  if String.eqb url base_url then home_page [screws_item]
  else if String.eqb url "https://www.mcmaster.com/screws"
       then table_page url indicator true
       else blank_page.

(** The site with two leaves; the page for Screws never shows its main
    content, the page for Nuts is a table page. *)
Definition two_leaf_site (url : string) : page :=
  if String.eqb url base_url then home_page [screws_item; nuts_item]
  else if String.eqb url "https://www.mcmaster.com/screws"
       then table_page url false false
       else if String.eqb url "https://www.mcmaster.com/nuts"
            then table_page url false true
            else blank_page.

(** A fresh process: nothing learned, an empty collection, a browser with
    one empty window. *)
Definition fresh_state : state :=
  {| things_to_skip := [];
     skip_file := FileText [] true;
     skip_file_writable := true;
     collection := [];
     window_handles := [blank_page];
     current_window := 0;
     log := [] |}.

(** A document for the Screws page, as an earlier session stored it. *)
Definition stored_screws_document : product_data :=
  {| category := "Fastening";
     subcategory_1 := "Fasteners";
     subcategory_2 := "Screws";
     subcategory_3 := "";
     title := "Socket Cap";
     link := "https://www.mcmaster.com/screws";
     timestamp := "2025-01-01 10:00:00 AM IST";
     images := [];
     description := None;
     data := [] |}.

Definition the_timestamp : string := "2025-01-02 10:00:00 AM IST".

(** A browser whose only window shows [groups_and_marker_page]. *)
Definition groups_and_marker_state : state :=
  set_windows [groups_and_marker_page] 0 fresh_state.

(** A resumed session: the product of the Screws page was stored and its
    title learned, the crawl key of the page was not. *)
Definition resumed_state : state :=
  {| things_to_skip := ["Socket Cap"];
     skip_file := FileText ["Socket Cap"] true;
     skip_file_writable := true;
     collection := [stored_screws_document];
     window_handles := [blank_page];
     current_window := 0;
     log := [] |}.

(** A subcategory index with two tiles: the first has no image element,
    the second leads to the table page for Nuts. *)
Definition broken_tile : subcat_tile :=
  {| tile_href := "https://www.mcmaster.com/screws";
     tile_image := None;
     tile_title := Some "Screws";
     tile_copy := Some "";
     tile_product_count := Some "12 products" |}.

Definition nuts_tile : subcat_tile :=
  {| tile_href := "https://www.mcmaster.com/nuts";
     tile_image := Some "nuts.png";
     tile_title := Some " Nuts ";
     tile_copy := Some "";
     tile_product_count := Some "7 products" |}.

Definition subcat_index_page : page :=
  {| current_url := "https://www.mcmaster.com/fasteners";
     ProdDatProtection_visible := false;
     MainContent_visible := true;
     page_tables := [];
     ClientRenderedContent := Some (true, [broken_tile; nuts_tile]);
     GroupPrsnttn := [];
     PageCntnr := None;
     ProductPage := false;
     ProdPageContent := false;
     HomePageContent := None |}.

Definition subcat_index_state : state :=
  set_windows [blank_page; subcat_index_page] 1 fresh_state.

(** The process is about to save the list after it learned a second key;
    the file holds the list as it was before. *)
Definition before_save_state : state :=
  set_skip_file (FileText ["Socket Cap"] true)
    (set_things_to_skip ["Socket Cap"; "Fastening/Screws"] fresh_state).

(* ===================================================================== *)
(** ** Further concrete inputs *)

(** A page that matches no kind: its main content shows, and it has no
    table, no rendered-content container, no group and no page container. *)
Definition plain_page : page :=
  {| current_url := "https://www.mcmaster.com/about";
     ProdDatProtection_visible := false;
     MainContent_visible := true;
     page_tables := [];
     ClientRenderedContent := None;
     GroupPrsnttn := [];
     PageCntnr := None;
     ProductPage := false;
     ProdPageContent := false;
     HomePageContent := None |}.

Definition about_tile : subcat_tile :=
  {| tile_href := "https://www.mcmaster.com/about";
     tile_image := Some "about.png";
     tile_title := Some " About ";
     tile_copy := Some "";
     tile_product_count := Some "" |}.

Definition about_item : subcat_item :=
  {| item_text := "About"; item_a_href := Some "https://www.mcmaster.com/about" |}.

(** A site whose only other page is [plain_page]. *)
Definition plain_site (url : string) : page :=
  if String.eqb url base_url then home_page [about_item]
  else if String.eqb url "https://www.mcmaster.com/about" then plain_page
       else blank_page.

(** An anchor of a types index that leads to the Screws page. *)
Definition screws_anchor : type_anchor :=
  {| anchor_href := "https://www.mcmaster.com/screws";
     anchor_ke := Some "Machine Screws" |}.

(** A session in which the document of the Screws page is stored and the
    title of the anchor is not yet known. *)
Definition stored_state : state :=
  set_windows [blank_page; subcat_index_page] 1
    (set_collection [stored_screws_document] fresh_state).

(** A subcategory block of the home page with the two leaves, and a
    session that has learned the keys of both. *)
Definition fasteners_block : subcat_block :=
  {| block_h2 := Some "Fasteners";
     block_items := [screws_item; nuts_item] |}.

Definition both_learned_state : state :=
  set_things_to_skip ["Fastening/Screws"; "Fastening/Nuts"] fresh_state.

(** A types index with one visible group of one product, open in the
    second window. *)
Definition screws_group : type_group :=
  {| group_visible := true;
     group_in_PageCntnr := false;
     group_h3 := Some "Screws";
     group_anchors := [screws_anchor] |}.

Definition types_index_page : page :=
  {| current_url := "https://www.mcmaster.com/fasteners/screws";
     ProdDatProtection_visible := false;
     MainContent_visible := true;
     page_tables := [];
     ClientRenderedContent := None;
     GroupPrsnttn := [screws_group];
     PageCntnr := None;
     ProductPage := false;
     ProdPageContent := false;
     HomePageContent := None |}.

Definition types_index_state : state :=
  set_windows [blank_page; types_index_page] 1 fresh_state.
(* ===================================================================== *)
(** * Properties of the table extractor *)

Section ExtractorLoop.

Variables (d : option string) (hs : list string).

Lemma row_step_fst st row :
  (row_step d hs st row).1 = update_property_b d st.1 row.
Proof. unfold row_step. by destruct (tr_td row). Qed.

Lemma row_step_snd st row :
  (row_step d hs st row).2 =
  st.2 ++ match tr_td row with
          | [] => []
          | cells => [fill_cells hs 0 cells
                        (new_row_data d (update_property_b d st.1 row))]
          end.
Proof. unfold row_step. destruct (tr_td row); simpl; by rewrite ?app_nil_r. Qed.

(** The records already collected do not influence the rest of the
    loop. *)
Lemma foldl_row_step_acc rows b acc :
  foldl (row_step d hs) (b, acc) rows =
  ((foldl (row_step d hs) (b, []) rows).1,
   acc ++ (foldl (row_step d hs) (b, []) rows).2).
Proof.
  revert b acc. induction rows as [|row rows IH]; intros b acc; simpl.
  - by rewrite app_nil_r.
  - destruct (row_step d hs (b, acc) row) as [b1 acc1] eqn:E1.
    destruct (row_step d hs (b, []) row) as [b2 acc2] eqn:E2.
    pose proof (row_step_fst (b, acc) row) as F1.
    pose proof (row_step_fst (b, []) row) as F2.
    pose proof (row_step_snd (b, acc) row) as S1.
    pose proof (row_step_snd (b, []) row) as S2.
    rewrite E1 in F1, S1. rewrite E2 in F2, S2. simpl in *. subst.
    rewrite (IH _ (acc ++ _)).
    rewrite (IH _ (match tr_td row with [] => [] | _ => _ end)).
    simpl. by rewrite app_assoc.
Qed.

Lemma parse_rows_app pre post :
  parse_rows d hs (pre ++ post) =
  ((foldl (row_step d hs) ((parse_rows d hs pre).1, []) post).1,
   (parse_rows d hs pre).2 ++
   (foldl (row_step d hs) ((parse_rows d hs pre).1, []) post).2).
Proof.
  unfold parse_rows. rewrite foldl_app.
  destruct (foldl (row_step d hs) (None, []) pre) as [b acc]. simpl.
  apply foldl_row_step_acc.
Qed.

(** The records come out in the order of the rows that have data cells,
    one for each, and each is the starting dict filled with the cells
    of its row. *)
Lemma foldl_row_step_records rows b :
  Forall2 (fun row rec =>
             tr_td row ≠ [] ∧
             ∃ b', rec = fill_cells hs 0 (tr_td row) (new_row_data d b'))
    (filter (fun row => tr_td row ≠ []) rows)
    (foldl (row_step d hs) (b, []) rows).2.
Proof.
  revert b. induction rows as [|row rows IH]; intros b; simpl.
  - constructor.
  - destruct (row_step d hs (b, []) row) as [b1 acc1] eqn:E1.
    pose proof (row_step_fst (b, []) row) as F1.
    pose proof (row_step_snd (b, []) row) as S1.
    rewrite E1 in F1, S1. simpl in *. subst.
    rewrite foldl_row_step_acc. simpl.
    rewrite filter_cons. destruct (tr_td row) eqn:Ec.
    + rewrite decide_False by (intros H; by apply H). simpl. apply IH.
    + rewrite decide_True by done. simpl. constructor; [|apply IH].
      rewrite Ec. eauto.
Qed.

(** A row without a qualifying header cell leaves the running label as
    it was. *)
Lemma foldl_row_step_inherit rows b :
  Forall (fun row => update_property_b d b row = b) rows →
  (foldl (row_step d hs) (b, []) rows).1 = b.
Proof.
  induction 1 as [|row rows Hrow _ IH]; simpl; [done|].
  destruct (row_step d hs (b, []) row) as [b1 acc1] eqn:E1.
  pose proof (row_step_fst (b, []) row) as F1. rewrite E1 in F1.
  simpl in F1. subst b1. rewrite foldl_row_step_acc. simpl.
  by rewrite Hrow.
Qed.

(** Filling in cells never removes a key and adds at most one key for
    each header from position [i] on. *)
Lemma fill_cells_is_Some cells i (m : row_record) k :
  is_Some (m !! k) → is_Some (fill_cells hs i cells m !! k).
Proof.
  revert i m. induction cells as [|cell rest IH]; intros i m Hk; simpl; [done|].
  apply IH. destruct (hs !! i) as [h|]; [|done].
  destruct (decide (h = k)) as [->|Hne].
  - rewrite lookup_insert_eq. eauto.
  - by rewrite lookup_insert_ne.
Qed.

Lemma fill_cells_size cells i (m : row_record) :
  size (fill_cells hs i cells m) ≤ size m + (length hs - i).
Proof.
  revert i m. induction cells as [|cell rest IH]; intros i m; simpl; [lia|].
  destruct (hs !! i) as [h|] eqn:Hi.
  - apply lookup_lt_Some in Hi.
    etrans; [apply IH|].
    destruct (m !! h) eqn:Hm.
    + rewrite map_size_insert_Some by eauto. lia.
    + rewrite map_size_insert_None by done. lia.
  - etrans; [apply IH|]. lia.
Qed.

Lemma fill_cells_lookup_header cells i j (m : row_record) k :
  hs !! j = Some k → i ≤ j < i + length cells →
  is_Some (fill_cells hs i cells m !! k).
Proof.
  revert i m. induction cells as [|cell rest IH]; intros i m Hj Hij; simpl in *;
    [lia|].
  destruct (decide (i = j)) as [->|Hne].
  - apply fill_cells_is_Some. rewrite Hj, lookup_insert_eq. eauto.
  - apply IH; [done|lia].
Qed.

End ExtractorLoop.

Lemma fill_cells_past_headers hs cells i (m : row_record) :
  length hs ≤ i → fill_cells hs i cells m = m.
Proof.
  revert i m. induction cells as [|cell rest IH]; intros i m Hi; simpl; [done|].
  rewrite (lookup_ge_None_2 hs i) by done. apply IH. lia.
Qed.

Lemma insert_before_last_length {A} (x : A) (l : list A) :
  length (PyList.insert (-1) x l) = S (length l).
Proof.
  unfold PyList.insert. simpl.
  rewrite length_app. simpl. rewrite length_take, length_drop. lia.
Qed.

Lemma insert_before_last_lookup {A} (x : A) (l : list A) :
  PyList.insert (-1) x l !! (length l - 1) = Some x.
Proof.
  unfold PyList.insert. simpl.
  replace (Z.to_nat (Z.max 0 (Z.of_nat (length l) + -1))) with (length l - 1)
    by lia.
  rewrite lookup_app_r by (rewrite length_take; lia).
  rewrite length_take.
  by replace (length l - 1 - (length l - 1) `min` length l) with 0 by lia.
Qed.

Lemma header_loop_empty header_cells headers :
  Forall (fun c => strip_replace c = "") header_cells →
  header_loop header_cells headers = headers.
Proof.
  intros H. revert headers.
  induction H as [|c cells Hc _ IH]; intros headers; simpl; [done|].
  rewrite Hc. simpl. apply IH.
Qed.

Lemma new_row_data_size d b : size (new_row_data d b) = 2.
Proof.
  unfold new_row_data.
  rewrite map_size_insert_None by by rewrite lookup_insert_ne.
  by rewrite map_size_insert_None, map_size_empty.
Qed.

(** The extractor returns for every table: with a body, the records of
    the loop. *)
Lemma extract_with_body table rows :
  table_tbody table = Some rows →
  extract_data_from_table_ele table =
  Ok (parse_rows (dimension_of rows) (headers_of table) rows).2.
Proof.
  intros Hb. unfold extract_data_from_table_ele, extract_try.
  by rewrite Hb.
Qed.

Lemma extract_never_raises table :
  ∃ recs, extract_data_from_table_ele table = Ok recs.
Proof.
  destruct (table_tbody table) as [rows|] eqn:Hb.
  - erewrite extract_with_body by done. eauto.
  - unfold extract_data_from_table_ele, extract_try. rewrite Hb. simpl. eauto.
Qed.

(* --------------------------------------------------------------------- *)

(** C7: [extract_data_from_table_ele] returns the empty list, and raises
    nothing, when the table has no [<tbody>] at all and also when its
    [<tbody>] has no rows. *)
Theorem extract_without_rows_is_empty (table : table_element) :
  table_tbody table = None ∨ table_tbody table = Some [] →
  extract_data_from_table_ele table = Ok [].
Proof.
  intros [Hb|Hb].
  - unfold extract_data_from_table_ele, extract_try. by rewrite Hb.
  - by rewrite (extract_with_body _ _ Hb).
Qed.

Lemma extract_without_rows_is_empty_witness :
  extract_data_from_table_ele
    {| table_tbody := None; table_thead := Some ["Material"] |} = Ok [] ∧
  extract_data_from_table_ele
    {| table_tbody := Some []; table_thead := Some ["Material"] |} = Ok [].
Proof.
  split; apply extract_without_rows_is_empty; simpl; [by left | by right].
Defined.

(* --------------------------------------------------------------------- *)

(** C3, as stated, fails: with two header labels [serial_nu] is the
    second header, and the record of a row that has one data cell has no
    such key. *)
Lemma serial_nu_missing_in_short_row :
  ∃ rec, extract_data_from_table_ele short_row_table = Ok [rec] ∧
         rec !! "Material" = Some (Some "Steel") ∧
         rec !! "serial_nu" = None.
Proof. eexists. split; [reflexivity|]. split; by vm_compute. Qed.

(** C3, amended: for a table with [N] non-empty header labels the
    extractor returns one record for each body row that has data cells, in
    order; none has more than [N+3] keys, and the record of a row with at
    least [N] data cells has the key [serial_nu]. *)
Theorem row_record_keys (table : table_element) (rows : list tr_element) :
  table_tbody table = Some rows →
  let N := length (header_labels table) in
  ∃ recs,
    extract_data_from_table_ele table = Ok recs ∧
    Forall2 (fun row (rec : row_record) =>
               size rec ≤ N + 3 ∧
               (N ≤ length (tr_td row) → is_Some (rec !! "serial_nu")))
      (filter (fun row => tr_td row ≠ []) rows) recs.
Proof.
  intros Hb N. eexists. split; [by apply extract_with_body|].
  unfold parse_rows.
  eapply Forall2_impl; [apply foldl_row_step_records|].
  intros row rec [Hcells [b ->]]. split.
  - etrans; [apply fill_cells_size|].
    rewrite new_row_data_size. unfold headers_of.
    rewrite insert_before_last_length. fold N. lia.
  - intros HN.
    eapply (fill_cells_lookup_header _ _ 0 (N - 1));
      [apply insert_before_last_lookup|].
    destruct (tr_td row); [done|]. simpl in *. lia.
Qed.

Lemma row_record_keys_witness :
  ∃ recs,
    extract_data_from_table_ele example_table_thead = Ok recs ∧
    Forall2 (fun row (rec : row_record) =>
               size rec ≤ 2 + 3 ∧
               (2 ≤ length (tr_td row) → is_Some (rec !! "serial_nu")))
      (filter (fun row => tr_td row ≠ []) example_rows) recs.
Proof. apply (row_record_keys example_table_thead). reflexivity. Defined.

(* --------------------------------------------------------------------- *)

(** C4, as stated, fails: header labels are read from the cells of a
    [<thead>] and from nowhere else, so without one the first record of
    the example has no key Material; its first cell is stored under
    [serial_nu]. *)
Lemma example_no_thead_has_no_Material :
  ∃ rec1 rec2,
    extract_data_from_table_ele example_table_no_thead = Ok [rec1; rec2] ∧
    rec1 !! "Material" = None ∧
    rec1 !! "serial_nu" = Some (Some "Steel").
Proof. do 2 eexists. split; [reflexivity|]. split; by vm_compute. Qed.

(** C4, amended: when the labels Material and Length are the cells of a
    [<thead>], the extractor returns exactly two records for the example;
    both have Property A = 2-56; the first has Material = Steel and
    [serial_nu] = 10mm and no key Length, the second has Material = Brass
    and [serial_nu] = 12mm and no key Length. *)
Theorem example_thead_records :
  ∃ rec1 rec2 : row_record,
    extract_data_from_table_ele example_table_thead = Ok [rec1; rec2] ∧
    (rec1 !! "Property A" = Some (Some "2-56") ∧
     rec1 !! "Material" = Some (Some "Steel") ∧
     rec1 !! "serial_nu" = Some (Some "10mm") ∧
     rec1 !! "Length" = None) ∧
    (rec2 !! "Property A" = Some (Some "2-56") ∧
     rec2 !! "Material" = Some (Some "Brass") ∧
     rec2 !! "serial_nu" = Some (Some "12mm") ∧
     rec2 !! "Length" = None).
Proof. do 2 eexists. split; [reflexivity|]. by vm_compute. Qed.

(* --------------------------------------------------------------------- *)

(** C6: one more body row changes the running Property B value only when
    the row has a row-header cell whose text is non-empty and differs from
    the dimension value, and then the value is that text; after any other
    row the value is the one before it.  The record of the row is started
    with the value so obtained, and any run of rows without such a header
    cell leaves the value as it was. *)
Theorem property_b_changes_only_on_row_header
    (d : option string) (hs : list string) (pre : list tr_element)
    (row : tr_element) :
  let before := (parse_rows d hs pre).1 in
  let after := (parse_rows d hs (pre ++ [row])).1 in
  ((∃ th, tr_th row = Some th ∧ strip_replace th ≠ "" ∧
          Some (strip_replace th) ≠ d ∧ after = Some (strip_replace th))
   ∨
   ((tr_th row = None ∨
     ∃ th, tr_th row = Some th ∧
           (strip_replace th = "" ∨ Some (strip_replace th) = d)) ∧
    after = before)) ∧
  (parse_rows d hs (pre ++ [row])).2 =
    (parse_rows d hs pre).2 ++
    match tr_td row with
    | [] => []
    | cells => [fill_cells hs 0 cells (new_row_data d after)]
    end ∧
  (∀ rest,
     Forall (fun r => tr_th r = None ∨
                      ∃ th, tr_th r = Some th ∧
                            (strip_replace th = "" ∨ Some (strip_replace th) = d))
       rest →
     (parse_rows d hs ((pre ++ [row]) ++ rest)).1 = after).
Proof.
  intros before after.
  assert (after = update_property_b d before row) as Hafter.
  { unfold after. rewrite parse_rows_app. simpl. by rewrite row_step_fst. }
  clearbody after. subst after. subst before.
  split; [|split].
  - unfold update_property_b.
    destruct (tr_th row) as [th|]; simpl; [|right; eauto].
    destruct (strip_replace th) as [|c s] eqn:Hth; simpl.
    { right. split; [|done]. right. exists th. rewrite Hth. eauto. }
    case_bool_decide as Hd; simpl.
    + right. split; [|done]. right. exists th. rewrite Hth. eauto.
    + left. exists th. rewrite Hth. eauto.
  - rewrite parse_rows_app. simpl. by rewrite row_step_snd.
  - intros rest Hrest. rewrite parse_rows_app.
    rewrite (parse_rows_app _ _ pre [row]). simpl. rewrite row_step_fst. simpl.
    apply foldl_row_step_inherit.
    eapply Forall_impl; [exact Hrest|].
    intros r Hr. unfold update_property_b.
    destruct Hr as [->|(th & -> & Hth)]; simpl; [done|].
    destruct Hth as [->| ->]; simpl; [done|].
    rewrite bool_decide_true by done. by rewrite andb_false_r.
Qed.

(* --------------------------------------------------------------------- *)

(** C10: when the table has no [<thead>], or every cell of its [<thead>]
    has empty text (also after stripping), the header list is exactly
    [serial_nu]; every record then has exactly the keys Property A,
    Property B and [serial_nu], and [serial_nu] holds the (normalised)
    text of the first data cell of its row: the other cells are dropped. *)
Theorem no_header_labels_only_serial_nu
    (table : table_element) (rows : list tr_element) :
  table_thead table = None ∨
  (∃ cells, table_thead table = Some cells ∧
            Forall (fun c => strip_replace c = "") cells) →
  table_tbody table = Some rows →
  headers_of table = ["serial_nu"] ∧
  ∃ recs,
    extract_data_from_table_ele table = Ok recs ∧
    Forall2 (fun row (rec : row_record) =>
               dom rec = {["Property A"; "Property B"; "serial_nu"]} ∧
               rec !! "Property A" = Some (dimension_of rows) ∧
               rec !! "serial_nu" = Some (strip_replace <$> head (tr_td row)) ∧
               is_Some (head (tr_td row)))
      (filter (fun row => tr_td row ≠ []) rows) recs.
Proof.
  intros Hhead Hb.
  assert (headers_of table = ["serial_nu"]) as Hhs.
  { unfold headers_of, header_labels.
    destruct Hhead as [->|(cells & -> & Hcells)]; simpl; [done|].
    by rewrite header_loop_empty. }
  split; [done|].
  eexists. split; [by apply extract_with_body|].
  rewrite Hhs. unfold parse_rows.
  eapply Forall2_impl; [apply foldl_row_step_records|].
  intros row rec [Hcells [b ->]].
  destruct (tr_td row) as [|c cells]; [done|].
  cbn [fill_cells head fmap option_fmap option_map].
  change (["serial_nu"] !! 0) with (Some "serial_nu").
  rewrite fill_cells_past_headers by (simpl; lia).
  unfold new_row_data. split; [|split; [|split]].
  - rewrite !dom_insert_L, dom_empty_L. set_solver.
  - rewrite !lookup_insert_ne by done. by rewrite lookup_insert_eq.
  - by rewrite lookup_insert_eq.
  - eauto.
Qed.

Lemma no_header_labels_only_serial_nu_witness :
  headers_of example_table_no_thead = ["serial_nu"] ∧
  ∃ recs,
    extract_data_from_table_ele example_table_no_thead = Ok recs ∧
    Forall2 (fun row (rec : row_record) =>
               dom rec = {["Property A"; "Property B"; "serial_nu"]} ∧
               rec !! "Property A" = Some (dimension_of example_rows) ∧
               rec !! "serial_nu" = Some (strip_replace <$> head (tr_td row)) ∧
               is_Some (head (tr_td row)))
      (filter (fun row => tr_td row ≠ []) example_rows) recs.
Proof.
  apply (no_header_labels_only_serial_nu example_table_no_thead example_rows);
    [by left | reflexivity].
Defined.

(* ===================================================================== *)
(** * Properties of the traversal *)

(** ** Running the monad *)

Lemma bind_run {A B} (m : M A) (k : A → M B) st :
  (m ≫= k) st =
  match m st with
  | (Ok a, st') => k a st'
  | (Raise e, st') => (Raise e, st')
  end.
Proof. reflexivity. Qed.

Lemma bind_ok {A B} (m : M A) (k : A → M B) st a st' :
  m st = (Ok a, st') → (m ≫= k) st = k a st'.
Proof. intros H. by rewrite bind_run, H. Qed.

Lemma bind_ret {A B} (a : A) (k : A → M B) st : (ret a ≫= k) st = k a st.
Proof. reflexivity. Qed.

Lemma bind_lift_ok {A B} (a : A) (k : A → M B) st :
  (lift (Ok a) ≫= k) st = k a st.
Proof. reflexivity. Qed.

Lemma bind_lift_raise {A B} e (k : A → M B) st :
  (lift (Raise e) ≫= k) st = (Raise e, st).
Proof. reflexivity. Qed.

Lemma bind_get {A B} (f : state → A) (k : A → M B) st :
  (get f ≫= k) st = k (f st) st.
Proof. reflexivity. Qed.

Lemma bind_modify {B} (f : state → state) (k : () → M B) st :
  (modify f ≫= k) st = k () (f st).
Proof. reflexivity. Qed.

Lemma bind_raise_now {A B} e (k : A → M B) st :
  (raise e ≫= k) st = (Raise e, st).
Proof. reflexivity. Qed.

Lemma bind_assoc_run {A B C} (m : M A) (k1 : A → M B) (k2 : B → M C) st :
  ((m ≫= k1) ≫= k2) st = (m ≫= fun a => k1 a ≫= k2) st.
Proof. rewrite !bind_run. by destruct (m st) as [[a|e] st']. Qed.

Create Rewrite HintDb run_monad.
#[export] Hint Rewrite @bind_assoc_run @bind_ret @bind_lift_ok @bind_lift_raise
  @bind_get @bind_modify @bind_raise_now : run_monad.

Ltac run_monad := autorewrite with run_monad.

Lemma for_each_cons {A} (f : A → M unit) x xs st :
  for_each f (x :: xs) st =
  match f x st with
  | (Ok _, st') => for_each f xs st'
  | (Raise e, st') => (Raise e, st')
  end.
Proof. reflexivity. Qed.

Lemma for_each_app {A} (f : A → M unit) xs ys st :
  for_each f (xs ++ ys) st =
  match for_each f xs st with
  | (Ok _, st') => for_each f ys st'
  | (Raise e, st') => (Raise e, st')
  end.
Proof.
  revert st. induction xs as [|x xs IH]; intros st; [done|].
  simpl app. rewrite !for_each_cons.
  destruct (f x st) as [[[]|e] st1]; [apply IH|done].
Qed.

(** ** The probes on a loaded page *)

Section Probes.

Variables (st : state) (p : page).
Hypothesis Hcur : window_handles st !! current_window st = Some p.

Lemma current_page_eq : current_page st = (Ok p, st).
Proof. unfold current_page. by rewrite Hcur. Qed.

Lemma access_restricted_eq :
  access_restricted st = (Ok (ProdDatProtection_visible p), st).
Proof.
  unfold access_restricted, try_except.
  rewrite (bind_ok _ _ _ _ _ current_page_eq).
  by destruct (ProdDatProtection_visible p).
Qed.

Hypothesis Hloaded : MainContent_visible p = true.

Lemma wait_for_page_to_load_eq : wait_for_page_to_load st = (Ok (), st).
Proof.
  unfold wait_for_page_to_load.
  rewrite (bind_ok _ _ _ _ _ current_page_eq). by rewrite Hloaded.
Qed.

Lemma whether_table_page_or_not_eq :
  whether_table_page_or_not st = (Ok (has_table p), st).
Proof.
  unfold whether_table_page_or_not.
  rewrite (bind_ok _ _ _ _ _ wait_for_page_to_load_eq).
  unfold try_except. rewrite (bind_ok _ _ _ _ _ current_page_eq).
  unfold has_table. by destruct (page_tables p).
Qed.

Lemma whether_subcat_index_page_or_not_eq :
  whether_subcat_index_page_or_not st = (Ok (has_rendered_content p), st).
Proof.
  unfold whether_subcat_index_page_or_not.
  rewrite (bind_ok _ _ _ _ _ wait_for_page_to_load_eq).
  unfold try_except. rewrite (bind_ok _ _ _ _ _ current_page_eq).
  unfold has_rendered_content. by destruct (ClientRenderedContent p).
Qed.

Lemma whether_types_index_page_or_not_eq :
  whether_types_index_page_or_not st = (Ok (has_groups p), st).
Proof.
  unfold whether_types_index_page_or_not.
  rewrite (bind_ok _ _ _ _ _ wait_for_page_to_load_eq).
  unfold try_except. by rewrite (bind_ok _ _ _ _ _ current_page_eq).
Qed.

Lemma whether_product_page_or_not_eq :
  whether_product_page_or_not st = (Ok (has_product_shape p), st).
Proof.
  unfold whether_product_page_or_not.
  rewrite (bind_ok _ _ _ _ _ wait_for_page_to_load_eq).
  unfold try_except. rewrite (bind_ok _ _ _ _ _ current_page_eq).
  unfold has_product_shape. destruct (PageCntnr p); [|done].
  cbn. destruct (_ =? 0)%nat; [done|].
  by destruct (ProductPage p).
Qed.

End Probes.

(* --------------------------------------------------------------------- *)

(** C5, as stated, fails: on [groups_and_marker_page] the types-index
    check and the product check both answer yes and the three checks
    before them answer no, so the specified precedence gives Types-Index;
    the dispatch of [handle_subcategories_index_page] asks the product
    check first and runs the product handler, which stores a document that
    the types-index handler would not. *)
Lemma subcat_dispatch_prefers_product :
  let st := groups_and_marker_state in
  let dispatch :=
    subcat_dispatch two_leaf_site the_timestamp "https://www.mcmaster.com/washers"
      "Fasteners" "Washers" "Fastening" "Flat" in
  access_restricted st = (Ok false, st) ∧
  whether_table_page_or_not st = (Ok false, st) ∧
  whether_subcat_index_page_or_not st = (Ok false, st) ∧
  whether_types_index_page_or_not st = (Ok true, st) ∧
  whether_product_page_or_not st = (Ok true, st) ∧
  specified_precedence false false false true true = KTypesIndex ∧
  dispatch st =
    handle_product_page the_timestamp "https://www.mcmaster.com/washers"
      "Fasteners" "Washers" "Fastening" "Flat" "" st ∧
  length (collection (dispatch st).2) = 1 ∧
  collection
    (handle_types_index_page two_leaf_site the_timestamp
       "Fasteners" "Washers" "Fastening" "Flat" st).2 = [].
Proof. repeat split; by vm_compute. Qed.

(** C5, amended: with the access check first at both places, [run]
    decides Table Page, then Subcategory-Index, then Types-Index, else
    Unknown, and never asks the product check;
    [handle_subcategories_index_page] decides Table Page, then Product
    Page, then Types-Index, else nothing, and never asks the
    subcategory-index check.  (The access check is taken as what
    [access_restricted] answers.) *)
Theorem dispatch_orders (web : string → page) (ts : string)
    (link name1 name2 cat name3 key : string)
    (st : state) (p : page) (restricted : bool) :
  window_handles st !! current_window st = Some p →
  MainContent_visible p = true →
  (access_restricted st).1 = Ok restricted →
  run_dispatch web ts link name1 name2 cat key st =
    match run_order restricted p with
    | KAccessRestricted => raise AccessRestrictedError st
    | KTablePage =>
        (handle_product_page ts link name1 name2 cat "" "" ;;
         add_to_skip_list key) st
    | KSubcategoryIndex =>
        (handle_subcategories_index_page web ts name1 name2 cat ;;
         add_to_skip_list key) st
    | KTypesIndex =>
        (handle_types_index_page web ts name1 name2 cat "" ;;
         add_to_skip_list key) st
    | _ => logging_warning "Unhandeled page encountered" st
    end ∧
  subcat_dispatch web ts link name1 name2 cat name3 st =
    match subcat_order restricted p with
    | KAccessRestricted => raise AccessRestrictedError st
    | KTablePage | KProductPage =>
        handle_product_page ts link name1 name2 cat name3 "" st
    | KTypesIndex => handle_types_index_page web ts name1 name2 cat name3 st
    | _ => ret () st
    end.
Proof.
  intros Hcur Hloaded Hr.
  rewrite (access_restricted_eq _ _ Hcur) in Hr. simpl in Hr.
  injection Hr as Hr.
  split.
  - unfold run_dispatch, run_order.
    rewrite (bind_ok _ _ _ _ _ (access_restricted_eq _ _ Hcur)), Hr.
    destruct restricted; [done|].
    rewrite (bind_ok _ _ _ _ _ (whether_table_page_or_not_eq _ _ Hcur Hloaded)).
    destruct (has_table p); [done|].
    rewrite (bind_ok _ _ _ _ _
               (whether_subcat_index_page_or_not_eq _ _ Hcur Hloaded)).
    destruct (has_rendered_content p); [done|].
    rewrite (bind_ok _ _ _ _ _
               (whether_types_index_page_or_not_eq _ _ Hcur Hloaded)).
    by destruct (has_groups p).
  - unfold subcat_dispatch, subcat_order.
    rewrite (bind_ok _ _ _ _ _ (access_restricted_eq _ _ Hcur)), Hr.
    destruct restricted; [done|].
    rewrite (bind_ok _ _ _ _ _ (whether_table_page_or_not_eq _ _ Hcur Hloaded)).
    destruct (has_table p); [done|].
    rewrite (bind_ok _ _ _ _ _
               (whether_product_page_or_not_eq _ _ Hcur Hloaded)).
    destruct (has_product_shape p); [done|].
    rewrite (bind_ok _ _ _ _ _
               (whether_types_index_page_or_not_eq _ _ Hcur Hloaded)).
    by destruct (has_groups p).
Qed.

Lemma dispatch_orders_witness :
  run_dispatch two_leaf_site the_timestamp "https://www.mcmaster.com/washers"
    "Fasteners" "Washers" "Fastening" "Fastening/Washers"
    groups_and_marker_state =
  (handle_types_index_page two_leaf_site the_timestamp
     "Fasteners" "Washers" "Fastening" "" ;;
   add_to_skip_list "Fastening/Washers") groups_and_marker_state ∧
  subcat_dispatch two_leaf_site the_timestamp "https://www.mcmaster.com/washers"
    "Fasteners" "Washers" "Fastening" "Flat" groups_and_marker_state =
  handle_product_page the_timestamp "https://www.mcmaster.com/washers"
    "Fasteners" "Washers" "Fastening" "Flat" "" groups_and_marker_state.
Proof.
  apply (dispatch_orders two_leaf_site the_timestamp
           "https://www.mcmaster.com/washers" "Fasteners" "Washers" "Fastening"
           "Flat" "Fastening/Washers" groups_and_marker_state
           groups_and_marker_page false); reflexivity.
Defined.

(* --------------------------------------------------------------------- *)

(** C1, the code at two inputs.  On the site whose Screws page shows the
    data-protection element, [run] raises [AccessRestrictedError] and
    stores nothing; on the same site with the element never visible, [run]
    completes and stores the product of the page. *)
Theorem run_raises_when_indicator_visible :
  let shown := run (screws_site true) the_timestamp fresh_state in
  let hidden := run (screws_site false) the_timestamp fresh_state in
  shown.1 = Raise AccessRestrictedError ∧
  collection shown.2 = [] ∧
  hidden.1 = Ok () ∧
  link <$> collection hidden.2 = ["https://www.mcmaster.com/screws"] ∧
  things_to_skip hidden.2 = ["Socket Cap"; "Fastening/Screws"].
Proof. repeat split; by vm_compute. Qed.

(** The same on every page: [access_restricted] answers the visibility of
    the element, and a dispatch on a page that shows it raises at once. *)
Lemma access_restricted_is_visibility st p :
  window_handles st !! current_window st = Some p →
  (access_restricted st).1 = Ok (ProdDatProtection_visible p).
Proof. intros Hcur. by rewrite (access_restricted_eq _ _ Hcur). Qed.

Lemma dispatch_raises_when_indicator_visible web ts link n1 n2 cat n3 key st p :
  window_handles st !! current_window st = Some p →
  ProdDatProtection_visible p = true →
  run_dispatch web ts link n1 n2 cat key st = (Raise AccessRestrictedError, st) ∧
  subcat_dispatch web ts link n1 n2 cat n3 st = (Raise AccessRestrictedError, st).
Proof.
  intros Hcur Hvis. unfold run_dispatch, subcat_dispatch.
  rewrite !(bind_ok _ _ _ _ _ (access_restricted_eq _ _ Hcur)).
  by rewrite Hvis.
Qed.

(* --------------------------------------------------------------------- *)

(** C2, the code at one input.  In [resumed_state] the collection holds a
    document whose link is the address of the Screws page.  [run] reaches
    that page as a table page and stores a second document with the same
    link. *)
Theorem run_stores_known_link_again :
  let after := run (screws_site false) the_timestamp resumed_state in
  link <$> collection resumed_state = ["https://www.mcmaster.com/screws"] ∧
  after.1 = Ok () ∧
  link <$> collection after.2 =
    ["https://www.mcmaster.com/screws"; "https://www.mcmaster.com/screws"].
Proof. repeat split; by vm_compute. Qed.

(** The same on every page: [product_section_scrape_data] stores a
    document for a section that has a title, whatever the collection
    holds already. *)
Lemma tables_loop_returns tables acc st :
  ∃ data, tables_loop tables acc st = (Ok data, st).
Proof.
  revert acc. induction tables as [|t tables IH]; intros acc; simpl.
  - by eexists.
  - destruct (extract_never_raises t) as [recs ->]. apply IH.
Qed.

Lemma add_to_skip_list_collection key st :
  collection (add_to_skip_list key st).2 = collection st.
Proof.
  unfold add_to_skip_list. run_monad.
  destruct (PyList.contains key _); [done|].
  unfold things_to_skip_append. run_monad.
  unfold save_skip_list, try_except, open_w_json_dump. simpl.
  by destruct (skip_file_writable st).
Qed.

Lemma product_section_always_inserts ts l sec n1 n2 n3 cat st t :
  section_h3 sec = Some t →
  ∃ doc,
    link doc = l ∧ title doc = t ∧
    collection (product_section_scrape_data ts l sec n1 n2 n3 cat st).2 =
    collection st ++ [doc].
Proof.
  intros Hh3. unfold product_section_scrape_data. rewrite Hh3.
  simpl find_element. run_monad. rewrite bind_run.
  match goal with
  | |- context [try_except ?m ?h st] =>
      assert (∃ data st1, try_except m h st = (Ok data, st1) ∧
                          collection st1 = collection st) as (data & st1 & -> & Hc)
  end.
  { unfold try_except. rewrite bind_run. unfold current_page.
    destruct (window_handles st !! current_window st) as [p|]; simpl.
    - destruct (page_tables p) as [|tb tbs] eqn:Htb; run_monad.
      + unfold logging_warning. run_monad. by do 2 eexists.
      + destruct (tables_loop_returns (tb :: tbs) [] st) as [data ->].
        by do 2 eexists.
    - unfold logging_error. run_monad. by do 2 eexists. }
  unfold insert_document. run_monad.
  eexists. split; [|split]; cycle 2.
  { destruct (PyStr.truthy t); [rewrite add_to_skip_list_collection|];
      simpl; rewrite Hc; reflexivity. }
  all: reflexivity.
Qed.

(** The types-index handler does make the check: a product whose link is
    in the collection is not opened and not stored, and its title is
    learned. *)
Lemma types_product_known_link web ts name1 name2 cat name3 type_e t doc st :
  anchor_ke type_e = Some t →
  t ∉ things_to_skip st →
  (find_document (anchor_href type_e) st).1 = Ok (Some doc) →
  types_product_body web ts name1 name2 cat name3 type_e st =
  add_to_skip_list t st.
Proof.
  intros Hke Hnew Hfound. unfold types_product_body.
  rewrite Hke. simpl. run_monad.
  unfold PyList.contains. rewrite bool_decide_false by done.
  unfold find_document in *. run_monad. rewrite bind_get in Hfound.
  simpl in Hfound. injection Hfound as ->. done.
Qed.

(* --------------------------------------------------------------------- *)
(** ** Exceptions in the handlers *)

Lemma for_each_raise_at {A} (f : A → M unit) pre x post st s1 e s2 :
  for_each f pre st = (Ok (), s1) →
  f x s1 = (Raise e, s2) →
  for_each f (pre ++ x :: post) st = (Raise e, s2).
Proof.
  intros Hpre Hx. by rewrite for_each_app, Hpre, for_each_cons, Hx.
Qed.

(** What the two handlers of a per-item [try] make of an exception. *)
Lemma except_continue_raise msg (body : M unit) st e s2 :
  body st = (Raise e, s2) →
  except_continue msg body st =
  if decide (e = AccessRestrictedError)
  then (Raise AccessRestrictedError, s2)
  else (Ok (), add_log (error_record msg (Some e)) s2).
Proof.
  intros Hb. unfold except_continue, try_except. rewrite Hb.
  by destruct e.
Qed.

(** C8: [run] lacks the handler that both index handlers have around one
    child item, so an exception other than [AccessRestrictedError] raised
    for one leaf item ends the whole traversal instead of being logged
    and passed over.  On [two_leaf_site] the page of the first leaf never
    shows its main content, the table check raises [TimeoutException],
    and [run] logs it and raises it again; the second leaf, a table page
    that the subcategory handler would go on to (see
    [subcat_handler_continues_after_broken_tile]), is not visited and
    nothing is stored. *)
Lemma run_stops_at_first_failing_leaf :
  let after := run two_leaf_site the_timestamp fresh_state in
  after.1 = Raise TimeoutException ∧
  collection after.2 = [] ∧
  things_to_skip after.2 = [] ∧
  log after.2 =
    [error_record "Error in main run function" (Some TimeoutException)].
Proof. repeat split; by vm_compute. Qed.

(** The exception discipline of the traversal as the code has it.  In
    the subcategory-index handler and in the types-index handler (for a
    type group and for a product of a group) an [AccessRestrictedError]
    raised while one child item is processed leaves the handler unchanged,
    in the state in which it was raised; any other exception of the child
    is logged and the iteration goes on with the next sibling.  [run] has
    no handler around one child: whatever a leaf item raises ends the
    loops, and [run] logs it, quits the driver and raises it again,
    [AccessRestrictedError] or not. *)
Theorem handlers_exception_discipline (web : string → page) (ts : string) :
  (∀ name1 name2 cat st p pre t post s1 e s2,
     window_handles st !! current_window st = Some p →
     ClientRenderedContent p = Some (true, pre ++ t :: post) →
     for_each (subcat_tile_item web ts name1 name2 cat) pre st = (Ok (), s1) →
     subcat_tile_body web ts name1 name2 cat t s1 = (Raise e, s2) →
     handle_subcategories_index_page web ts name1 name2 cat st =
     if decide (e = AccessRestrictedError)
     then (Raise AccessRestrictedError, s2)
     else except_reraise "Failed to process subcategories index page"
            (for_each (subcat_tile_item web ts name1 name2 cat) post)
            (add_log (error_record "Error processing subcategory item" (Some e))
               s2)) ∧
  (∀ name1 name2 cat name3 st p pre g post s1 e s2,
     window_handles st !! current_window st = Some p →
     GroupPrsnttn p = pre ++ g :: post →
     forallb group_visible (pre ++ g :: post) = true →
     for_each (types_group_item web ts name1 name2 cat name3) pre st
       = (Ok (), s1) →
     types_group_body web ts name1 name2 cat name3 g s1 = (Raise e, s2) →
     handle_types_index_page web ts name1 name2 cat name3 st =
     if decide (e = AccessRestrictedError)
     then (Raise AccessRestrictedError, s2)
     else except_reraise "Failed to process types index page"
            (for_each (types_group_item web ts name1 name2 cat name3) post)
            (add_log (error_record "Error processing type group" (Some e)) s2)) ∧
  (∀ name1 name2 cat name3 g h3 pre a post st s1 e s2,
     group_h3 g = Some h3 →
     group_anchors g = pre ++ a :: post →
     for_each (types_product_item web ts name1 name2 cat name3) pre st
       = (Ok (), s1) →
     types_product_body web ts name1 name2 cat name3 a s1 = (Raise e, s2) →
     types_group_body web ts name1 name2 cat name3 g st =
     if decide (e = AccessRestrictedError)
     then (Raise AccessRestrictedError, s2)
     else for_each (types_product_item web ts name1 name2 cat name3) post
            (add_log (error_record "Error processing product" (Some e)) s2)) ∧
  (∀ cat subcat_e name1 pre sc_it post st s1 e s2,
     block_h2 subcat_e = Some name1 →
     block_items subcat_e = pre ++ sc_it :: post →
     for_each (run_item web ts cat name1) pre st = (Ok (), s1) →
     run_item web ts cat name1 sc_it s1 = (Raise e, s2) →
     run_subcat web ts cat subcat_e st = (Raise e, s2)) ∧
  (∀ st e s2,
     run_try web ts st = (Raise e, s2) →
     run web ts st =
     (Raise e,
      set_windows [] 0
        (add_log
           (error_record
              (if decide (e = AccessRestrictedError)
               then "Access restricted" else "Error in main run function")
              (Some e)) s2))).
Proof.
  repeat split.
  - intros name1 name2 cat st p pre t post s1 e s2 Hcur Hp Hpre Hbody.
    unfold handle_subcategories_index_page, except_reraise, try_except.
    unfold wait_visibility_of_ClientRenderedContent.
    rewrite bind_assoc_run, (bind_ok _ _ _ _ _ (current_page_eq _ _ Hcur)), Hp.
    run_monad. rewrite for_each_app, Hpre, for_each_cons.
    unfold subcat_tile_item at 1.
    rewrite (except_continue_raise _ _ _ _ _ Hbody).
    by destruct e.
  - intros name1 name2 cat name3 st p pre g post s1 e s2 Hcur Hp Hvis Hpre Hbody.
    unfold handle_types_index_page, except_reraise, try_except.
    unfold wait_visibility_of_all_GroupPrsnttn.
    rewrite bind_assoc_run, (bind_ok _ _ _ _ _ (current_page_eq _ _ Hcur)), Hp.
    destruct (pre ++ g :: post) as [|g0 gs] eqn:Hgs;
      [by destruct pre|].
    rewrite Hvis. run_monad. rewrite <- Hgs.
    rewrite for_each_app, Hpre, for_each_cons.
    unfold types_group_item at 1.
    rewrite (except_continue_raise _ _ _ _ _ Hbody).
    by destruct e.
  - intros name1 name2 cat name3 g h3 pre a post st s1 e s2 Hh3 Hanch Hpre Hbody.
    unfold types_group_body. rewrite Hh3, Hanch. simpl find_element.
    run_monad. rewrite for_each_app, Hpre, for_each_cons.
    unfold types_product_item at 1.
    rewrite (except_continue_raise _ _ _ _ _ Hbody).
    by destruct e.
  - intros cat subcat_e name1 pre sc_it post st s1 e s2 Hh2 Hitems Hpre Hbody.
    unfold run_subcat. rewrite Hh2, Hitems. simpl find_element. run_monad.
    by apply for_each_raise_at with s1.
  - intros st e s2 Htry. unfold run, try_finally, try_except.
    rewrite Htry. by destruct e.
Qed.

Lemma handlers_exception_discipline_witness :
  handle_subcategories_index_page two_leaf_site the_timestamp
    "Fasteners" "Screws and Nuts" "Fastening" subcat_index_state =
  except_reraise "Failed to process subcategories index page"
    (for_each
       (subcat_tile_item two_leaf_site the_timestamp
          "Fasteners" "Screws and Nuts" "Fastening") [nuts_tile])
    (add_log
       (error_record "Error processing subcategory item"
          (Some NoSuchElementException))
       subcat_index_state).
Proof.
  apply (proj1 (handlers_exception_discipline two_leaf_site the_timestamp)
           "Fasteners" "Screws and Nuts" "Fastening" subcat_index_state
           subcat_index_page [] broken_tile [nuts_tile] subcat_index_state
           NoSuchElementException subcat_index_state);
    reflexivity.
Defined.

(** After the tile that failed, the handler goes on to the next one and
    stores its product. *)
Example subcat_handler_continues_after_broken_tile :
  let after :=
    handle_subcategories_index_page two_leaf_site the_timestamp
      "Fasteners" "Screws and Nuts" "Fastening" subcat_index_state in
  after.1 = Ok () ∧
  link <$> collection after.2 = ["https://www.mcmaster.com/nuts"] ∧
  things_to_skip after.2 = ["Socket Cap"; "Nuts"] ∧
  log_msg <$> log after.2 = ["Error processing subcategory item"].
Proof. repeat split; by vm_compute. Qed.

(* --------------------------------------------------------------------- *)
(** ** The skip list and its file *)

Lemma run_ops_dump_ops l f : run_ops (dump_ops l) f = FileText l true.
Proof.
  unfold run_ops, dump_ops. simpl. rewrite foldl_app. simpl.
  enough (∀ acc, foldl apply_op (FileText acc false) (WriteItem <$> l)
                 = FileText (acc ++ l) false) as H by by rewrite H.
  induction l as [|x l IH]; intros acc; simpl.
  - by rewrite app_nil_r.
  - rewrite IH. by rewrite <- app_assoc.
Qed.

Lemma save_skip_list_writable l st :
  skip_file_writable st = true →
  save_skip_list l st = (Ok (), set_skip_file (FileText l true) st).
Proof.
  intros Hw. unfold save_skip_list, try_except, open_w_json_dump.
  by rewrite Hw, run_ops_dump_ops.
Qed.

Lemma add_to_skip_list_new key st :
  skip_file_writable st = true →
  key ∉ things_to_skip st →
  add_to_skip_list key st =
  (Ok (),
   set_skip_file (FileText (things_to_skip st ++ [key]) true)
     (set_things_to_skip (things_to_skip st ++ [key]) st)).
Proof.
  intros Hw Hnew. unfold add_to_skip_list. run_monad.
  unfold PyList.contains. rewrite bool_decide_false by done.
  unfold things_to_skip_append. run_monad.
  by rewrite save_skip_list_writable.
Qed.

Lemma add_to_skip_list_known key st :
  key ∈ things_to_skip st → add_to_skip_list key st = (Ok (), st).
Proof.
  intros Hin. unfold add_to_skip_list. run_monad.
  unfold PyList.contains. by rewrite bool_decide_true.
Qed.

(** *** Composing computations that keep a property *)

Section Preserves.

Variable I : state → Prop.

Lemma preserves_ret {A} (a : A) : preserves I (ret a).
Proof. by intros st. Qed.

Lemma preserves_raise {A} e : preserves I (@raise A e).
Proof. by intros st. Qed.

Lemma preserves_lift {A} (r : result A) : preserves I (lift r).
Proof. by intros st. Qed.

Lemma preserves_get {A} (f : state → A) : preserves I (get f).
Proof. by intros st. Qed.

Lemma preserves_modify f :
  (∀ st, I st → I (f st)) → preserves I (modify f).
Proof. intros Hf st. apply Hf. Qed.

Lemma preserves_bind {A B} (m : M A) (k : A → M B) :
  preserves I m → (∀ a, preserves I (k a)) → preserves I (m ≫= k).
Proof.
  intros Hm Hk st HI. rewrite bind_run. specialize (Hm st HI).
  destruct (m st) as [[a|e] st']; simpl in *; [by apply Hk|done].
Qed.

Lemma preserves_try_except {A} (m : M A) h :
  preserves I m → (∀ e, preserves I (h e)) → preserves I (try_except m h).
Proof.
  intros Hm Hh st HI. unfold try_except. specialize (Hm st HI).
  destruct (m st) as [[a|e] st']; simpl in *; [done|by apply Hh].
Qed.

Lemma preserves_try_finally {A} (m : M A) f :
  preserves I m → preserves I f → preserves I (try_finally m f).
Proof.
  intros Hm Hf st HI. unfold try_finally. specialize (Hm st HI).
  destruct (m st) as [r st']; simpl in *. specialize (Hf st' Hm).
  by destruct (f st') as [[u|e] st''].
Qed.

Lemma preserves_for_each {A} (f : A → M unit) xs :
  (∀ x, preserves I (f x)) → preserves I (for_each f xs).
Proof.
  intros Hf. induction xs as [|x xs IH]; simpl.
  - apply preserves_ret.
  - apply preserves_bind; [apply Hf|by intros _].
Qed.

End Preserves.

(** *** Every step of the traversal keeps the file written through *)

Create HintDb write_through discriminated.

Ltac preserves_auto :=
  repeat first
    [ progress cbv zeta
    | solve [eauto with write_through]
    | apply preserves_ret
    | apply preserves_raise
    | apply preserves_lift
    | apply preserves_get
    | apply preserves_bind; [|intros ?]
    | apply preserves_try_except; [|intros ?]
    | apply preserves_try_finally
    | apply preserves_for_each; intros ?
    | match goal with
      | |- preserves _ (match ?x with _ => _ end) => destruct x
      end ].

Section WriteThrough.

Variables (l0 : list string) (f0 : file_state).

Local Abbreviation I := (written_through l0 f0).

Lemma wt_set_collection c st : I st → I (set_collection c st).
Proof. by unfold written_through. Qed.

Lemma wt_set_windows hs cur st : I st → I (set_windows hs cur st).
Proof. by unfold written_through. Qed.

Lemma wt_add_log r st : I st → I (add_log r st).
Proof. by unfold written_through. Qed.

Lemma wt_logging_error msg e : preserves I (logging_error msg e).
Proof. apply preserves_modify. intros st. apply wt_add_log. Qed.

Lemma wt_logging_warning msg : preserves I (logging_warning msg).
Proof. apply preserves_modify. intros st. apply wt_add_log. Qed.

Lemma wt_insert_document doc : preserves I (insert_document doc).
Proof. apply preserves_modify. intros st. apply wt_set_collection. Qed.

Lemma wt_current_page : preserves I current_page.
Proof.
  intros st HI. unfold current_page. by destruct (_ !! _).
Qed.

Lemma wt_switch_to_last_window : preserves I switch_to_last_window.
Proof.
  intros st HI. unfold switch_to_last_window.
  destruct (window_handles st); [done|]. by apply wt_set_windows.
Qed.

Lemma wt_driver_quit : preserves I driver_quit.
Proof. apply preserves_modify. intros st. apply wt_set_windows. Qed.

Lemma wt_setup_driver : preserves I setup_driver.
Proof. apply preserves_modify. intros st. apply wt_set_windows. Qed.

Lemma wt_modify_windows (hs : state → list page) (cur : state → nat) :
  preserves I (modify (fun st => set_windows (hs st) (cur st) st)).
Proof. apply preserves_modify. intros st. apply wt_set_windows. Qed.

(** The one place where the list changes: the file is rewritten with
    the whole new list at once. *)
Lemma wt_add_to_skip_list key : preserves I (add_to_skip_list key).
Proof.
  intros st [Hw HI].
  destruct (decide (key ∈ things_to_skip st)) as [Hin|Hnew].
  - by rewrite add_to_skip_list_known.
  - rewrite add_to_skip_list_new by done. split; [done|]. by right.
Qed.

Lemma wt_save_current :
  preserves I (skip ← get things_to_skip; save_skip_list skip).
Proof.
  intros st [Hw HI]. run_monad. rewrite save_skip_list_writable by done.
  split; [done|]. by right.
Qed.

Hint Resolve wt_logging_error wt_logging_warning wt_insert_document
  wt_current_page wt_switch_to_last_window wt_driver_quit wt_setup_driver
  wt_modify_windows wt_add_to_skip_list wt_save_current : write_through.

Variables (web : string → page) (ts : string).

Lemma wt_find_document l : preserves I (find_document l).
Proof. unfold find_document. preserves_auto. Qed.

Lemma wt_load_site : preserves I (load_site web).
Proof. unfold load_site. preserves_auto. Qed.

Lemma wt_open_new_tab url : preserves I (open_new_tab web url).
Proof. unfold open_new_tab. preserves_auto. Qed.

Lemma wt_close_current_tab : preserves I close_current_tab.
Proof. unfold close_current_tab. preserves_auto. Qed.

Lemma wt_wait_for_page_to_load : preserves I wait_for_page_to_load.
Proof. unfold wait_for_page_to_load. preserves_auto. Qed.

Lemma wt_access_restricted : preserves I access_restricted.
Proof. unfold access_restricted. preserves_auto. Qed.

Hint Resolve wt_find_document wt_load_site wt_open_new_tab
  wt_close_current_tab wt_wait_for_page_to_load wt_access_restricted
  : write_through.

Lemma wt_whether_table_page_or_not : preserves I whether_table_page_or_not.
Proof. unfold whether_table_page_or_not. preserves_auto. Qed.

Lemma wt_whether_subcat_index_page_or_not :
  preserves I whether_subcat_index_page_or_not.
Proof. unfold whether_subcat_index_page_or_not. preserves_auto. Qed.

Lemma wt_whether_types_index_page_or_not :
  preserves I whether_types_index_page_or_not.
Proof. unfold whether_types_index_page_or_not. preserves_auto. Qed.

Lemma wt_whether_product_page_or_not :
  preserves I whether_product_page_or_not.
Proof. unfold whether_product_page_or_not. preserves_auto. Qed.

Lemma wt_tables_loop tables acc : preserves I (tables_loop tables acc).
Proof.
  revert acc. induction tables as [|t tables IH]; intros acc; simpl.
  - apply preserves_ret.
  - destruct (extract_data_from_table_ele t); [apply IH|].
    apply preserves_bind; [apply wt_logging_error|intros _; apply IH].
Qed.

Hint Resolve wt_whether_table_page_or_not wt_whether_subcat_index_page_or_not
  wt_whether_types_index_page_or_not wt_whether_product_page_or_not
  wt_tables_loop : write_through.

Lemma wt_product_section_scrape_data l sec n1 n2 n3 cat :
  preserves I (product_section_scrape_data ts l sec n1 n2 n3 cat).
Proof. unfold product_section_scrape_data. preserves_auto. Qed.

Hint Resolve wt_product_section_scrape_data : write_through.

Lemma wt_handle_product_page l n1 n2 cat n3 t :
  preserves I (handle_product_page ts l n1 n2 cat n3 t).
Proof. unfold handle_product_page. preserves_auto. Qed.

Hint Resolve wt_handle_product_page : write_through.

Lemma wt_types_product_body n1 n2 cat n3 a :
  preserves I (types_product_body web ts n1 n2 cat n3 a).
Proof. unfold types_product_body. preserves_auto. Qed.

Hint Resolve wt_types_product_body : write_through.

Lemma wt_types_group_body n1 n2 cat n3 g :
  preserves I (types_group_body web ts n1 n2 cat n3 g).
Proof.
  unfold types_group_body, types_product_item, except_continue.
  preserves_auto.
Qed.

Hint Resolve wt_types_group_body : write_through.

Lemma wt_handle_types_index_page n1 n2 cat n3 :
  preserves I (handle_types_index_page web ts n1 n2 cat n3).
Proof.
  unfold handle_types_index_page, wait_visibility_of_all_GroupPrsnttn,
    types_group_item, except_reraise, except_continue.
  preserves_auto.
Qed.

Hint Resolve wt_handle_types_index_page : write_through.

Lemma wt_subcat_dispatch l n1 n2 cat n3 :
  preserves I (subcat_dispatch web ts l n1 n2 cat n3).
Proof. unfold subcat_dispatch. preserves_auto. Qed.

Hint Resolve wt_subcat_dispatch : write_through.

Lemma wt_subcat_tile_body n1 n2 cat t :
  preserves I (subcat_tile_body web ts n1 n2 cat t).
Proof. unfold subcat_tile_body. preserves_auto. Qed.

Hint Resolve wt_subcat_tile_body : write_through.

Lemma wt_handle_subcategories_index_page n1 n2 cat :
  preserves I (handle_subcategories_index_page web ts n1 n2 cat).
Proof.
  unfold handle_subcategories_index_page,
    wait_visibility_of_ClientRenderedContent, subcat_tile_item,
    except_reraise, except_continue.
  preserves_auto.
Qed.

Hint Resolve wt_handle_subcategories_index_page : write_through.

Lemma wt_run_dispatch l n1 n2 cat key :
  preserves I (run_dispatch web ts l n1 n2 cat key).
Proof. unfold run_dispatch. preserves_auto. Qed.

Hint Resolve wt_run_dispatch : write_through.

Lemma wt_run_item cat n1 it : preserves I (run_item web ts cat n1 it).
Proof. unfold run_item. preserves_auto. Qed.

Hint Resolve wt_run_item : write_through.

Lemma wt_run_try : preserves I (run_try web ts).
Proof.
  unfold run_try, wait_visibility_of_HomePageContent, run_category,
    run_subcat.
  preserves_auto.
Qed.

Hint Resolve wt_run_try : write_through.

Lemma wt_run : preserves I (run web ts).
Proof. unfold run. preserves_auto. Qed.

Hint Resolve wt_run : write_through.

Lemma wt_run_scraper : preserves I (run_scraper web ts).
Proof. unfold run_scraper. preserves_auto. Qed.

End WriteThrough.

(* --------------------------------------------------------------------- *)

(** C9, as stated, fails in its second half: [save_skip_list] opens the
    skip-list file itself for writing, which empties it, and then writes
    the array into it.  A process that dies after the first step leaves an
    empty file, not the previous version, and the next start reads an
    empty skip list from it. *)
Lemma crash_during_save_loses_previous_version :
  let st := before_save_state in
  let ops := dump_ops (things_to_skip st) in
  skip_file st = FileText ["Socket Cap"] true ∧
  skip_file (save_skip_list (things_to_skip st) st).2 = run_ops ops (skip_file st) ∧
  crash_after 1 ops (skip_file st) = FileText [] false ∧
  crash_after 1 ops (skip_file st) ≠ skip_file st ∧
  (load_skip_list
     (set_skip_file (crash_after 1 ops (skip_file st)) fresh_state)).1 = Ok [].
Proof. repeat split; by vm_compute. Qed.

(** C9, amended: every append to the in-memory skip list is followed at
    once by a save of the whole list, so that (the file being writable)
    the file holds the complete list after each mutation and after every
    unit of work of the traversal, however that unit ends; when the file
    cannot be opened the error is logged and the traversal goes on.  The
    save rewrites the file in place, its first step empties the file, and
    nothing is promised about a crash in the middle of it. *)
Theorem skip_list_written_through (web : string → page) (ts : string) :
  (∀ key st,
     skip_file_writable st = true →
     key ∉ things_to_skip st →
     let st' := (add_to_skip_list key st).2 in
     things_to_skip st' = things_to_skip st ++ [key] ∧
     skip_file st' = FileText (things_to_skip st') true) ∧
  (∀ l0 f0,
     (∀ l sec n1 n2 n3 cat,
        preserves (written_through l0 f0)
          (product_section_scrape_data ts l sec n1 n2 n3 cat)) ∧
     (∀ l n1 n2 cat n3 t,
        preserves (written_through l0 f0)
          (handle_product_page ts l n1 n2 cat n3 t)) ∧
     (∀ n1 n2 cat n3,
        preserves (written_through l0 f0)
          (handle_types_index_page web ts n1 n2 cat n3)) ∧
     (∀ n1 n2 cat,
        preserves (written_through l0 f0)
          (handle_subcategories_index_page web ts n1 n2 cat)) ∧
     preserves (written_through l0 f0) (run web ts)) ∧
  (∀ st,
     skip_file_writable st = true →
     written_through (things_to_skip st) (skip_file st) (run web ts st).2 ∧
     skip_file (run_scraper web ts st).2 =
       FileText (things_to_skip (run_scraper web ts st).2) true) ∧
  (∀ l f,
     head (dump_ops l) = Some OpenTruncate ∧
     run_ops (dump_ops l) f = FileText l true) ∧
  (∀ l st,
     skip_file_writable st = false →
     save_skip_list l st =
     (Ok (), add_log (error_record "Error saving skip list" (Some OSError)) st)).
Proof.
  split; [|split; [|split; [|split]]].
  - intros key st Hw Hnew. by rewrite add_to_skip_list_new.
  - intros l0 f0. split; [|split; [|split; [|split]]]; intros.
    + apply wt_product_section_scrape_data.
    + apply wt_handle_product_page.
    + apply wt_handle_types_index_page.
    + apply wt_handle_subcategories_index_page.
    + apply wt_run.
  - intros st Hw. split.
    + apply wt_run. split; [done|]. by left.
    + unfold run_scraper. rewrite bind_run. simpl.
      unfold try_finally.
      destruct (try_except _ _ _) as [r st1] eqn:Hrun.
      assert (skip_file_writable st1 = true) as Hw1.
      { assert (st1 = (try_except (run web ts)
                         (fun e => match e with
                                   | AccessRestrictedError =>
                                       logging_error
                                         "Scraping stopped due to access restrictions"
                                         (Some e)
                                   | _ => logging_error "Scraping failed with error"
                                            (Some e)
                                   end) (set_windows [blank_page] 0 st)).2)
          as -> by by rewrite Hrun.
        eapply (preserves_try_except (fun s => skip_file_writable s = true));
          [| |done].
        - intros s Hs.
          by destruct (wt_run (things_to_skip s) (skip_file s) web ts s
                         (conj Hs (or_introl (conj eq_refl eq_refl)))).
        - intros e s Hs. by destruct e. }
      run_monad. by rewrite save_skip_list_writable.
  - intros l f. split; [done|apply run_ops_dump_ops].
  - intros l st Hw. unfold save_skip_list, try_except, open_w_json_dump.
    by rewrite Hw.
Qed.

Lemma skip_list_written_through_witness :
  written_through [] (FileText [] true)
    (run (screws_site false) the_timestamp fresh_state).2 ∧
  skip_file (run_scraper (screws_site false) the_timestamp fresh_state).2 =
    FileText
      (things_to_skip
         (run_scraper (screws_site false) the_timestamp fresh_state).2) true.
Proof.
  apply (proj1 (proj2 (proj2
           (skip_list_written_through (screws_site false) the_timestamp)))
           fresh_state).
  reflexivity.
Defined.

(* ===================================================================== *)
(** * Further properties of the table extractor *)

Lemma truthy_nonempty s : PyStr.truthy s = true ↔ s ≠ "".
Proof. destruct s; simpl; split; (done || intros; congruence). Qed.

Lemma header_loop_filter header_cells headers :
  header_loop header_cells headers =
  headers ++ filter (fun t => t ≠ "") (strip_replace <$> header_cells).
Proof.
  revert headers. induction header_cells as [|h rest IH]; intros headers.
  - by rewrite app_nil_r.
  - cbn [header_loop]. rewrite IH, fmap_cons, filter_cons.
    destruct (strip_replace h) as [|c s] eqn:Hh; cbn [PyStr.truthy].
    + by rewrite decide_False by (intros H; by apply H).
    + rewrite decide_True by done. by rewrite <- app_assoc.
Qed.

(** X1: the header labels are the non-empty normalised texts of the
    [<td>] cells of [<thead>], in order (none without a [<thead>]); the
    header list has one entry more, [serial_nu], at the index before the
    last label (index 0 when there is none or one), and taking that entry
    out gives the labels back. *)
Theorem headers_of_shape (table : table_element) :
  let labels := header_labels table in
  labels =
    match table_thead table with
    | Some header_cells =>
        filter (fun t => t ≠ "") (strip_replace <$> header_cells)
    | None => []
    end ∧
  Forall (fun h => h ≠ "") labels ∧
  length (headers_of table) = S (length labels) ∧
  headers_of table !! (length labels - 1) = Some "serial_nu" ∧
  delete (length labels - 1) (headers_of table) = labels.
Proof.
  intros labels.
  assert (labels =
          match table_thead table with
          | Some header_cells =>
              filter (fun t => t ≠ "") (strip_replace <$> header_cells)
          | None => []
          end) as Hl.
  { unfold labels, header_labels. destruct (table_thead table); simpl; [|done].
    by rewrite header_loop_filter. }
  split; [done|]. split; [|split; [|split]].
  - rewrite Hl. destruct (table_thead table); [|constructor].
    apply Forall_forall. intros h Hh. by apply list_elem_of_filter in Hh as [? _].
  - apply insert_before_last_length.
  - apply insert_before_last_lookup.
  - unfold headers_of. fold labels. unfold PyList.insert. simpl.
    replace (Z.to_nat (Z.max 0 (Z.of_nat (length labels) + -1)))
      with (length labels - 1) by lia.
    set (k := length labels - 1).
    assert (k = length (take k labels)) as Hk
      by (rewrite length_take; unfold k; lia).
    rewrite Hk at 1. rewrite delete_middle. apply take_drop.
Qed.

(** *** Cells and headers *)

Section FillCells.

Variable hs : list string.

Lemma fill_cells_lookup_other cells i (m : row_record) k :
  (∀ j, i ≤ j < i + length cells → hs !! j ≠ Some k) →
  fill_cells hs i cells m !! k = m !! k.
Proof.
  revert i m. induction cells as [|cell rest IH]; intros i m Hk; simpl in *;
    [done|].
  rewrite IH by (intros j Hj; apply Hk; lia).
  destruct (hs !! i) as [h|] eqn:Hi; [|done].
  rewrite lookup_insert_ne; [done|].
  intros ->. apply (Hk i); [lia|done].
Qed.

Lemma fill_cells_lookup_cell cells i j (m : row_record) h c :
  NoDup hs →
  hs !! (i + j) = Some h →
  cells !! j = Some c →
  fill_cells hs i cells m !! h = Some (Some (strip_replace c)).
Proof.
  intros Hnd. revert i j m.
  induction cells as [|cell rest IH]; intros i j m Hh Hc; [done|].
  destruct j as [|j]; simpl in *.
  - injection Hc as ->. rewrite Nat.add_0_r in Hh. rewrite Hh.
    rewrite fill_cells_lookup_other; [by rewrite lookup_insert_eq|].
    intros j Hj Hj'.
    assert (i = j) by (eapply NoDup_lookup; eauto). lia.
  - apply (IH (S i) j); [|done].
    by replace (S i + j) with (i + S j) by lia.
Qed.

Lemma fill_cells_keys cells i (m : row_record) k :
  is_Some (fill_cells hs i cells m !! k) →
  is_Some (m !! k) ∨ ∃ j, i ≤ j < i + length cells ∧ hs !! j = Some k.
Proof.
  revert i m. induction cells as [|cell rest IH]; intros i m Hk; simpl in *;
    [by left|].
  destruct (IH _ _ Hk) as [Hm|(j & Hj & Hjk)].
  - destruct (hs !! i) as [h|] eqn:Hi; [|by left].
    destruct (decide (h = k)) as [->|Hne].
    + right. exists i. split; [lia|done].
    + left. by rewrite lookup_insert_ne in Hm.
  - right. exists j. split; [lia|done].
Qed.

End FillCells.

(** X2: when the header list has no repetition and no header is called
    Property A or Property B, the record of a row holds the dimension
    value under Property A, holds the normalised text of the [i]-th data
    cell under the [i]-th header for every cell that has a header, and has
    no key besides Property A, Property B and the headers of its cells. *)
Theorem cells_stored_under_their_headers
    (table : table_element) (rows : list tr_element) :
  table_tbody table = Some rows →
  NoDup (headers_of table) →
  "Property A" ∉ headers_of table →
  "Property B" ∉ headers_of table →
  ∃ recs,
    extract_data_from_table_ele table = Ok recs ∧
    Forall2 (fun row (rec : row_record) =>
               rec !! "Property A" = Some (dimension_of rows) ∧
               (∀ i h c,
                  headers_of table !! i = Some h →
                  tr_td row !! i = Some c →
                  rec !! h = Some (Some (strip_replace c))) ∧
               (∀ k, is_Some (rec !! k) →
                     k = "Property A" ∨ k = "Property B" ∨
                     ∃ i, i < length (tr_td row) ∧
                          headers_of table !! i = Some k))
      (filter (fun row => tr_td row ≠ []) rows) recs.
Proof.
  intros Hb Hnd HA HB.
  eexists. split; [by apply extract_with_body|].
  unfold parse_rows.
  eapply Forall2_impl; [apply foldl_row_step_records|].
  intros row rec [Hcells [b ->]]. split; [|split].
  - rewrite fill_cells_lookup_other.
    + unfold new_row_data. by rewrite lookup_insert_ne, lookup_insert_eq.
    + intros j _ Hj. apply HA. by eapply list_elem_of_lookup_2.
  - intros i h c Hh Hc. by apply (fill_cells_lookup_cell _ _ 0 i).
  - intros k Hk. apply fill_cells_keys in Hk as [Hk|(j & Hj & Hjk)].
    + unfold new_row_data in Hk.
      destruct (decide (k = "Property B")) as [->|HnB]; [by right; left|].
      destruct (decide (k = "Property A")) as [->|HnA]; [by left|].
      rewrite !lookup_insert_ne, lookup_empty in Hk by done.
      by destruct Hk.
    + right. right. exists j. split; [lia|done].
Qed.

Lemma cells_stored_under_their_headers_witness :
  ∃ recs,
    extract_data_from_table_ele example_table_thead = Ok recs ∧
    Forall2 (fun row (rec : row_record) =>
               rec !! "Property A" = Some (dimension_of example_rows) ∧
               (∀ i h c,
                  headers_of example_table_thead !! i = Some h →
                  tr_td row !! i = Some c →
                  rec !! h = Some (Some (strip_replace c))) ∧
               (∀ k, is_Some (rec !! k) →
                     k = "Property A" ∨ k = "Property B" ∨
                     ∃ i, i < length (tr_td row) ∧
                          headers_of example_table_thead !! i = Some k))
      (filter (fun row => tr_td row ≠ []) example_rows) recs.
Proof.
  apply (cells_stored_under_their_headers example_table_thead example_rows).
  - reflexivity.
  - by apply (bool_decide_unpack _).
  - by apply (bool_decide_unpack _).
  - by apply (bool_decide_unpack _).
Defined.

(** *** The running group label *)

Lemma foldl_row_step_records_inv (P : option string → Prop) d hs rows b :
  P b →
  (∀ b' row, P b' → P (update_property_b d b' row)) →
  Forall2 (fun row rec =>
             tr_td row ≠ [] ∧
             ∃ b', P b' ∧ rec = fill_cells hs 0 (tr_td row) (new_row_data d b'))
    (filter (fun row => tr_td row ≠ []) rows)
    (foldl (row_step d hs) (b, []) rows).2.
Proof.
  intros Hb Hstep. revert b Hb.
  induction rows as [|row rows IH]; intros b Hb; simpl.
  - constructor.
  - destruct (row_step d hs (b, []) row) as [b1 acc1] eqn:E1.
    pose proof (row_step_fst d hs (b, []) row) as F1.
    pose proof (row_step_snd d hs (b, []) row) as S1.
    rewrite E1 in F1, S1. simpl in *. subst.
    rewrite foldl_row_step_acc. simpl.
    rewrite filter_cons. destruct (tr_td row) eqn:Ec.
    + rewrite decide_False by (intros H; by apply H). simpl.
      apply IH. by apply Hstep.
    + rewrite decide_True by done. simpl.
      constructor; [|apply IH; by apply Hstep].
      rewrite Ec. split; [done|]. eexists. split; [|done]. by apply Hstep.
Qed.

(** X3: unless a header is called Property B, every record has the key
    Property B, and its value is either [None] or a text that is not empty
    and not the dimension value: the row header that names the dimension
    never becomes a group label. *)
Theorem property_b_is_never_the_dimension
    (table : table_element) (rows : list tr_element) :
  table_tbody table = Some rows →
  "Property B" ∉ headers_of table →
  ∃ recs,
    extract_data_from_table_ele table = Ok recs ∧
    Forall (fun rec : row_record =>
              rec !! "Property B" = Some None ∨
              ∃ t, rec !! "Property B" = Some (Some t) ∧
                   t ≠ "" ∧ Some t ≠ dimension_of rows)
      recs.
Proof.
  intros Hb HB. eexists. split; [by apply extract_with_body|].
  unfold parse_rows.
  set (P := fun b : option string =>
              b = None ∨ ∃ t, b = Some t ∧ t ≠ "" ∧ Some t ≠ dimension_of rows).
  eapply Forall2_Forall_r;
    [apply (foldl_row_step_records_inv P); [by left|]|].
  - intros b row HP. unfold update_property_b.
    destruct (tr_th row) as [th|]; simpl; [|done].
    destruct (strip_replace th) as [|c s] eqn:Hth; simpl; [done|].
    case_bool_decide as Hd; simpl; [done|].
    right. eexists. split; [done|]. split; done.
  - apply Forall_forall. intros row _ rec (_ & b & HP & ->).
    rewrite fill_cells_lookup_other.
    + unfold new_row_data. rewrite lookup_insert_eq.
      destruct HP as [->|(t & -> & Ht)]; [by left|right; eauto].
    + intros j _ Hj. apply HB. by eapply list_elem_of_lookup_2.
Qed.

Lemma property_b_is_never_the_dimension_witness :
  ∃ recs,
    extract_data_from_table_ele example_table_thead = Ok recs ∧
    Forall (fun rec : row_record =>
              rec !! "Property B" = Some None ∨
              ∃ t, rec !! "Property B" = Some (Some t) ∧
                   t ≠ "" ∧ Some t ≠ dimension_of example_rows)
      recs.
Proof.
  apply (property_b_is_never_the_dimension example_table_thead example_rows).
  - reflexivity.
  - by apply (bool_decide_unpack _).
Defined.

(** *** Normalised texts *)

(** Taking characters off the front. *)

Lemma starts_with_prefix w s : PyStr.starts_with w s = true ↔ w `prefix_of` s.
Proof.
  revert s. induction w as [|a w IH]; intros s; simpl.
  - split; [intros _; apply prefix_nil|done].
  - destruct s as [|b s].
    + split; [done|]. intros H. by apply prefix_nil_inv in H.
    + rewrite andb_true_iff, Ascii.eqb_eq, IH. split.
      * intros [-> H]. by apply prefix_cons.
      * intros H. split; [by apply prefix_cons_inv_1 in H|
                           by apply prefix_cons_inv_2 in H].
Qed.

Lemma drop_first_Some pats s rest :
  PyStr.drop_first pats s = Some rest → ∃ w, w ∈ pats ∧ s = w ++ rest.
Proof.
  induction pats as [|w pats IH]; simpl; [done|].
  destruct (PyStr.starts_with w s) eqn:Hw.
  - intros [= <-]. exists w. split; [left|].
    apply starts_with_prefix in Hw as [k ->].
    by rewrite drop_app_length.
  - intros (w' & Hin & Hs)%IH. exists w'. split; [by right|done].
Qed.

Lemma drop_first_None pats s :
  PyStr.drop_first pats s = None ↔ ∀ w, w ∈ pats → ¬ w `prefix_of` s.
Proof.
  induction pats as [|w pats IH]; simpl.
  - split; [|done]. intros _ w Hw. by apply not_elem_of_nil in Hw.
  - destruct (PyStr.starts_with w s) eqn:Hw.
    + split; [done|]. intros H. destruct (H w); [left|].
      by apply starts_with_prefix.
    + rewrite IH. split.
      * intros H w' [->|Hin]%elem_of_cons; [|by apply H].
        rewrite <- starts_with_prefix. by rewrite Hw.
      * intros H w' Hin. apply H. by right.
Qed.

(** What [lstrip_by] takes off is a sequence of characters of [pats]. *)
Lemma lstrip_by_removed pats n s :
  ∃ pre, s = concat pre ++ PyStr.lstrip_by pats n s ∧
         Forall (fun w => w ∈ pats) pre.
Proof.
  revert s. induction n as [|n IH]; intros s; simpl.
  - by exists [].
  - destruct (PyStr.drop_first pats s) as [rest|] eqn:Hd; [|by exists []].
    apply drop_first_Some in Hd as (w & Hin & ->).
    destruct (IH rest) as (pre & Hrest & Hpre).
    exists (w :: pre). split; [|by constructor].
    simpl. by rewrite <- app_assoc, <- Hrest.
Qed.

(** With enough fuel nothing of [pats] is left at the front. *)
Lemma lstrip_by_done pats n s :
  (∀ w, w ∈ pats → w ≠ []) → length s ≤ n →
  PyStr.drop_first pats (PyStr.lstrip_by pats n s) = None.
Proof.
  intros Hne. revert s. induction n as [|n IH]; intros s Hlen; simpl.
  - destruct s; [|simpl in Hlen; lia].
    apply drop_first_None. intros w Hin Hp.
    apply prefix_nil_inv in Hp. by apply (Hne w).
  - destruct (PyStr.drop_first pats s) as [rest|] eqn:Hd; [|done].
    apply IH. apply drop_first_Some in Hd as (w & Hin & ->).
    rewrite length_app in Hlen.
    specialize (Hne w Hin). destruct w; [done|]. simpl in Hlen. lia.
Qed.

Lemma lstrip_by_fixed pats n s :
  PyStr.drop_first pats s = None → PyStr.lstrip_by pats n s = s.
Proof. intros H. destruct n; simpl; [done|]. by rewrite H. Qed.

Lemma reverse_concat {A} (l : list (list A)) :
  reverse (concat l) = concat (reverse (reverse <$> l)).
Proof.
  induction l as [|a l IH]; [done|].
  rewrite fmap_cons, reverse_cons, concat_app. simpl.
  by rewrite reverse_app, IH, app_nil_r.
Qed.

Lemma whitespace_nonempty w : w ∈ PyStr.whitespace → w ≠ [].
Proof.
  revert w. apply Forall_forall.
  apply (bool_decide_unpack _). by vm_compute.
Qed.

Lemma reverse_whitespace_nonempty w :
  w ∈ reverse <$> PyStr.whitespace → w ≠ [].
Proof.
  intros (w' & -> & Hin)%list_elem_of_fmap Hrev.
  apply (whitespace_nonempty w' Hin).
  by rewrite <- (reverse_involutive w'), Hrev.
Qed.

(** A white-space character is the newline, or has neither the newline
    nor the underscore among its bytes. *)
Lemma whitespace_bytes w :
  w ∈ PyStr.whitespace →
  w = [PyStr.newline] ∨
  Forall (fun c => c ≠ PyStr.newline ∧ c ≠ PyStr.underscore) w.
Proof.
  revert w. apply Forall_forall.
  apply (bool_decide_unpack _). by vm_compute.
Qed.

Lemma lstrip_bytes_spec s :
  (∃ pre, s = concat pre ++ PyStr.lstrip_bytes s ∧
          Forall (fun w => w ∈ PyStr.whitespace) pre) ∧
  (∀ w, w ∈ PyStr.whitespace → ¬ w `prefix_of` PyStr.lstrip_bytes s).
Proof.
  split; [apply lstrip_by_removed|].
  apply drop_first_None, lstrip_by_done; [apply whitespace_nonempty|done].
Qed.

Lemma rstrip_bytes_spec s :
  (∃ suf, s = PyStr.rstrip_bytes s ++ concat suf ∧
          Forall (fun w => w ∈ PyStr.whitespace) suf) ∧
  (∀ w, w ∈ PyStr.whitespace → ¬ w `suffix_of` PyStr.rstrip_bytes s).
Proof.
  unfold PyStr.rstrip_bytes. split.
  - destruct (lstrip_by_removed (reverse <$> PyStr.whitespace) (length s)
                (reverse s)) as (pre & Hs & Hpre).
    exists (reverse (reverse <$> pre)). split.
    + rewrite <- reverse_concat, <- reverse_app, <- Hs.
      by rewrite reverse_involutive.
    + apply Forall_reverse, Forall_fmap.
      eapply Forall_impl; [exact Hpre|]. cbv beta.
      intros w (w' & -> & Hin)%list_elem_of_fmap.
      unfold compose. by rewrite reverse_involutive.
  - intros w Hin Hsuf. apply suffix_prefix_reverse in Hsuf.
    rewrite reverse_involutive in Hsuf.
    assert (PyStr.drop_first (reverse <$> PyStr.whitespace)
              (PyStr.lstrip_by (reverse <$> PyStr.whitespace) (length s)
                 (reverse s)) = None) as Hd.
    { apply lstrip_by_done; [apply reverse_whitespace_nonempty|].
      by rewrite length_reverse. }
    rewrite drop_first_None in Hd. apply (Hd (reverse w)); [|done].
    apply list_elem_of_fmap. by exists w.
Qed.

(** What [strip] removes and what it leaves: the text is the stripped
    text between two sequences of white-space characters, and the
    stripped text neither starts nor ends with one. *)
Lemma strip_list s :
  (∃ pre suf,
     list_ascii_of_string s =
       concat pre ++ list_ascii_of_string (PyStr.strip s) ++ concat suf ∧
     Forall (fun w => w ∈ PyStr.whitespace) pre ∧
     Forall (fun w => w ∈ PyStr.whitespace) suf) ∧
  (∀ w, w ∈ PyStr.whitespace →
        ¬ w `prefix_of` list_ascii_of_string (PyStr.strip s) ∧
        ¬ w `suffix_of` list_ascii_of_string (PyStr.strip s)).
Proof.
  unfold PyStr.strip. rewrite list_ascii_of_string_of_list_ascii.
  set (x := PyStr.lstrip_bytes (list_ascii_of_string s)).
  destruct (lstrip_bytes_spec (list_ascii_of_string s))
    as [(pre & Hs & Hpre) Hfront]. fold x in Hs, Hfront.
  destruct (rstrip_bytes_spec x) as [(suf & Hx & Hsuf) Hback].
  split.
  - exists pre, suf. split; [|done]. by rewrite Hs at 1; rewrite Hx at 1.
  - intros w Hin. split; [|by apply Hback].
    intros Hp. apply (Hfront w Hin). etrans; [exact Hp|].
    rewrite Hx at 2. by apply prefix_app_r.
Qed.

Lemma strip_fixed s :
  (∀ w, w ∈ PyStr.whitespace →
        ¬ w `prefix_of` list_ascii_of_string s ∧
        ¬ w `suffix_of` list_ascii_of_string s) →
  PyStr.strip s = s.
Proof.
  intros H. unfold PyStr.strip, PyStr.lstrip_bytes.
  rewrite lstrip_by_fixed by (apply drop_first_None; intros w Hw; by apply H).
  unfold PyStr.rstrip_bytes. rewrite lstrip_by_fixed.
  - by rewrite reverse_involutive, string_of_list_ascii_of_string.
  - apply drop_first_None. intros w (w' & -> & Hin)%list_elem_of_fmap Hp.
    apply (proj2 (H w' Hin)). by apply suffix_prefix_reverse.
Qed.

Lemma replace_list s :
  list_ascii_of_string (PyStr.replace PyStr.newline PyStr.underscore s) =
  nl_to_us <$> list_ascii_of_string s.
Proof. induction s as [|c s IH]; simpl; [done|]. by rewrite IH. Qed.

Lemma nl_to_us_not_newline c : nl_to_us c ≠ PyStr.newline.
Proof.
  unfold nl_to_us. destruct (Ascii.eqb c PyStr.newline) eqn:Hc.
  - by vm_compute.
  - by apply Ascii.eqb_neq in Hc.
Qed.

Lemma replace_fixed s :
  PyStr.newline ∉ list_ascii_of_string s →
  PyStr.replace PyStr.newline PyStr.underscore s = s.
Proof.
  induction s as [|c s IH]; simpl; [done|]. intros Hn.
  rewrite IH by set_solver.
  destruct (Ascii.eqb c PyStr.newline) eqn:Hc; [|done].
  apply Ascii.eqb_eq in Hc as ->. set_solver.
Qed.

(** A character without newline and underscore bytes that starts the
    replaced text starts the text itself. *)
Lemma prefix_before_replace w l :
  Forall (fun c => c ≠ PyStr.newline ∧ c ≠ PyStr.underscore) w →
  w `prefix_of` nl_to_us <$> l → w `prefix_of` l.
Proof.
  intros Hw. revert l. induction Hw as [|a w [Hnl Hus] _ IH]; intros l Hp.
  - apply prefix_nil.
  - destruct l as [|b l]; [by apply prefix_nil_inv in Hp|].
    rewrite fmap_cons in Hp.
    pose proof (prefix_cons_inv_1 _ _ _ _ Hp) as Hab.
    apply prefix_cons_inv_2, IH in Hp.
    assert (a = b) as ->; [|by apply prefix_cons].
    unfold nl_to_us in Hab.
    destruct (Ascii.eqb b PyStr.newline); [by destruct Hus|done].
Qed.

Lemma whitespace_reverse_bytes w :
  Forall (fun c => c ≠ PyStr.newline ∧ c ≠ PyStr.underscore) w →
  Forall (fun c => c ≠ PyStr.newline ∧ c ≠ PyStr.underscore) (reverse w).
Proof. apply Forall_reverse. Qed.

(** X4: a normalised text has no newline in it and no white-space
    character of [str.isspace] (ASCII or not) at either end, and
    normalising it again changes nothing; what the normalisation takes
    off the two ends of the text are white-space characters only. *)
Theorem strip_replace_normal (text : string) :
  let r := list_ascii_of_string (strip_replace text) in
  (PyStr.newline ∉ r) ∧
  (∀ w, w ∈ PyStr.whitespace → ¬ w `prefix_of` r ∧ ¬ w `suffix_of` r) ∧
  strip_replace (strip_replace text) = strip_replace text ∧
  (∃ pre suf,
     list_ascii_of_string text =
       concat pre ++ list_ascii_of_string (PyStr.strip text) ++ concat suf ∧
     Forall (fun w => w ∈ PyStr.whitespace) pre ∧
     Forall (fun w => w ∈ PyStr.whitespace) suf).
Proof.
  intros r.
  destruct (strip_list text) as [Hremoved Hends].
  assert (r = nl_to_us <$> list_ascii_of_string (PyStr.strip text)) as Hr
    by apply replace_list.
  assert (PyStr.newline ∉ r) as Hn.
  { rewrite Hr. intros (c & Hc & _)%list_elem_of_fmap.
    by apply (nl_to_us_not_newline c). }
  assert (∀ w, w ∈ PyStr.whitespace → ¬ w `prefix_of` r ∧ ¬ w `suffix_of` r)
    as Hends'.
  { intros w Hin. destruct (Hends w Hin) as [Hp Hs].
    destruct (whitespace_bytes w Hin) as [->|Hw].
    - split.
      + intros [k Hk]. apply Hn. rewrite Hk. left.
      + intros [k Hk]. apply Hn. rewrite Hk.
        apply elem_of_app. right. left.
    - split.
      + intros H. apply Hp. apply (prefix_before_replace _ _ Hw).
        by rewrite <- Hr.
      + intros H. apply Hs. apply suffix_prefix_reverse.
        apply (prefix_before_replace _ _ (whitespace_reverse_bytes _ Hw)).
        rewrite fmap_reverse, <- Hr. by apply suffix_prefix_reverse. }
  split; [done|]. split; [done|]. split; [|done].
  unfold strip_replace at 1.
  rewrite strip_fixed by done.
  by apply replace_fixed.
Qed.

(** The white space taken off is that of [str.strip]: an em space
    (U+2003) and a no-break space (U+00A0) go with the ASCII ones, and
    inner white space stays. *)
Example strip_replace_unicode_space :
  strip_replace
    (string_of_list_ascii
       (PyStr.utf8 8195 ++ list_ascii_of_string " a b" ++
        PyStr.utf8 10 ++ list_ascii_of_string "c" ++
        PyStr.utf8 160 ++ PyStr.utf8 10)) = "a b_c".
Proof. by vm_compute. Qed.

(* ===================================================================== *)
(** * The skip-list file, the document store and the driver *)

Lemma load_after_complete_file items st :
  skip_file st = FileText items true → load_skip_list st = (Ok items, st).
Proof.
  intros Hf. unfold load_skip_list, try_except, open_r_json_load.
  run_monad. rewrite Hf. run_monad. by rewrite Hf.
Qed.

Lemma load_first_start st :
  skip_file st = FileAbsent → skip_file_writable st = true →
  load_skip_list st =
  (Ok default_list, set_skip_file (FileText default_list true) st).
Proof.
  intros Hf Hw. unfold load_skip_list, try_except, open_w_json_dump.
  run_monad. by rewrite Hf, bind_run, Hw, run_ops_dump_ops.
Qed.

(** X5: what [save_skip_list] has written, [load_skip_list] reads back:
    after a save of [l] to a writable file a load returns exactly [l] and
    changes nothing; the save itself returns normally and leaves the
    in-memory list alone. *)
Theorem save_then_load_skip_list (l : list string) (st : state) :
  skip_file_writable st = true →
  let st1 := (save_skip_list l st).2 in
  (save_skip_list l st).1 = Ok () ∧
  things_to_skip st1 = things_to_skip st ∧
  load_skip_list st1 = (Ok l, st1).
Proof.
  intros Hw st1. unfold st1. rewrite save_skip_list_writable by done.
  simpl. split; [done|]. split; [done|].
  by apply load_after_complete_file.
Qed.

Lemma save_then_load_skip_list_witness :
  let st1 := (save_skip_list ["Socket Cap"; "Nuts"] fresh_state).2 in
  (save_skip_list ["Socket Cap"; "Nuts"] fresh_state).1 = Ok () ∧
  things_to_skip st1 = things_to_skip fresh_state ∧
  load_skip_list st1 = (Ok ["Socket Cap"; "Nuts"], st1).
Proof. apply (save_then_load_skip_list _ fresh_state). reflexivity. Defined.

Lemma load_skip_list_never_raises st : ∃ l, (load_skip_list st).1 = Ok l.
Proof.
  unfold load_skip_list, try_except, open_r_json_load, open_w_json_dump.
  run_monad. destruct (skip_file st) as [|items [|]] eqn:Hf;
    run_monad; rewrite ?Hf; run_monad; try by eexists.
  rewrite bind_run. destruct (skip_file_writable st); by eexists.
Qed.

(** X6: [load_skip_list] on the files that this program leaves behind
    (none, a complete array, an array cut off while it was written) never
    raises.  A complete array is returned as it is and nothing changes.
    On a first start (no file, and the file can be created) the built-in
    list of 48 entries is returned and written, so that the next load
    returns the same list.  A file whose array is cut off, which
    [json.load] rejects, gives the empty list and one logged error and is
    left as it is; so does a missing file that cannot be created. *)
Theorem load_skip_list_outcomes :
  (∀ st, ∃ l, (load_skip_list st).1 = Ok l) ∧
  (∀ st items,
     skip_file st = FileText items true →
     load_skip_list st = (Ok items, st)) ∧
  (∀ st,
     skip_file st = FileAbsent → skip_file_writable st = true →
     let st1 := (load_skip_list st).2 in
     load_skip_list st = (Ok default_list, st1) ∧
     length default_list = 48 ∧
     load_skip_list st1 = (Ok default_list, st1)) ∧
  (∀ st items,
     skip_file st = FileText items false →
     load_skip_list st =
     (Ok [], add_log (error_record "Error loading skip list"
                        (Some JSONDecodeError)) st)) ∧
  (∀ st,
     skip_file st = FileAbsent → skip_file_writable st = false →
     load_skip_list st =
     (Ok [], add_log (error_record "Error loading skip list" (Some OSError))
               st)).
Proof.
  split; [|split; [|split; [|split]]].
  - apply load_skip_list_never_raises.
  - intros st items Hf. by apply load_after_complete_file.
  - intros st Hf Hw st1.
    unfold st1. rewrite (load_first_start _ Hf Hw). split; [done|]. split; [done|].
    by apply load_after_complete_file.
  - intros st items Hf. unfold load_skip_list, try_except, open_r_json_load.
    run_monad. rewrite Hf. run_monad. by rewrite Hf.
  - intros st Hf Hw. unfold load_skip_list, try_except, open_w_json_dump.
    run_monad. by rewrite Hf, bind_run, Hw.
Qed.

(** X7: after the start-up of the module the in-memory list is what the
    file holds, whenever the file was a complete array or could be created:
    the traversal starts from a written-through state. *)
Theorem module_init_in_sync (st : state) :
  (∃ items, skip_file st = FileText items true) ∨
  (skip_file st = FileAbsent ∧ skip_file_writable st = true) →
  let st1 := (module_init st).2 in
  (module_init st).1 = Ok () ∧
  skip_file st1 = FileText (things_to_skip st1) true.
Proof.
  intros H st1. unfold st1, module_init. rewrite bind_run.
  destruct H as [[items Hf]|[Hf Hw]].
  - rewrite (load_after_complete_file _ _ Hf). simpl. by rewrite Hf.
  - by rewrite (load_first_start _ Hf Hw).
Qed.

Lemma module_init_in_sync_witness :
  let st1 := (module_init (set_skip_file FileAbsent fresh_state)).2 in
  (module_init (set_skip_file FileAbsent fresh_state)).1 = Ok () ∧
  skip_file st1 = FileText (things_to_skip st1) true.
Proof.
  apply (module_init_in_sync (set_skip_file FileAbsent fresh_state)).
  right. split; reflexivity.
Defined.

Lemma switch_to_last_window_eq st :
  window_handles st ≠ [] →
  switch_to_last_window st =
  (Ok (), set_windows (window_handles st) (length (window_handles st) - 1) st).
Proof. unfold switch_to_last_window. by destruct (window_handles st). Qed.

Lemma open_new_tab_eq web url st p :
  window_handles st !! current_window st = Some p →
  open_new_tab web url st =
  (Ok (), set_windows (window_handles st ++ [web url])
            (length (window_handles st)) st).
Proof.
  intros Hcur. unfold open_new_tab.
  rewrite (bind_ok _ _ _ _ _ (current_page_eq _ _ Hcur)). run_monad.
  rewrite switch_to_last_window_eq by (simpl; by destruct (window_handles st)).
  simpl. rewrite length_app. simpl.
  by replace (length (window_handles st) + 1 - 1)
    with (length (window_handles st)) by lia.
Qed.

Lemma close_last_tab_eq st ws w :
  window_handles st = ws ++ [w] →
  current_window st = length ws →
  close_current_tab st = (Ok (), set_windows ws 0 st).
Proof.
  intros Hws Hc. unfold close_current_tab, current_page.
  rewrite bind_run, Hws, Hc, lookup_app_r, Nat.sub_diag by done. simpl.
  unfold modify. rewrite Hws, Hc.
  by rewrite delete_middle, app_nil_r.
Qed.

(** X9: a tab that is opened and closed again leaves the list of windows
    as it was, and the driver switched to the first window (not to the
    window the tab was opened from). *)
Theorem open_then_close_tab (web : string → page) (url : string)
    (st : state) (p : page) :
  window_handles st !! current_window st = Some p →
  (open_new_tab web url ;; close_current_tab) st =
  (Ok (), set_windows (window_handles st) 0 st).
Proof.
  intros Hcur. rewrite (bind_ok _ _ _ _ _ (open_new_tab_eq web url _ _ Hcur)).
  by erewrite close_last_tab_eq.
Qed.

Lemma open_then_close_tab_witness :
  (open_new_tab two_leaf_site "https://www.mcmaster.com/nuts" ;;
   close_current_tab) subcat_index_state =
  (Ok (), set_windows (window_handles subcat_index_state) 0 subcat_index_state).
Proof.
  apply (open_then_close_tab two_leaf_site "https://www.mcmaster.com/nuts"
           subcat_index_state subcat_index_page).
  reflexivity.
Defined.

(** X10: the probes only read.  [access_restricted] never raises; each of
    the four [whether_..._or_not] probes raises [TimeoutException] when the
    main content of the page does not show, [NoSuchWindowException] when the
    driver has no window, and answers otherwise; none changes the state. *)
Theorem probes_only_read (st : state) :
  (∃ b, access_restricted st = (Ok b, st)) ∧
  Forall (fun probe : M bool =>
            match window_handles st !! current_window st with
            | None => probe st = (Raise NoSuchWindowException, st)
            | Some p =>
                if MainContent_visible p
                then ∃ b, probe st = (Ok b, st)
                else probe st = (Raise TimeoutException, st)
            end)
    [whether_table_page_or_not; whether_subcat_index_page_or_not;
     whether_types_index_page_or_not; whether_product_page_or_not].
Proof.
  split.
  - unfold access_restricted, try_except, current_page. rewrite bind_run.
    destruct (window_handles st !! current_window st) as [p|]; [|by eexists].
    destruct (ProdDatProtection_visible p); by eexists.
  - destruct (window_handles st !! current_window st) as [p|] eqn:Hcur.
    + destruct (MainContent_visible p) eqn:Hv.
      * repeat constructor; eexists.
        -- by apply whether_table_page_or_not_eq.
        -- by apply whether_subcat_index_page_or_not_eq.
        -- by apply whether_types_index_page_or_not_eq.
        -- by apply whether_product_page_or_not_eq.
      * assert (wait_for_page_to_load st = (Raise TimeoutException, st)) as Hw.
        { unfold wait_for_page_to_load.
          rewrite (bind_ok _ _ _ _ _ (current_page_eq _ _ Hcur)). by rewrite Hv. }
        repeat constructor;
          [unfold whether_table_page_or_not
          |unfold whether_subcat_index_page_or_not
          |unfold whether_types_index_page_or_not
          |unfold whether_product_page_or_not];
          by rewrite bind_run, Hw.
    + assert (wait_for_page_to_load st = (Raise NoSuchWindowException, st)) as Hw.
      { unfold wait_for_page_to_load, current_page. by rewrite bind_run, Hcur. }
      repeat constructor;
        [unfold whether_table_page_or_not
        |unfold whether_subcat_index_page_or_not
        |unfold whether_types_index_page_or_not
        |unfold whether_product_page_or_not];
        by rewrite bind_run, Hw.
Qed.

(* ===================================================================== *)
(** * The product page *)

Lemma tables_loop_eq tables acc st :
  tables_loop tables acc st = (Ok (acc ++ (table_result_of <$> tables)), st).
Proof.
  revert acc. induction tables as [|t tables IH]; intros acc.
  - simpl. by rewrite app_nil_r.
  - cbn [tables_loop]. rewrite fmap_cons. unfold table_result_of at 1.
    destruct (extract_never_raises t) as [recs ->].
    by rewrite IH, <- app_assoc.
Qed.

(** What learning a key changes: the list at most, by one entry at its
    end, and the file. *)
Lemma add_to_skip_list_frame key st :
  let st' := (add_to_skip_list key st).2 in
  (add_to_skip_list key st).1 = Ok () ∧
  things_to_skip st' =
    (if PyList.contains key (things_to_skip st)
     then things_to_skip st else things_to_skip st ++ [key]) ∧
  collection st' = collection st ∧
  window_handles st' = window_handles st ∧
  current_window st' = current_window st ∧
  skip_file_writable st' = skip_file_writable st.
Proof.
  unfold add_to_skip_list. run_monad.
  destruct (PyList.contains key _); [done|].
  unfold things_to_skip_append. run_monad.
  unfold save_skip_list, try_except, open_w_json_dump. simpl.
  destruct (skip_file_writable st) eqn:Hw; simpl; by rewrite ?Hw.
Qed.

Lemma product_section_run ts l sec n1 n2 n3 cat st p t :
  window_handles st !! current_window st = Some p →
  section_h3 sec = Some t →
  ∃ st',
    product_section_scrape_data ts l sec n1 n2 n3 cat st = (Ok (), st') ∧
    collection st' =
      collection st ++ [section_document ts p l sec n1 n2 n3 cat t] ∧
    window_handles st' = window_handles st ∧
    current_window st' = current_window st ∧
    things_to_skip st' =
      (if PyStr.truthy t && negb (PyList.contains t (things_to_skip st))
       then things_to_skip st ++ [t] else things_to_skip st).
Proof.
  intros Hcur Hh3. unfold product_section_scrape_data. rewrite Hh3.
  simpl find_element. run_monad. rewrite bind_run.
  match goal with
  | |- context [try_except ?m ?h st] =>
      assert (∃ st1, try_except m h st =
                     (Ok (data (section_document ts p l sec n1 n2 n3 cat t)), st1) ∧
                     collection st1 = collection st ∧
                     window_handles st1 = window_handles st ∧
                     current_window st1 = current_window st ∧
                     things_to_skip st1 = things_to_skip st)
        as (st1 & -> & Hc & Hw & Hcw & Hs)
  end.
  { unfold try_except.
    rewrite (bind_ok _ _ _ _ _ (current_page_eq _ _ Hcur)). simpl.
    destruct (page_tables p) as [|tb tbs] eqn:Htb; run_monad.
    - unfold logging_warning. run_monad. by eexists.
    - rewrite tables_loop_eq. by eexists. }
  unfold insert_document. run_monad.
  match goal with
  | |- context [(if PyStr.truthy t then ?a else ?b) ?s] =>
      replace ((if PyStr.truthy t then a else b) s)
        with (if PyStr.truthy t then a s else b s) by by destruct (PyStr.truthy t)
  end.
  destruct (PyStr.truthy t); simpl.
  - match goal with
    | |- context [add_to_skip_list t ?s] =>
        destruct (add_to_skip_list_frame t s) as (Hr & Hs' & Hc' & Hw' & Hcw' & _);
        destruct (add_to_skip_list t s) as [r st2]
    end.
    simpl in *. subst r. exists st2. split; [done|].
    rewrite Hc', Hw', Hcw', Hs', Hc, Hw, Hcw, Hs.
    by destruct (PyList.contains t (things_to_skip st)).
  - eexists. split; [done|]. simpl. by rewrite Hc, Hw, Hcw, Hs.
Qed.

Section ProductPage.

Variables (ts : string) (p : page) (n1 n2 n3 cat : string).

(** The body of [for sec in sections] of [handle_product_page]. *)
Local Abbreviation section_body :=
  (fun sec : section_element =>
     if bool_decide (PyStr.strip (section_class sec) = "ap") then ret ()
     else product_section_scrape_data ts (current_url p) sec n1 n2 n3 cat).

Lemma sections_loop_ok sections st :
  window_handles st !! current_window st = Some p →
  Forall (fun sec => is_ap sec = true ∨ is_Some (section_h3 sec)) sections →
  ∃ st',
    for_each section_body sections st = (Ok (), st') ∧
    collection st' =
      collection st ++ section_documents ts p n1 n2 n3 cat sections ∧
    window_handles st' = window_handles st ∧
    current_window st' = current_window st ∧
    things_to_skip st `prefix_of` things_to_skip st' ∧
    (∀ sec t, sec ∈ sections → is_ap sec = false →
              section_h3 sec = Some t → t ≠ "" → t ∈ things_to_skip st').
Proof.
  intros Hcur Hall. revert st Hcur.
  induction Hall as [|sec sections Hsec _ IH]; intros st Hcur.
  - exists st. simpl. rewrite app_nil_r. repeat split; try done.
    intros sec t Hin. by apply not_elem_of_nil in Hin.
  - rewrite for_each_cons. unfold section_documents. cbn [omap list_omap].
    fold (section_documents ts p n1 n2 n3 cat sections).
    unfold is_ap in *. destruct (bool_decide _) eqn:Hap.
    + destruct (IH st Hcur) as (st' & Hrun & Hc & Hw & Hcw & Hpre & Hlearn).
      exists st'. simpl. rewrite Hrun. repeat split; try done.
      intros sec' t [->|Hin]%elem_of_cons Hnap; [congruence|by apply Hlearn].
    + destruct Hsec as [?|[t Ht]]; [done|].
      destruct (product_section_run ts (current_url p) sec n1 n2 n3 cat st p t
                  Hcur Ht) as (st1 & -> & Hc1 & Hw1 & Hcw1 & Hs1).
      assert (window_handles st1 !! current_window st1 = Some p) as Hcur1
        by by rewrite Hw1, Hcw1.
      destruct (IH st1 Hcur1) as (st' & Hrun & Hc & Hw & Hcw & Hpre & Hlearn).
      exists st'. rewrite Hrun, Ht. simpl.
      assert (things_to_skip st `prefix_of` things_to_skip st1) as Hpre1.
      { rewrite Hs1. destruct (_ && _); [by apply prefix_app_r|done]. }
      repeat split; try congruence.
      * by rewrite Hc, Hc1, <- app_assoc.
      * by etrans.
      * intros sec' t' [->|Hin]%elem_of_cons Hnap Ht' Hne; [|by eapply Hlearn].
        assert (t' = t) as -> by congruence.
        eapply elem_of_prefix; [|exact Hpre].
        rewrite Hs1. destruct t as [|c s]; [done|]. simpl.
        unfold PyList.contains.
        destruct (bool_decide (String c s ∈ things_to_skip st)) eqn:Hd; simpl.
        -- by apply bool_decide_eq_true in Hd.
        -- rewrite elem_of_app. right. constructor.
Qed.

Lemma sections_loop_stops pre sec post st :
  window_handles st !! current_window st = Some p →
  Forall (fun sec => is_ap sec = true ∨ is_Some (section_h3 sec)) pre →
  is_ap sec = false → section_h3 sec = None →
  ∃ st',
    for_each section_body (pre ++ sec :: post) st =
      (Raise NoSuchElementException, st') ∧
    collection st' = collection st ++ section_documents ts p n1 n2 n3 cat pre.
Proof.
  intros Hcur Hpre Hap Hh3.
  destruct (sections_loop_ok pre st Hcur Hpre) as (st1 & Hrun & Hc & _).
  exists st1. rewrite for_each_app, Hrun, for_each_cons.
  unfold is_ap in Hap. rewrite Hap.
  unfold product_section_scrape_data. rewrite Hh3. by simpl.
Qed.

End ProductPage.

Lemma handle_product_page_eq ts l n1 n2 cat n3 t st p sections :
  window_handles st !! current_window st = Some p →
  ProdPageContent p = true →
  PageCntnr p = Some sections →
  handle_product_page ts l n1 n2 cat n3 t st =
  for_each
    (fun sec : section_element =>
       if bool_decide (PyStr.strip (section_class sec) = "ap") then ret ()
       else product_section_scrape_data ts (current_url p) sec n1 n2 n3 cat)
    sections st.
Proof.
  intros Hcur Hcontent Hcntnr. unfold handle_product_page.
  rewrite (bind_ok _ _ _ _ _ (current_page_eq _ _ Hcur)). cbv zeta.
  rewrite Hcontent. run_monad. rewrite bind_run. unfold try_except.
  rewrite (bind_ok _ _ _ _ _ (current_page_eq _ _ Hcur)), Hcntnr.
  by run_monad.
Qed.

(** X11: on a page that has its content container and its page container,
    when every section that is not an "ap" block has a title,
    [handle_product_page] returns normally and appends to the collection
    exactly one document for each such section, in order; each document
    carries the address of the open page as its link (the link the caller
    passes is not used) and the title of its section.  The windows of the
    driver are left alone, no key is taken out of the skip list, and every
    non-empty title is in it afterwards. *)
Theorem handle_product_page_stores_sections
    (ts l n1 n2 cat n3 t : string) (st : state) (p : page)
    (sections : list section_element) :
  window_handles st !! current_window st = Some p →
  ProdPageContent p = true →
  PageCntnr p = Some sections →
  Forall (fun sec => is_ap sec = true ∨ is_Some (section_h3 sec)) sections →
  ∃ st',
    handle_product_page ts l n1 n2 cat n3 t st = (Ok (), st') ∧
    collection st' =
      collection st ++ section_documents ts p n1 n2 n3 cat sections ∧
    Forall (fun doc => link doc = current_url p)
      (section_documents ts p n1 n2 n3 cat sections) ∧
    title <$> section_documents ts p n1 n2 n3 cat sections =
      omap section_h3 (filter (fun sec => is_ap sec = false) sections) ∧
    window_handles st' = window_handles st ∧
    current_window st' = current_window st ∧
    things_to_skip st `prefix_of` things_to_skip st' ∧
    (∀ sec t', sec ∈ sections → is_ap sec = false →
               section_h3 sec = Some t' → t' ≠ "" → t' ∈ things_to_skip st').
Proof.
  intros Hcur Hcontent Hcntnr Hall.
  destruct (sections_loop_ok ts p n1 n2 n3 cat sections st Hcur Hall)
    as (st' & Hrun & Hc & Hw & Hcw & Hpre & Hlearn).
  exists st'. rewrite (handle_product_page_eq _ _ _ _ _ _ _ _ _ _ Hcur Hcontent
                         Hcntnr).
  split; [done|]. split; [done|]. split; [|split; [|done]].
  - apply Forall_forall. intros doc Hdoc.
    apply list_elem_of_omap in Hdoc as (sec & _ & Hdoc).
    destruct (is_ap sec); [done|].
    destruct (section_h3 sec); [|done]. by injection Hdoc as <-.
  - clear. induction sections as [|sec sections IH]; [done|].
    unfold section_documents. cbn [omap list_omap].
    fold (section_documents ts p n1 n2 n3 cat sections).
    rewrite filter_cons. destruct (is_ap sec) eqn:Hap.
    + by rewrite decide_False by done.
    + rewrite decide_True by done. cbn [omap list_omap].
      destruct (section_h3 sec); cbn [fmap option_fmap option_map];
        [rewrite fmap_cons|]; by rewrite IH.
Qed.

Lemma handle_product_page_stores_sections_witness :
  ∃ st',
    handle_product_page the_timestamp "https://www.mcmaster.com/other"
      "Fasteners" "Washers" "Fastening" "Flat" "" groups_and_marker_state
      = (Ok (), st') ∧
    collection st' =
      collection groups_and_marker_state ++
      section_documents the_timestamp groups_and_marker_page
        "Fasteners" "Washers" "Flat" "Fastening" [socket_cap_section] ∧
    Forall (fun doc => link doc = current_url groups_and_marker_page)
      (section_documents the_timestamp groups_and_marker_page
         "Fasteners" "Washers" "Flat" "Fastening" [socket_cap_section]) ∧
    title <$> section_documents the_timestamp groups_and_marker_page
                "Fasteners" "Washers" "Flat" "Fastening" [socket_cap_section] =
      omap section_h3
        (filter (fun sec => is_ap sec = false) [socket_cap_section]) ∧
    window_handles st' = window_handles groups_and_marker_state ∧
    current_window st' = current_window groups_and_marker_state ∧
    things_to_skip groups_and_marker_state `prefix_of` things_to_skip st' ∧
    (∀ sec t', sec ∈ [socket_cap_section] → is_ap sec = false →
               section_h3 sec = Some t' → t' ≠ "" → t' ∈ things_to_skip st').
Proof.
  apply (handle_product_page_stores_sections the_timestamp
           "https://www.mcmaster.com/other" "Fasteners" "Washers" "Fastening"
           "Flat" "" groups_and_marker_state groups_and_marker_page
           [socket_cap_section]); try reflexivity.
  constructor; [right; by eexists|constructor].
Defined.

(** X12: how [handle_product_page] fails.  Without the content container
    it raises [TimeoutException] and changes nothing; without the page
    container it logs one error and returns normally, storing nothing; at
    the first section that is not an "ap" block and has no title it raises
    [NoSuchElementException]: the documents of the sections before it are
    stored, those of the sections after it are not. *)
Theorem handle_product_page_failures (ts l n1 n2 cat n3 t : string) :
  (∀ st p,
     window_handles st !! current_window st = Some p →
     ProdPageContent p = false →
     handle_product_page ts l n1 n2 cat n3 t st = (Raise TimeoutException, st)) ∧
  (∀ st p,
     window_handles st !! current_window st = Some p →
     ProdPageContent p = true →
     PageCntnr p = None →
     handle_product_page ts l n1 n2 cat n3 t st =
     (Ok (), add_log (error_record "Failed to locate #PageCntnr" None) st)) ∧
  (∀ st p pre sec post,
     window_handles st !! current_window st = Some p →
     ProdPageContent p = true →
     PageCntnr p = Some (pre ++ sec :: post) →
     Forall (fun sec => is_ap sec = true ∨ is_Some (section_h3 sec)) pre →
     is_ap sec = false →
     section_h3 sec = None →
     ∃ st',
       handle_product_page ts l n1 n2 cat n3 t st =
         (Raise NoSuchElementException, st') ∧
       collection st' =
         collection st ++ section_documents ts p n1 n2 n3 cat pre).
Proof.
  split; [|split].
  - intros st p Hcur Hc. unfold handle_product_page.
    rewrite (bind_ok _ _ _ _ _ (current_page_eq _ _ Hcur)). cbv zeta.
    by rewrite Hc.
  - intros st p Hcur Hc Hp. unfold handle_product_page.
    rewrite (bind_ok _ _ _ _ _ (current_page_eq _ _ Hcur)). cbv zeta.
    rewrite Hc. run_monad. rewrite bind_run. unfold try_except.
    rewrite (bind_ok _ _ _ _ _ (current_page_eq _ _ Hcur)), Hp.
    by run_monad.
  - intros st p pre sec post Hcur Hc Hp Hpre Hap Hh3.
    rewrite (handle_product_page_eq _ _ _ _ _ _ _ _ _ _ Hcur Hc Hp).
    by apply sections_loop_stops.
Qed.

Lemma handle_product_page_failures_witness :
  handle_product_page the_timestamp "https://www.mcmaster.com/fasteners"
    "Fasteners" "Screws and Nuts" "Fastening" "" "" subcat_index_state =
  (Raise TimeoutException, subcat_index_state).
Proof.
  apply (proj1 (handle_product_page_failures the_timestamp
                  "https://www.mcmaster.com/fasteners" "Fasteners"
                  "Screws and Nuts" "Fastening" "" "")
           subcat_index_state subcat_index_page); reflexivity.
Defined.

Lemma img_links_of_elem srcs x :
  x ∈ img_links_of srcs ↔
  ∃ s, Some s ∈ srcs ∧ s ≠ "" ∧ x = PyStr.strip s.
Proof.
  unfold img_links_of. rewrite elem_of_remove_dups, list_elem_of_omap.
  split.
  - intros ([s|] & Hin & Hs); [|done].
    destruct (PyStr.truthy s) eqn:Ht; [|done]. injection Hs as <-.
    exists s. split; [done|]. split; [by apply truthy_nonempty|done].
  - intros (s & Hin & Hne & ->). exists (Some s). split; [done|].
    by rewrite (proj2 (truthy_nonempty s) Hne).
Qed.

Lemma table_results_are_rows tables :
  Forall2 (fun table_e entry =>
             ∃ rows, extract_data_from_table_ele table_e = Ok rows ∧
                     entry = TableRows rows)
    tables (table_result_of <$> tables).
Proof.
  induction tables as [|t tables IH]; [constructor|].
  rewrite fmap_cons. constructor; [|done].
  unfold table_result_of. destruct (extract_never_raises t) as [rows ->].
  by exists rows.
Qed.

(** X13: the document that [product_section_scrape_data] stores for a
    section with a title.  The call returns normally and appends one
    document.  Its images are the stripped non-empty [src] values of the
    images of the section, each once.  Its [data] has one entry for every
    table of the page, in order, each the rows that
    [extract_data_from_table_ele] returns for that table (never an error
    marker), or the single marker for "no table" when the page has none. *)
Theorem product_section_document
    (ts l n1 n2 n3 cat : string) (sec : section_element)
    (st : state) (p : page) (t : string) :
  window_handles st !! current_window st = Some p →
  section_h3 sec = Some t →
  ∃ st' doc,
    product_section_scrape_data ts l sec n1 n2 n3 cat st = (Ok (), st') ∧
    collection st' = collection st ++ [doc] ∧
    title doc = t ∧ link doc = l ∧
    NoDup (images doc) ∧
    (∀ x, x ∈ images doc ↔
          ∃ s, Some s ∈ section_img_src sec ∧ s ≠ "" ∧ x = PyStr.strip s) ∧
    (page_tables p = [] → data doc = [NoTableData]) ∧
    (page_tables p ≠ [] →
     Forall2 (fun table_e entry =>
                ∃ rows, extract_data_from_table_ele table_e = Ok rows ∧
                        entry = TableRows rows)
       (page_tables p) (data doc)).
Proof.
  intros Hcur Hh3.
  destruct (product_section_run ts l sec n1 n2 n3 cat st p t Hcur Hh3)
    as (st' & Hrun & Hc & _).
  exists st', (section_document ts p l sec n1 n2 n3 cat t).
  split; [done|]. split; [done|]. split; [done|]. split; [done|].
  split; [apply NoDup_remove_dups|]. split; [apply img_links_of_elem|].
  cbn [data section_document]. split.
  - by intros ->.
  - intros Hne. destruct (page_tables p) as [|tb tbs]; [done|].
    apply table_results_are_rows.
Qed.

Lemma product_section_document_witness :
  ∃ st' doc,
    product_section_scrape_data the_timestamp "https://www.mcmaster.com/washers"
      socket_cap_section "Fasteners" "Washers" "Flat" "Fastening"
      groups_and_marker_state = (Ok (), st') ∧
    collection st' = collection groups_and_marker_state ++ [doc] ∧
    title doc = "Socket Cap" ∧ link doc = "https://www.mcmaster.com/washers" ∧
    NoDup (images doc) ∧
    (∀ x, x ∈ images doc ↔
          ∃ s, Some s ∈ section_img_src socket_cap_section ∧ s ≠ "" ∧
               x = PyStr.strip s) ∧
    (page_tables groups_and_marker_page = [] → data doc = [NoTableData]) ∧
    (page_tables groups_and_marker_page ≠ [] →
     Forall2 (fun table_e entry =>
                ∃ rows, extract_data_from_table_ele table_e = Ok rows ∧
                        entry = TableRows rows)
       (page_tables groups_and_marker_page) (data doc)).
Proof.
  apply (product_section_document the_timestamp
           "https://www.mcmaster.com/washers" "Fasteners" "Washers" "Flat"
           "Fastening" socket_cap_section groups_and_marker_state
           groups_and_marker_page "Socket Cap"); reflexivity.
Defined.

(* ===================================================================== *)
(** * Properties that every step of the traversal keeps *)

Create HintDb frame discriminated.

Ltac frame_auto :=
  repeat first
    [ progress cbv zeta
    | solve [eauto with frame]
    | apply preserves_ret
    | apply preserves_raise
    | apply preserves_lift
    | apply preserves_get
    | apply preserves_bind; [|intros ?]
    | apply preserves_try_except; [|intros ?]
    | apply preserves_try_finally
    | apply preserves_for_each; intros ?
    | match goal with
      | |- preserves _ (match ?x with _ => _ end) => destruct x
      end ].

Section Frame.

(** A property of the state that logging, storing a document and learning
    a key keep. *)
Variable I : state → Prop.
Hypothesis I_log : ∀ r st, I st → I (add_log r st).
Hypothesis I_insert : ∀ doc, preserves I (insert_document doc).
Hypothesis I_learn : ∀ key, preserves I (add_to_skip_list key).

Lemma fr_logging_error msg e : preserves I (logging_error msg e).
Proof. apply preserves_modify. intros st. apply I_log. Qed.

Lemma fr_logging_warning msg : preserves I (logging_warning msg).
Proof. apply preserves_modify. intros st. apply I_log. Qed.

Lemma fr_current_page : preserves I current_page.
Proof. intros st HI. unfold current_page. by destruct (_ !! _). Qed.

Hint Resolve fr_logging_error fr_logging_warning fr_current_page
  I_insert I_learn : frame.

Lemma fr_tables_loop tables acc : preserves I (tables_loop tables acc).
Proof.
  revert acc. induction tables as [|t tables IH]; intros acc; simpl.
  - apply preserves_ret.
  - destruct (extract_data_from_table_ele t); [apply IH|].
    apply preserves_bind; [apply fr_logging_error|intros _; apply IH].
Qed.

Hint Resolve fr_tables_loop : frame.

Variable ts : string.

Lemma fr_product_section_scrape_data l sec n1 n2 n3 cat :
  preserves I (product_section_scrape_data ts l sec n1 n2 n3 cat).
Proof. unfold product_section_scrape_data. frame_auto. Qed.

Hint Resolve fr_product_section_scrape_data : frame.

Lemma fr_handle_product_page l n1 n2 cat n3 t :
  preserves I (handle_product_page ts l n1 n2 cat n3 t).
Proof. unfold handle_product_page. frame_auto. Qed.

Hint Resolve fr_handle_product_page : frame.

Lemma fr_find_document l : preserves I (find_document l).
Proof. unfold find_document. frame_auto. Qed.

Lemma fr_wait_for_page_to_load : preserves I wait_for_page_to_load.
Proof. unfold wait_for_page_to_load. frame_auto. Qed.

Lemma fr_access_restricted : preserves I access_restricted.
Proof. unfold access_restricted. frame_auto. Qed.

Hint Resolve fr_find_document fr_wait_for_page_to_load fr_access_restricted
  : frame.

Lemma fr_whether_table_page_or_not : preserves I whether_table_page_or_not.
Proof. unfold whether_table_page_or_not. frame_auto. Qed.

Lemma fr_whether_subcat_index_page_or_not :
  preserves I whether_subcat_index_page_or_not.
Proof. unfold whether_subcat_index_page_or_not. frame_auto. Qed.

Lemma fr_whether_types_index_page_or_not :
  preserves I whether_types_index_page_or_not.
Proof. unfold whether_types_index_page_or_not. frame_auto. Qed.

Lemma fr_whether_product_page_or_not :
  preserves I whether_product_page_or_not.
Proof. unfold whether_product_page_or_not. frame_auto. Qed.

Hint Resolve fr_whether_table_page_or_not fr_whether_subcat_index_page_or_not
  fr_whether_types_index_page_or_not fr_whether_product_page_or_not : frame.

(** From here on the property is also kept when the windows of the
    driver change. *)
Hypothesis I_windows : ∀ hs cur st, I st → I (set_windows hs cur st).

Lemma fr_modify_windows (hs : state → list page) (cur : state → nat) :
  preserves I (modify (fun st => set_windows (hs st) (cur st) st)).
Proof. apply preserves_modify. intros st. apply I_windows. Qed.

Lemma fr_switch_to_last_window : preserves I switch_to_last_window.
Proof.
  intros st HI. unfold switch_to_last_window.
  destruct (window_handles st); [done|]. by apply I_windows.
Qed.

Lemma fr_driver_quit : preserves I driver_quit.
Proof. apply preserves_modify. intros st. apply I_windows. Qed.

Lemma fr_setup_driver : preserves I setup_driver.
Proof. apply preserves_modify. intros st. apply I_windows. Qed.

Hint Resolve fr_modify_windows fr_switch_to_last_window fr_driver_quit
  fr_setup_driver : frame.

Variable web : string → page.

Lemma fr_load_site : preserves I (load_site web).
Proof. unfold load_site. frame_auto. Qed.

Lemma fr_open_new_tab url : preserves I (open_new_tab web url).
Proof. unfold open_new_tab. frame_auto. Qed.

Lemma fr_close_current_tab : preserves I close_current_tab.
Proof. unfold close_current_tab. frame_auto. Qed.

Hint Resolve fr_load_site fr_open_new_tab fr_close_current_tab : frame.

Lemma fr_types_product_body n1 n2 cat n3 a :
  preserves I (types_product_body web ts n1 n2 cat n3 a).
Proof. unfold types_product_body. frame_auto. Qed.

Hint Resolve fr_types_product_body : frame.

Lemma fr_types_group_body n1 n2 cat n3 g :
  preserves I (types_group_body web ts n1 n2 cat n3 g).
Proof.
  unfold types_group_body, types_product_item, except_continue. frame_auto.
Qed.

Hint Resolve fr_types_group_body : frame.

Lemma fr_handle_types_index_page n1 n2 cat n3 :
  preserves I (handle_types_index_page web ts n1 n2 cat n3).
Proof.
  unfold handle_types_index_page, wait_visibility_of_all_GroupPrsnttn,
    types_group_item, except_reraise, except_continue.
  frame_auto.
Qed.

Hint Resolve fr_handle_types_index_page : frame.

Lemma fr_subcat_dispatch l n1 n2 cat n3 :
  preserves I (subcat_dispatch web ts l n1 n2 cat n3).
Proof. unfold subcat_dispatch. frame_auto. Qed.

Hint Resolve fr_subcat_dispatch : frame.

Lemma fr_subcat_tile_body n1 n2 cat t :
  preserves I (subcat_tile_body web ts n1 n2 cat t).
Proof. unfold subcat_tile_body. frame_auto. Qed.

Hint Resolve fr_subcat_tile_body : frame.

Lemma fr_handle_subcategories_index_page n1 n2 cat :
  preserves I (handle_subcategories_index_page web ts n1 n2 cat).
Proof.
  unfold handle_subcategories_index_page,
    wait_visibility_of_ClientRenderedContent, subcat_tile_item,
    except_reraise, except_continue.
  frame_auto.
Qed.

Hint Resolve fr_handle_subcategories_index_page : frame.

Lemma fr_run_dispatch l n1 n2 cat key :
  preserves I (run_dispatch web ts l n1 n2 cat key).
Proof. unfold run_dispatch. frame_auto. Qed.

Hint Resolve fr_run_dispatch : frame.

Lemma fr_run_item cat n1 it : preserves I (run_item web ts cat n1 it).
Proof. unfold run_item. frame_auto. Qed.

Hint Resolve fr_run_item : frame.

Lemma fr_run_try : preserves I (run_try web ts).
Proof.
  unfold run_try, wait_visibility_of_HomePageContent, run_category, run_subcat.
  frame_auto.
Qed.

Hint Resolve fr_run_try : frame.

Lemma fr_run : preserves I (run web ts).
Proof. unfold run. frame_auto. Qed.

End Frame.

Lemma add_to_skip_list_log key st :
  log st `prefix_of` log (add_to_skip_list key st).2.
Proof.
  unfold add_to_skip_list. run_monad.
  destruct (PyList.contains key _); [done|].
  unfold things_to_skip_append. run_monad.
  unfold save_skip_list, try_except, open_w_json_dump. simpl.
  destruct (skip_file_writable st); simpl; [done|by apply prefix_app_r].
Qed.

Section AppendOnly.

Variables (l0 : list string) (c0 : list product_data) (g0 : list log_record).

(** Nothing has been taken out of the skip list, the collection or the
    log since they were [l0], [c0] and [g0]. *)
Local Abbreviation grown :=
  (fun s : state =>
     l0 `prefix_of` things_to_skip s ∧
     c0 `prefix_of` collection s ∧
     g0 `prefix_of` log s).

Lemma grown_log r st : grown st → grown (add_log r st).
Proof. intros (?&?&?). repeat split; [done..|by apply prefix_app_r]. Qed.

Lemma grown_insert doc : preserves grown (insert_document doc).
Proof.
  intros st (?&?&?). repeat split; [done| |done]. by apply prefix_app_r.
Qed.

Lemma grown_learn key : preserves grown (add_to_skip_list key).
Proof.
  intros st (Hl & Hc & Hg).
  destruct (add_to_skip_list_frame key st) as (_ & Hs & Hc' & _).
  rewrite Hs, Hc'. repeat split.
  - destruct (PyList.contains _ _); [done|by apply prefix_app_r].
  - done.
  - etrans; [exact Hg|apply add_to_skip_list_log].
Qed.

Lemma grown_windows hs cur st : grown st → grown (set_windows hs cur st).
Proof. done. Qed.

End AppendOnly.

Lemma run_grown web ts st :
  things_to_skip st `prefix_of` things_to_skip (run web ts st).2 ∧
  collection st `prefix_of` collection (run web ts st).2 ∧
  log st `prefix_of` log (run web ts st).2.
Proof.
  apply (fr_run _ (grown_log _ _ _) (grown_insert _ _ _) (grown_learn _ _ _));
    [apply grown_windows|done].
Qed.

(** X14: the traversal only appends.  Whatever [run] or one of the
    handlers does, and however it ends, the skip list, the collection and
    the log it started from are prefixes of those it leaves: no key is
    forgotten, no document removed or changed, no log entry lost. *)
Theorem traversal_only_appends (web : string → page) (ts : string) :
  let grown_from (st st' : state) :=
    things_to_skip st `prefix_of` things_to_skip st' ∧
    collection st `prefix_of` collection st' ∧
    log st `prefix_of` log st' in
  (∀ st, grown_from st (run web ts st).2) ∧
  (∀ n1 n2 cat st,
     grown_from st (handle_subcategories_index_page web ts n1 n2 cat st).2) ∧
  (∀ n1 n2 cat n3 st,
     grown_from st (handle_types_index_page web ts n1 n2 cat n3 st).2) ∧
  (∀ l n1 n2 cat n3 t st,
     grown_from st (handle_product_page ts l n1 n2 cat n3 t st).2).
Proof.
  intros grown_from. unfold grown_from.
  split; [|split; [|split]]; intros.
  - apply run_grown.
  - apply (fr_handle_subcategories_index_page _ (grown_log _ _ _)
             (grown_insert _ _ _) (grown_learn _ _ _));
      [apply grown_windows|done].
  - apply (fr_handle_types_index_page _ (grown_log _ _ _)
             (grown_insert _ _ _) (grown_learn _ _ _));
      [apply grown_windows|done].
  - by apply (fr_handle_product_page _ (grown_log _ _ _)
                (grown_insert _ _ _) (grown_learn _ _ _)).
Qed.

(** X15: the skip list never acquires a repetition: a key is appended
    only when it is not in the list, so a list without repetitions stays
    without them through [run] and through every handler. *)
Theorem skip_list_stays_without_repetition
    (web : string → page) (ts : string) (st : state) :
  NoDup (things_to_skip st) →
  NoDup (things_to_skip (run web ts st).2) ∧
  (∀ n1 n2 cat,
     NoDup (things_to_skip
              (handle_subcategories_index_page web ts n1 n2 cat st).2)) ∧
  (∀ n1 n2 cat n3,
     NoDup (things_to_skip
              (handle_types_index_page web ts n1 n2 cat n3 st).2)) ∧
  (∀ l n1 n2 cat n3 t,
     NoDup (things_to_skip (handle_product_page ts l n1 n2 cat n3 t st).2)).
Proof.
  intros Hnd.
  set (I := fun s : state => NoDup (things_to_skip s)).
  assert (∀ r s, I s → I (add_log r s)) as Ilog by by intros r s.
  assert (∀ doc, preserves I (insert_document doc)) as Iins by by intros doc s.
  assert (∀ key, preserves I (add_to_skip_list key)) as Ilearn.
  { intros key s Hs. unfold I in *.
    destruct (add_to_skip_list_frame key s) as (_ & -> & _).
    unfold PyList.contains. case_bool_decide as Hin; [done|].
    apply NoDup_app. split; [done|]. split; [|apply NoDup_singleton].
    intros x Hx ->%list_elem_of_singleton. done. }
  assert (∀ hs cur s, I s → I (set_windows hs cur s)) as Iwin
    by by intros hs cur s.
  split; [|split; [|split]]; intros.
  - by apply (fr_run I).
  - by apply (fr_handle_subcategories_index_page I).
  - by apply (fr_handle_types_index_page I).
  - by apply (fr_handle_product_page I).
Qed.

Lemma skip_list_stays_without_repetition_witness :
  NoDup (things_to_skip (run (screws_site false) the_timestamp resumed_state).2).
Proof.
  apply (skip_list_stays_without_repetition (screws_site false) the_timestamp
           resumed_state).
  by apply (bool_decide_unpack _).
Defined.

(* ===================================================================== *)
(** * The entry points *)

Lemma run_quits_driver web ts st : window_handles (run web ts st).2 = [].
Proof.
  unfold run, try_finally.
  by destruct (try_except _ _ st) as [r st'].
Qed.

Lemma save_skip_list_returns l st :
  (save_skip_list l st).1 = Ok () ∧
  window_handles (save_skip_list l st).2 = window_handles st ∧
  things_to_skip (save_skip_list l st).2 = things_to_skip st ∧
  collection (save_skip_list l st).2 = collection st.
Proof.
  unfold save_skip_list, try_except, open_w_json_dump.
  by destruct (skip_file_writable st).
Qed.

Lemma save_skip_list_eq l st :
  save_skip_list l st =
  (Ok (),
   if skip_file_writable st then set_skip_file (FileText l true) st
   else add_log (error_record "Error saving skip list" (Some OSError)) st).
Proof.
  unfold save_skip_list, try_except, open_w_json_dump.
  destruct (skip_file_writable st); [by rewrite run_ops_dump_ops|done].
Qed.

Lemma run_writable web ts st :
  skip_file_writable (run web ts st).2 = skip_file_writable st.
Proof.
  apply (fr_run (fun s => skip_file_writable s = skip_file_writable st));
    [done|by intros doc s| |done|done].
  intros key s Hs.
  destruct (add_to_skip_list_frame key s) as (_ & _ & _ & _ & _ & Hw).
  by rewrite Hw.
Qed.

(** X16: with the driver set up, [run_scraper] never raises, whatever the
    site and the state.  What [run] raises is logged: the log is the log
    that [run] left, then one error entry for the exception when [run]
    raised, then one more when the file could not be written.  The skip
    list is saved: the file holds the in-memory list when it can be
    written and is as [run] left it otherwise.  The call returns with the
    driver quit and with the list and the collection as [run] left them;
    no key and no document is lost. *)
Theorem run_scraper_always_returns
    (web : string → page) (ts : string) (st : state) :
  let after_run := run web ts (set_windows [blank_page] 0 st) in
  let st' := (run_scraper web ts st).2 in
  (run_scraper web ts st).1 = Ok () ∧
  window_handles st' = [] ∧
  things_to_skip st `prefix_of` things_to_skip st' ∧
  collection st `prefix_of` collection st' ∧
  things_to_skip st' = things_to_skip after_run.2 ∧
  collection st' = collection after_run.2 ∧
  log st' =
    log after_run.2 ++
    match after_run.1 with
    | Ok _ => []
    | Raise e =>
        [error_record
           match e with
           | AccessRestrictedError =>
               "Scraping stopped due to access restrictions"
           | _ => "Scraping failed with error"
           end (Some e)]
    end ++
    (if skip_file_writable st then []
     else [error_record "Error saving skip list" (Some OSError)]) ∧
  skip_file st' =
    (if skip_file_writable st then FileText (things_to_skip st') true
     else skip_file after_run.2).
Proof.
  intros after_run st'. unfold st', after_run. clear st' after_run.
  unfold run_scraper. rewrite bind_run. simpl. unfold try_finally.
  set (st0 := set_windows [blank_page] 0 st).
  pose proof (run_quits_driver web ts st0) as Hq.
  pose proof (run_writable web ts st0) as Hwr. simpl in Hwr.
  destruct (run_grown web ts st0) as (Hl & Hc & _).
  unfold try_except. destruct (run web ts st0) as [[[]|e] st1]; simpl in *.
  - run_monad. rewrite save_skip_list_eq.
    rewrite Hwr. destruct (skip_file_writable st); simpl.
    + by rewrite app_nil_r.
    + done.
  - assert (∃ msg, (match e with
                    | AccessRestrictedError =>
                        logging_error
                          "Scraping stopped due to access restrictions" (Some e)
                    | _ => logging_error "Scraping failed with error" (Some e)
                    end) st1 = (Ok (), add_log (error_record msg (Some e)) st1) ∧
                   msg = match e with
                         | AccessRestrictedError =>
                             "Scraping stopped due to access restrictions"
                         | _ => "Scraping failed with error"
                         end)
      as (msg & -> & Hmsg) by (destruct e; by eexists).
    rewrite <- Hmsg. run_monad. rewrite save_skip_list_eq. simpl.
    rewrite Hwr. destruct (skip_file_writable st); simpl.
    + done.
    + by rewrite <- app_assoc.
Qed.

Lemma grown_setup_run web ts st :
  let st' := ((setup_driver ;; run web ts) st).2 in
  things_to_skip st `prefix_of` things_to_skip st' ∧
  collection st `prefix_of` collection st'.
Proof.
  rewrite bind_run. simpl.
  destruct (run_grown web ts (set_windows [blank_page] 0 st)) as (Hl & Hc & _).
  done.
Qed.

Lemma main_attempts_run web ts n st :
  let st' := (main_attempts web ts n st).2 in
  (main_attempts web ts n st).1 ≠ Raise AccessRestrictedError ∧
  things_to_skip st `prefix_of` things_to_skip st' ∧
  collection st `prefix_of` collection st'.
Proof.
  revert st. induction n as [|n IH]; intros st; [done|].
  cbn [main_attempts]. unfold try_except.
  pose proof (grown_setup_run web ts st) as [Hl Hc].
  destruct ((setup_driver ;; run web ts) st) as [[[]|e] st1]; simpl in *;
    [done|].
  destruct e; try done.
  destruct (IH st1) as (Hr & Hl1 & Hc1).
  split; [done|]. split; by etrans.
Qed.

(** X17: the retry loop of [main.py].  [AccessRestrictedError] never
    leaves it; the first attempt whose [run] ends otherwise, normally or
    with another exception, ends the loop with that outcome; after an
    [AccessRestrictedError] the next attempt starts from the state the
    failed one left, so the keys learned and the documents stored so far
    are kept through all attempts. *)
Theorem main_retry_loop (web : string → page) (ts : string) :
  (∀ st, (main web ts st).1 ≠ Raise AccessRestrictedError) ∧
  (∀ n st,
     let st' := (main_attempts web ts n st).2 in
     (main_attempts web ts n st).1 ≠ Raise AccessRestrictedError ∧
     things_to_skip st `prefix_of` things_to_skip st' ∧
     collection st `prefix_of` collection st') ∧
  (∀ n st r st',
     (setup_driver ;; run web ts) st = (r, st') →
     r ≠ Raise AccessRestrictedError →
     main_attempts web ts (S n) st = (r, st')) ∧
  (∀ n st st',
     (setup_driver ;; run web ts) st = (Raise AccessRestrictedError, st') →
     main_attempts web ts (S n) st = main_attempts web ts n st').
Proof.
  split; [|split; [|split]].
  - intros st. unfold main. rewrite bind_run.
    destruct (module_init st) as [[[]|e] st1] eqn:Hm.
    + apply main_attempts_run.
    + unfold module_init in Hm. rewrite bind_run in Hm.
      destruct (load_skip_list_never_raises st) as [l Hl].
      destruct (load_skip_list st) as [[l'|e'] st2]; [done|].
      by simpl in Hl.
  - apply main_attempts_run.
  - intros n st r st' Hrun Hr. cbn [main_attempts]. unfold try_except.
    rewrite Hrun. destruct r as [[]|e]; [done|]. by destruct e.
  - intros n st st' Hrun. cbn [main_attempts]. unfold try_except.
    by rewrite Hrun.
Qed.

(* ===================================================================== *)
(** * What the traversal visits *)

Lemma run_category_empty_title web ts cat_ele st :
  category_h1 cat_ele = Some "" → run_category web ts cat_ele st = (Ok (), st).
Proof. intros H. unfold run_category. by rewrite H. Qed.

Lemma for_each_run_category_filter web ts cats st :
  for_each (run_category web ts) cats st =
  for_each (run_category web ts)
    (filter (fun c => category_h1 c ≠ Some "") cats) st.
Proof.
  revert st. induction cats as [|c cats IH]; intros st; [done|].
  rewrite filter_cons. destruct (decide (category_h1 c ≠ Some "")) as [Hc|Hc].
  - rewrite !for_each_cons. by destruct (run_category web ts c st) as [[[]|e] st'].
  - apply dec_stable in Hc.
    by rewrite for_each_cons, (run_category_empty_title _ _ _ _ Hc).
Qed.

(** X18: [run] passes over the first five category elements of the home
    page and over every category whose title is empty: what it does is
    what it does on the remaining categories, in order.  With five
    categories or fewer it visits nothing and returns normally, the driver
    quit. *)
Theorem run_visits_categories_after_the_fifth
    (web : string → page) (ts : string) (st : state) (p0 : page)
    (category_eles : list category_element) :
  window_handles st !! current_window st = Some p0 →
  HomePageContent (web base_url) = Some (true, category_eles) →
  run_try web ts st =
    for_each (run_category web ts)
      (filter (fun c => category_h1 c ≠ Some "") (drop 5 category_eles))
      (set_windows (<[current_window st := web base_url]> (window_handles st))
         (current_window st) st) ∧
  (length category_eles ≤ 5 → run web ts st = (Ok (), set_windows [] 0 st)).
Proof.
  intros Hcur Hhome.
  assert (run_try web ts st =
          for_each (run_category web ts) (drop 5 category_eles)
            (set_windows
               (<[current_window st := web base_url]> (window_handles st))
               (current_window st) st)) as Htry.
  { unfold run_try, load_site.
    rewrite bind_assoc_run, (bind_ok _ _ _ _ _ (current_page_eq _ _ Hcur)).
    run_monad. unfold wait_visibility_of_HomePageContent.
    rewrite bind_assoc_run, bind_run. unfold current_page. simpl.
    rewrite list_lookup_insert_eq by by eapply lookup_lt_Some.
    by rewrite Hhome. }
  split.
  - by rewrite Htry, for_each_run_category_filter.
  - intros Hlen. unfold run, try_finally, try_except.
    rewrite Htry, drop_ge by done. done.
Qed.

Lemma run_visits_categories_after_the_fifth_witness :
  run_try (screws_site false) the_timestamp fresh_state =
    for_each (run_category (screws_site false) the_timestamp)
      (filter (fun c => category_h1 c ≠ Some "")
         (drop 5 (replicate 5 filler_category ++
                  [ {| category_h1 := Some "Fastening";
                       category_subcats :=
                         [ {| block_h2 := Some "Fasteners";
                              block_items := [screws_item] |} ] |} ])))
      (set_windows
         (<[current_window fresh_state := screws_site false base_url]>
            (window_handles fresh_state))
         (current_window fresh_state) fresh_state) ∧
  (length (replicate 5 filler_category ++
           [ {| category_h1 := Some "Fastening";
                category_subcats :=
                  [ {| block_h2 := Some "Fasteners";
                       block_items := [screws_item] |} ] |} ]) ≤ 5 →
   run (screws_site false) the_timestamp fresh_state =
   (Ok (), set_windows [] 0 fresh_state)).
Proof.
  apply (run_visits_categories_after_the_fifth (screws_site false) the_timestamp
           fresh_state blank_page); reflexivity.
Defined.

(** *** The gates of the skip list *)

Lemma types_product_body_skipped web ts n1 n2 cat n3 a t st :
  anchor_ke a = Some t → t ∈ things_to_skip st →
  types_product_body web ts n1 n2 cat n3 a st = (Ok (), st).
Proof.
  intros Hke Hin. unfold types_product_body. rewrite Hke. simpl find_element.
  run_monad. unfold PyList.contains. by rewrite bool_decide_true.
Qed.

Lemma subcat_tile_body_skipped web ts n1 n2 cat tile img t c n st :
  tile_image tile = Some img → tile_title tile = Some t →
  tile_copy tile = Some c → tile_product_count tile = Some n →
  PyStr.strip t ∈ things_to_skip st →
  subcat_tile_body web ts n1 n2 cat tile st = (Ok (), st).
Proof.
  intros Hi Ht Hc Hn Hin. unfold subcat_tile_body.
  rewrite Hi, Ht, Hc, Hn. simpl find_element. run_monad.
  unfold PyList.contains. by rewrite bool_decide_true.
Qed.

Lemma run_item_skipped web ts cat n1 it href st :
  item_a_href it = Some href →
  cat +:+ "/" +:+ item_text it ∈ things_to_skip st →
  run_item web ts cat n1 it st = (Ok (), st).
Proof.
  intros Hh Hin. unfold run_item. rewrite Hh. simpl find_element. run_monad.
  unfold PyList.contains. by rewrite bool_decide_true.
Qed.

Lemma for_each_identity {A} (f : A → M unit) xs st :
  Forall (fun x => f x st = (Ok (), st)) xs → for_each f xs st = (Ok (), st).
Proof.
  induction 1 as [|x xs Hx _ IH]; [done|]. by rewrite for_each_cons, Hx.
Qed.

(** X19: what is in the skip list is not visited again.  A types index
    whose products all have their titles in the skip list, a subcategory
    index whose tiles all have their (stripped) titles in it, and a
    subcategory block of the home page whose items all have their keys
    [category/item] in it are gone through without any change of the
    state: no tab is opened, nothing is looked up or stored or logged. *)
Theorem skipped_items_change_nothing (web : string → page) (ts : string) :
  (∀ n1 n2 cat n3 st p,
     window_handles st !! current_window st = Some p →
     GroupPrsnttn p ≠ [] →
     forallb group_visible (GroupPrsnttn p) = true →
     Forall (fun g =>
               is_Some (group_h3 g) ∧
               Forall (fun a => ∃ t, anchor_ke a = Some t ∧
                                     t ∈ things_to_skip st)
                 (group_anchors g))
       (GroupPrsnttn p) →
     handle_types_index_page web ts n1 n2 cat n3 st = (Ok (), st)) ∧
  (∀ n1 n2 cat st p tiles,
     window_handles st !! current_window st = Some p →
     ClientRenderedContent p = Some (true, tiles) →
     Forall (fun tile =>
               is_Some (tile_image tile) ∧ is_Some (tile_copy tile) ∧
               is_Some (tile_product_count tile) ∧
               ∃ t, tile_title tile = Some t ∧
                    PyStr.strip t ∈ things_to_skip st)
       tiles →
     handle_subcategories_index_page web ts n1 n2 cat st = (Ok (), st)) ∧
  (∀ cat subcat_e st,
     is_Some (block_h2 subcat_e) →
     Forall (fun it =>
               is_Some (item_a_href it) ∧
               cat +:+ "/" +:+ item_text it ∈ things_to_skip st)
       (block_items subcat_e) →
     run_subcat web ts cat subcat_e st = (Ok (), st)).
Proof.
  split; [|split].
  - intros n1 n2 cat n3 st p Hcur Hne Hvis Hall.
    unfold handle_types_index_page, except_reraise, try_except,
      wait_visibility_of_all_GroupPrsnttn.
    rewrite bind_assoc_run, (bind_ok _ _ _ _ _ (current_page_eq _ _ Hcur)).
    destruct (GroupPrsnttn p) as [|g gs] eqn:Hgs; [done|].
    rewrite Hvis. run_monad. rewrite for_each_identity; [done|].
    eapply Forall_impl; [exact Hall|]. intros g' [[h3 Hh3] Hanchors].
    unfold types_group_item, except_continue, try_except, types_group_body.
    rewrite Hh3. simpl find_element. run_monad.
    rewrite for_each_identity; [done|].
    eapply Forall_impl; [exact Hanchors|]. intros a (t & Hke & Hin).
    unfold types_product_item, except_continue, try_except.
    by rewrite (types_product_body_skipped _ _ _ _ _ _ _ _ _ Hke Hin).
  - intros n1 n2 cat st p tiles Hcur Hp Hall.
    unfold handle_subcategories_index_page, except_reraise, try_except,
      wait_visibility_of_ClientRenderedContent.
    rewrite bind_assoc_run, (bind_ok _ _ _ _ _ (current_page_eq _ _ Hcur)), Hp.
    run_monad. rewrite for_each_identity; [done|].
    eapply Forall_impl; [exact Hall|].
    intros tile ([img Hi] & [c Hc] & [n Hn] & t & Ht & Hin).
    unfold subcat_tile_item, except_continue, try_except.
    by rewrite (subcat_tile_body_skipped _ _ _ _ _ _ _ _ _ _ _ Hi Ht Hc Hn Hin).
  - intros cat subcat_e st [n1 Hh2] Hall. unfold run_subcat.
    rewrite Hh2. simpl find_element. run_monad.
    apply for_each_identity.
    eapply Forall_impl; [exact Hall|]. intros it [[href Hh] Hin].
    by apply (run_item_skipped _ _ _ _ _ href).
Qed.

Lemma skipped_items_change_nothing_witness :
  run_subcat two_leaf_site the_timestamp "Fastening" fasteners_block
    both_learned_state = (Ok (), both_learned_state).
Proof.
  apply (proj2 (proj2 (skipped_items_change_nothing two_leaf_site
                         the_timestamp))).
  - by eexists.
  - repeat constructor; try by eexists.
    all: by apply (bool_decide_unpack _).
Defined.

(* ===================================================================== *)
(** * Where [AccessRestrictedError] comes from, and the tabs *)

Section NeverRestricted.

Lemma nr_ret {A} (a : A) : never_restricted (ret a).
Proof. by intros st. Qed.

Lemma nr_get {A} (f : state → A) : never_restricted (get f).
Proof. by intros st. Qed.

Lemma nr_modify f : never_restricted (modify f).
Proof. by intros st. Qed.

Lemma nr_raise {A} e :
  e ≠ AccessRestrictedError → never_restricted (@raise A e).
Proof. intros He st. simpl. congruence. Qed.

Lemma nr_find_element {A} (x : option A) :
  never_restricted (lift (find_element x)).
Proof. intros st. by destruct x. Qed.

Lemma nr_bind {A B} (m : M A) (k : A → M B) :
  never_restricted m → (∀ a, never_restricted (k a)) →
  never_restricted (m ≫= k).
Proof.
  intros Hm Hk st. rewrite bind_run. specialize (Hm st).
  destruct (m st) as [[a|e] st']; [apply Hk|].
  simpl in *. intros [= ->]. by apply Hm.
Qed.

Lemma nr_try_except {A} (m : M A) h :
  (∀ e, never_restricted (h e)) → never_restricted (try_except m h).
Proof.
  intros Hh st. unfold try_except.
  destruct (m st) as [[a|e] st']; [done|apply Hh].
Qed.

Lemma nr_for_each {A} (f : A → M unit) xs :
  (∀ x, never_restricted (f x)) → never_restricted (for_each f xs).
Proof.
  intros Hf. induction xs as [|x xs IH]; [apply nr_ret|].
  apply nr_bind; [apply Hf|by intros _].
Qed.

Lemma nr_current_page : never_restricted current_page.
Proof. intros st. unfold current_page. by destruct (_ !! _). Qed.

Lemma nr_add_to_skip_list key : never_restricted (add_to_skip_list key).
Proof.
  intros st. by rewrite (proj1 (add_to_skip_list_frame key st)).
Qed.

Lemma nr_product_section_scrape_data ts l sec n1 n2 n3 cat :
  never_restricted (product_section_scrape_data ts l sec n1 n2 n3 cat).
Proof.
  unfold product_section_scrape_data.
  apply nr_bind; [apply nr_find_element|intros t].
  apply nr_bind.
  - apply nr_try_except. intros e.
    destruct e; (apply nr_bind; [apply nr_modify|intros _; apply nr_ret]).
  - intros d. apply nr_bind; [apply nr_modify|intros _].
    destruct (PyStr.truthy t); [apply nr_add_to_skip_list|apply nr_ret].
Qed.

Lemma nr_handle_product_page ts l n1 n2 cat n3 t :
  never_restricted (handle_product_page ts l n1 n2 cat n3 t).
Proof.
  unfold handle_product_page.
  apply nr_bind; [apply nr_current_page|intros p]. cbv zeta.
  apply nr_bind.
  { destruct (ProdPageContent p); [apply nr_ret|by apply nr_raise]. }
  intros _. apply nr_bind.
  { apply nr_try_except. intros e.
    apply nr_bind; [apply nr_modify|intros _; apply nr_ret]. }
  intros [sections|]; [|apply nr_ret].
  apply nr_for_each. intros sec. cbv zeta.
  destruct (bool_decide _); [apply nr_ret|apply nr_product_section_scrape_data].
Qed.

End NeverRestricted.

Lemma handle_product_page_windows ts l n1 n2 cat n3 t st :
  window_handles (handle_product_page ts l n1 n2 cat n3 t st).2 = window_handles st ∧
  current_window (handle_product_page ts l n1 n2 cat n3 t st).2 = current_window st.
Proof.
  apply (fr_handle_product_page
           (fun s => window_handles s = window_handles st ∧
                     current_window s = current_window st)).
  - by intros r s.
  - by intros doc s.
  - intros key s [Hw Hc].
    destruct (add_to_skip_list_frame key s) as (_ & _ & _ & Hw' & Hc' & _).
    by rewrite Hw', Hc'.
  - done.
Qed.

Ltac tab_done :=
  simpl;
  split; [try done; try (intros [=])|];
  split; [try (by left); try (by right)|];
  split; [try done; try (intros [=])|try done].

(** X20: the tab of a product.  [types_product_body] leaves the windows
    as they were when it returns normally (the tab it opened is closed
    again); when it raises, the tab is either not opened yet or left open;
    and it raises [AccessRestrictedError] only from its access check, on
    a page that shows the data-protection element, with the tab of that
    page left open.  [handle_product_page] itself never raises
    [AccessRestrictedError] and never touches the windows. *)
Theorem types_product_tab (web : string → page) (ts n1 n2 cat n3 : string)
    (a : type_anchor) (st : state) (p0 : page) :
  window_handles st !! current_window st = Some p0 →
  let r := (types_product_body web ts n1 n2 cat n3 a st).1 in
  let st' := (types_product_body web ts n1 n2 cat n3 a st).2 in
  (r = Ok () → window_handles st' = window_handles st) ∧
  (window_handles st' = window_handles st ∨
   window_handles st' = window_handles st ++ [web (anchor_href a)]) ∧
  (r = Raise AccessRestrictedError →
   ProdDatProtection_visible (web (anchor_href a)) = true ∧
   window_handles st' = window_handles st ++ [web (anchor_href a)]) ∧
  (∀ l t s,
     never_restricted (handle_product_page ts l n1 n2 cat n3 t) ∧
     window_handles (handle_product_page ts l n1 n2 cat n3 t s).2
       = window_handles s).
Proof.
  intros Hcur r st'. unfold r, st'. clear r st'.
  assert (∀ l t s,
            never_restricted (handle_product_page ts l n1 n2 cat n3 t) ∧
            window_handles (handle_product_page ts l n1 n2 cat n3 t s).2
              = window_handles s) as Hpp.
  { intros l t s. split; [apply nr_handle_product_page|].
    apply handle_product_page_windows. }
  unfold types_product_body.
  destruct (anchor_ke a) as [t|]; simpl find_element; run_monad;
    [|tab_done].
  destruct (PyList.contains t (things_to_skip st)); [tab_done|].
  unfold find_document. run_monad.
  destruct (head _) as [doc|].
  { destruct (add_to_skip_list_frame t st) as (Hr & _ & _ & Hw & _).
    rewrite Hw, Hr. tab_done. }
  rewrite (bind_ok _ _ _ _ _ (open_new_tab_eq web _ _ _ Hcur)).
  set (ws := window_handles st) in *. set (x := web (anchor_href a)).
  set (st1 := set_windows (ws ++ [x]) (length ws) st).
  assert (window_handles st1 !! current_window st1 = Some x) as Hcur1.
  { simpl. by rewrite lookup_app_r, Nat.sub_diag. }
  assert (switch_to_last_window st1 = (Ok (), st1)) as Hsw.
  { rewrite switch_to_last_window_eq by (simpl; by destruct ws).
    simpl. rewrite length_app. simpl.
    by replace (length ws + 1 - 1) with (length ws) by lia. }
  rewrite (bind_ok _ _ _ _ _ Hsw).
  rewrite (bind_ok _ _ _ _ _ (access_restricted_eq _ _ Hcur1)).
  destruct (ProdDatProtection_visible x) eqn:Hvis; [tab_done|].
  rewrite bind_run.
  pose proof (nr_handle_product_page ts (anchor_href a) n1 n2 cat n3 t st1) as Hnr.
  destruct (handle_product_page_windows ts (anchor_href a) n1 n2 cat n3 t st1)
    as [Hw2 Hc2].
  destruct (handle_product_page ts (anchor_href a) n1 n2 cat n3 t st1)
    as [[[]|e] st2]; simpl in Hnr, Hw2, Hc2.
  - rewrite (bind_ok _ _ _ _ _ (close_last_tab_eq st2 ws x Hw2 Hc2)).
    rewrite switch_to_last_window_eq
      by (simpl; intros Hnil; fold ws in Hcur; by rewrite Hnil in Hcur).
    tab_done.
  - simpl. rewrite Hw2. tab_done.
Qed.

Lemma types_product_tab_witness :
  let a := {| anchor_href := "https://www.mcmaster.com/nuts";
              anchor_ke := Some "Hex Nuts" |} in
  let r := (types_product_body two_leaf_site the_timestamp "Fasteners"
              "Nuts" "Fastening" "Hex" a subcat_index_state).1 in
  let st' := (types_product_body two_leaf_site the_timestamp "Fasteners"
                "Nuts" "Fastening" "Hex" a subcat_index_state).2 in
  r = Ok () ∧ window_handles st' = window_handles subcat_index_state.
Proof.
  intros a r st'. split; [reflexivity|].
  apply (types_product_tab two_leaf_site the_timestamp "Fasteners" "Nuts"
           "Fastening" "Hex" a subcat_index_state subcat_index_page);
    reflexivity.
Defined.

(* ===================================================================== *)
(** * Pages of no kind, known links, missing containers *)

Lemma unknown_probes st x :
  window_handles st !! current_window st = Some x →
  MainContent_visible x = true →
  ProdDatProtection_visible x = false →
  has_table x = false → has_groups x = false →
  access_restricted st = (Ok false, st) ∧
  whether_table_page_or_not st = (Ok false, st) ∧
  whether_types_index_page_or_not st = (Ok false, st).
Proof.
  intros Hcur Hl Hv Ht Hg.
  rewrite (access_restricted_eq _ _ Hcur), Hv.
  rewrite (whether_table_page_or_not_eq _ _ Hcur Hl), Ht.
  by rewrite (whether_types_index_page_or_not_eq _ _ Hcur Hl), Hg.
Qed.

(** X21: a page of no kind.  When the page of a tile of a subcategory
    index is none of table page, product page and types index, the
    handler runs no page handler and still learns the title of the tile:
    the tile is marked as done, nothing is stored, no log entry is lost,
    and the windows are as before.  When the page of a leaf item of the home page
    is none of table page, subcategory index and types index, [run] logs
    a warning and does not learn the key of the item. *)
Theorem page_of_no_kind (web : string → page) (ts : string) :
  (∀ n1 n2 cat tile img t c n st p0,
     window_handles st !! current_window st = Some p0 →
     tile_image tile = Some img → tile_title tile = Some t →
     tile_copy tile = Some c → tile_product_count tile = Some n →
     PyStr.strip t ∉ things_to_skip st →
     MainContent_visible (web (tile_href tile)) = true →
     subcat_order (ProdDatProtection_visible (web (tile_href tile)))
       (web (tile_href tile)) = KUnknown →
     ∃ st',
       subcat_tile_body web ts n1 n2 cat tile st = (Ok (), st') ∧
       things_to_skip st' = things_to_skip st ++ [PyStr.strip t] ∧
       collection st' = collection st ∧
       log st `prefix_of` log st' ∧
       window_handles st' = window_handles st) ∧
  (∀ cat n1 it href st p0,
     window_handles st !! current_window st = Some p0 →
     item_a_href it = Some href →
     cat +:+ "/" +:+ item_text it ∉ things_to_skip st →
     MainContent_visible (web href) = true →
     run_order (ProdDatProtection_visible (web href)) (web href) = KUnknown →
     run_item web ts cat n1 it st =
     (Ok (),
      set_windows (window_handles st) 0
        (add_log {| log_lvl := WARNING;
                    log_msg := "Unhandeled page encountered";
                    log_exn := None |} st))).
Proof.
  split.
  - intros n1 n2 cat tile img t c n st p0 Hcur Hi Ht Hc Hn Hnew Hl Hkind.
    unfold subcat_tile_body. rewrite Hi, Ht, Hc, Hn. simpl find_element.
    run_monad. unfold PyList.contains. rewrite bool_decide_false by done.
    rewrite (bind_ok _ _ _ _ _ (open_new_tab_eq web _ _ _ Hcur)).
    set (ws := window_handles st) in *. set (x := web (tile_href tile)) in *.
    set (st1 := set_windows (ws ++ [x]) (length ws) st).
    assert (window_handles st1 !! current_window st1 = Some x) as Hcur1.
    { simpl. by rewrite lookup_app_r, Nat.sub_diag. }
    assert (switch_to_last_window st1 = (Ok (), st1)) as Hsw.
    { rewrite switch_to_last_window_eq by (simpl; by destruct ws).
      simpl. rewrite length_app. simpl.
      by replace (length ws + 1 - 1) with (length ws) by lia. }
    rewrite (bind_ok _ _ _ _ _ Hsw).
    unfold subcat_order in Hkind.
    destruct (ProdDatProtection_visible x) eqn:Hv; [done|].
    destruct (has_table x) eqn:Htab; [done|].
    destruct (has_product_shape x) eqn:Hprod; [done|].
    destruct (has_groups x) eqn:Hg; [done|].
    destruct (unknown_probes st1 x Hcur1 Hl Hv Htab Hg) as (Ha & Hwt & Hwg).
    assert (subcat_dispatch web ts (tile_href tile) n1 n2 cat (PyStr.strip t) st1
            = (Ok (), st1)) as Hd.
    { unfold subcat_dispatch.
      rewrite (bind_ok _ _ _ _ _ Ha). cbv iota.
      rewrite (bind_ok _ _ _ _ _ Hwt). cbv iota.
      rewrite (bind_ok _ _ _ _ _
                 (whether_product_page_or_not_eq _ _ Hcur1 Hl)), Hprod.
      by rewrite (bind_ok _ _ _ _ _ Hwg). }
    rewrite (bind_ok _ _ _ _ _ Hd). rewrite bind_run.
    destruct (add_to_skip_list_frame (PyStr.strip t) st1)
      as (Hr & Hs & Hcc & Hw & Hcw & _).
    pose proof (add_to_skip_list_log (PyStr.strip t) st1) as Hlog.
    destruct (add_to_skip_list (PyStr.strip t) st1) as [r st2].
    simpl in Hr, Hs, Hcc, Hw, Hcw, Hlog. subst r.
    unfold PyList.contains in Hs. rewrite bool_decide_false in Hs by done.
    rewrite (bind_ok _ _ _ _ _ (close_last_tab_eq st2 ws x Hw Hcw)).
    rewrite switch_to_last_window_eq
      by (simpl; intros Hnil; fold ws in Hcur; by rewrite Hnil in Hcur).
    eexists. split; [done|]. by simpl.
  - intros cat n1 it href st p0 Hcur Hh Hnew Hl Hkind.
    unfold run_item. rewrite Hh. simpl find_element. run_monad.
    unfold PyList.contains. rewrite bool_decide_false by done.
    rewrite (bind_ok _ _ _ _ _ (open_new_tab_eq web _ _ _ Hcur)).
    set (ws := window_handles st) in *. set (x := web href) in *.
    set (st1 := set_windows (ws ++ [x]) (length ws) st).
    assert (window_handles st1 !! current_window st1 = Some x) as Hcur1.
    { simpl. by rewrite lookup_app_r, Nat.sub_diag. }
    unfold run_order in Hkind.
    destruct (ProdDatProtection_visible x) eqn:Hv; [done|].
    destruct (has_table x) eqn:Htab; [done|].
    destruct (has_rendered_content x) eqn:Hrc; [done|].
    destruct (has_groups x) eqn:Hg; [done|].
    destruct (unknown_probes st1 x Hcur1 Hl Hv Htab Hg) as (Ha & Hwt & Hwg).
    assert (run_dispatch web ts href n1 (item_text it) cat
              (cat +:+ "/" +:+ item_text it) st1 =
            logging_warning "Unhandeled page encountered" st1) as Hd.
    { unfold run_dispatch.
      rewrite (bind_ok _ _ _ _ _ Ha). cbv iota.
      rewrite (bind_ok _ _ _ _ _ Hwt). cbv iota.
      rewrite (bind_ok _ _ _ _ _
                 (whether_subcat_index_page_or_not_eq _ _ Hcur1 Hl)), Hrc.
      by rewrite (bind_ok _ _ _ _ _ Hwg). }
    rewrite bind_run, Hd. unfold logging_warning, modify.
    by erewrite close_last_tab_eq.
Qed.

Lemma page_of_no_kind_witness :
  ∃ st',
    subcat_tile_body plain_site the_timestamp "Fasteners" "Screws and Nuts"
      "Fastening" about_tile subcat_index_state = (Ok (), st') ∧
    things_to_skip st' = things_to_skip subcat_index_state ++ ["About"] ∧
    collection st' = collection subcat_index_state ∧
    log subcat_index_state `prefix_of` log st' ∧
    window_handles st' = window_handles subcat_index_state.
Proof.
  apply (proj1 (page_of_no_kind plain_site the_timestamp)
           "Fasteners" "Screws and Nuts" "Fastening" about_tile "about.png"
           " About " "" "" subcat_index_state subcat_index_page);
    try reflexivity.
  by apply (bool_decide_unpack _).
Defined.

(* --------------------------------------------------------------------- *)
(** ** A product whose link is stored *)

(** X22: a product of a types index whose link is already the link of a
    stored document is not opened.  When its title is not in the skip
    list, the title is appended to the list, no document is stored, the
    windows stay as they are, the call returns normally, and the file
    holds the new list when it can be written. *)
Theorem stored_link_is_learned_not_opened
    (web : string → page) (ts : string)
    (n1 n2 cat n3 : string) (a : type_anchor) (t : string) (d : product_data)
    (st : state) :
  anchor_ke a = Some t →
  t ∉ things_to_skip st →
  d ∈ collection st → link d = anchor_href a →
  ∃ st',
    types_product_body web ts n1 n2 cat n3 a st = (Ok (), st') ∧
    things_to_skip st' = things_to_skip st ++ [t] ∧
    collection st' = collection st ∧
    window_handles st' = window_handles st ∧
    current_window st' = current_window st ∧
    (skip_file_writable st = true →
     skip_file st' = FileText (things_to_skip st ++ [t]) true).
Proof.
  intros Hke Hnew Hd Hl.
  assert (∃ doc, (find_document (anchor_href a) st).1 = Ok (Some doc))
    as [doc Hfound].
  { unfold find_document. run_monad. simpl.
    destruct (filter _ (collection st)) as [|doc ds] eqn:Hf; [|by eexists].
    assert (d ∈ filter (fun d => link d = anchor_href a) (collection st)) as Hin
      by by apply list_elem_of_filter.
    rewrite Hf in Hin. by apply not_elem_of_nil in Hin. }
  rewrite (types_product_known_link web ts n1 n2 cat n3 a t doc st Hke Hnew Hfound).
  destruct (add_to_skip_list_frame t st) as (Hr & Hs & Hc & Hw & Hcw & _).
  unfold PyList.contains in Hs. rewrite bool_decide_false in Hs by done.
  exists (add_to_skip_list t st).2.
  split; [by destruct (add_to_skip_list t st) as [r st']; simpl in *; subst r|].
  repeat (split; [done|]).
  intros Hwr. by rewrite (add_to_skip_list_new _ _ Hwr Hnew).
Qed.

Lemma stored_link_is_learned_not_opened_witness :
  ∃ st',
    types_product_body (screws_site false) the_timestamp "Fasteners" "Screws"
      "Fastening" "Screws" screws_anchor stored_state = (Ok (), st') ∧
    things_to_skip st' = things_to_skip stored_state ++ ["Machine Screws"] ∧
    collection st' = collection stored_state ∧
    window_handles st' = window_handles stored_state ∧
    current_window st' = current_window stored_state ∧
    (skip_file_writable stored_state = true →
     skip_file st' =
     FileText (things_to_skip stored_state ++ ["Machine Screws"]) true).
Proof.
  apply (stored_link_is_learned_not_opened (screws_site false) the_timestamp
           "Fasteners" "Screws" "Fastening" "Screws" screws_anchor
           "Machine Screws" stored_screws_document stored_state);
    try reflexivity.
  - by apply (bool_decide_unpack _).
  - constructor.
Defined.

(* --------------------------------------------------------------------- *)
(** ** What leaves an index handler *)

Lemma except_continue_oor msg body : ok_or_restricted (except_continue msg body).
Proof.
  intros st. unfold except_continue, try_except.
  destruct (body st) as [[[]|e] st']; [by left|].
  destruct e; by (left + right).
Qed.

Lemma for_each_oor {A} (f : A → M unit) l :
  (∀ x, ok_or_restricted (f x)) → ok_or_restricted (for_each f l).
Proof.
  intros Hf. induction l as [|x l IH]; intros st; [by left|].
  rewrite for_each_cons. destruct (Hf x st) as [Hx|Hx];
    destruct (f x st) as [r st']; simpl in Hx; subst r; [apply IH|by right].
Qed.

Lemma except_reraise_oor msg body st :
  (body st).1 = Ok () ∨ (body st).1 = Raise AccessRestrictedError →
  except_reraise msg body st = body st.
Proof.
  intros H. unfold except_reraise, try_except.
  destruct (body st) as [[[]|e] st']; [done|].
  destruct H as [H|H]; simpl in H; [done|]. by injection H as ->.
Qed.

(** X23: what leaves an index handler.  Once its container has shown,
    [handle_subcategories_index_page] and [handle_types_index_page] return
    normally or raise [AccessRestrictedError], nothing else: every other
    exception of a tile, a group or a product is caught inside.  When the
    container does not show, the handler raises [TimeoutException] after
    one log entry, with nothing else changed. *)
Theorem index_handler_outcomes (web : string → page) (ts : string) :
  (∀ n1 n2 cat st p tiles,
     window_handles st !! current_window st = Some p →
     ClientRenderedContent p = Some (true, tiles) →
     (handle_subcategories_index_page web ts n1 n2 cat st).1 = Ok () ∨
     (handle_subcategories_index_page web ts n1 n2 cat st).1
       = Raise AccessRestrictedError) ∧
  (∀ n1 n2 cat st p,
     window_handles st !! current_window st = Some p →
     (∀ tiles, ClientRenderedContent p ≠ Some (true, tiles)) →
     handle_subcategories_index_page web ts n1 n2 cat st =
     (Raise TimeoutException,
      add_log (error_record "Failed to process subcategories index page"
                 (Some TimeoutException)) st)) ∧
  (∀ n1 n2 cat n3 st p,
     window_handles st !! current_window st = Some p →
     GroupPrsnttn p ≠ [] → forallb group_visible (GroupPrsnttn p) = true →
     (handle_types_index_page web ts n1 n2 cat n3 st).1 = Ok () ∨
     (handle_types_index_page web ts n1 n2 cat n3 st).1
       = Raise AccessRestrictedError) ∧
  (∀ n1 n2 cat n3 st p,
     window_handles st !! current_window st = Some p →
     GroupPrsnttn p = [] ∨ forallb group_visible (GroupPrsnttn p) = false →
     handle_types_index_page web ts n1 n2 cat n3 st =
     (Raise TimeoutException,
      add_log (error_record "Failed to process types index page"
                 (Some TimeoutException)) st)).
Proof.
  split; [|split; [|split]].
  - intros n1 n2 cat st p tiles Hcur Hc.
    unfold handle_subcategories_index_page.
    assert (wait_visibility_of_ClientRenderedContent st = (Ok tiles, st)) as Hwait.
    { unfold wait_visibility_of_ClientRenderedContent.
      by rewrite (bind_ok _ _ _ _ _ (current_page_eq _ _ Hcur)), Hc. }
    rewrite except_reraise_oor; rewrite (bind_ok _ _ _ _ _ Hwait);
      apply for_each_oor; intros x; apply except_continue_oor.
  - intros n1 n2 cat st p Hcur Hc.
    unfold handle_subcategories_index_page, except_reraise, try_except.
    assert (wait_visibility_of_ClientRenderedContent st
            = (Raise TimeoutException, st)) as Hwait.
    { unfold wait_visibility_of_ClientRenderedContent.
      rewrite (bind_ok _ _ _ _ _ (current_page_eq _ _ Hcur)).
      destruct (ClientRenderedContent p) as [[[|] tiles]|] eqn:Hcr; try done.
      by destruct (Hc tiles). }
    by rewrite bind_run, Hwait.
  - intros n1 n2 cat n3 st p Hcur Hne Hvis.
    unfold handle_types_index_page.
    assert (wait_visibility_of_all_GroupPrsnttn st = (Ok (GroupPrsnttn p), st))
      as Hwait.
    { unfold wait_visibility_of_all_GroupPrsnttn.
      rewrite (bind_ok _ _ _ _ _ (current_page_eq _ _ Hcur)).
      destruct (GroupPrsnttn p) as [|g gs]; [done|]. by rewrite Hvis. }
    rewrite except_reraise_oor; rewrite (bind_ok _ _ _ _ _ Hwait);
      apply for_each_oor; intros x; apply except_continue_oor.
  - intros n1 n2 cat n3 st p Hcur Hbad.
    unfold handle_types_index_page, except_reraise, try_except.
    assert (wait_visibility_of_all_GroupPrsnttn st
            = (Raise TimeoutException, st)) as Hwait.
    { unfold wait_visibility_of_all_GroupPrsnttn.
      rewrite (bind_ok _ _ _ _ _ (current_page_eq _ _ Hcur)).
      destruct (GroupPrsnttn p) as [|g gs]; [done|].
      destruct Hbad as [Hbad|Hbad]; [done|]. by rewrite Hbad. }
    by rewrite bind_run, Hwait.
Qed.

Lemma index_handler_outcomes_witness :
  ((handle_types_index_page (screws_site false) the_timestamp "Fasteners"
      "Screws" "Fastening" "Screws" types_index_state).1 = Ok () ∨
   (handle_types_index_page (screws_site false) the_timestamp "Fasteners"
      "Screws" "Fastening" "Screws" types_index_state).1
     = Raise AccessRestrictedError) ∧
  handle_types_index_page (screws_site false) the_timestamp "Fasteners"
    "Screws" "Fastening" "Screws" subcat_index_state =
  (Raise TimeoutException,
   add_log (error_record "Failed to process types index page"
              (Some TimeoutException)) subcat_index_state).
Proof.
  split.
  - by apply (proj1 (proj2 (proj2 (index_handler_outcomes (screws_site false)
                                     the_timestamp)))
                "Fasteners" "Screws" "Fastening" "Screws" types_index_state
                types_index_page).
  - apply (proj2 (proj2 (proj2 (index_handler_outcomes (screws_site false)
                                  the_timestamp)))
             "Fasteners" "Screws" "Fastening" "Screws" subcat_index_state
             subcat_index_page); [done|by left].
Defined.

(* --------------------------------------------------------------------- *)
(** ** Looking up a page that was scraped *)

(** X24: a page that was scraped is found by its own address.  After
    [handle_product_page] has stored a section of the open page,
    [find_document] finds a document under the address of that page.  The
    link [l] that the caller passed plays no part: when it differs from
    the address of the page and no document carried it before, none
    carries it afterwards, so a later look-up of [l] finds nothing. *)
Theorem scraped_page_is_found_by_its_address
    (ts l n1 n2 cat n3 t : string) (st : state) (p : page)
    (sections : list section_element) (sec : section_element) (t' : string) :
  window_handles st !! current_window st = Some p →
  ProdPageContent p = true →
  PageCntnr p = Some sections →
  Forall (fun sec => is_ap sec = true ∨ is_Some (section_h3 sec)) sections →
  sec ∈ sections → is_ap sec = false → section_h3 sec = Some t' →
  let st' := (handle_product_page ts l n1 n2 cat n3 t st).2 in
  (∃ d, (find_document (current_url p) st').1 = Ok (Some d) ∧
        link d = current_url p) ∧
  (l ≠ current_url p →
   (∀ d, d ∈ collection st → link d ≠ l) →
   (find_document l st').1 = Ok None).
Proof.
  intros Hcur Hcontent Hcntnr Hall Hsec Hap Ht st'.
  destruct (sections_loop_ok ts p n1 n2 n3 cat sections st Hcur Hall)
    as (st1 & Hrun & Hc & _).
  assert (st' = st1) as ->.
  { unfold st'.
    by rewrite (handle_product_page_eq _ _ _ _ _ _ _ _ _ _ Hcur Hcontent Hcntnr),
      Hrun. }
  assert (∀ d, d ∈ section_documents ts p n1 n2 n3 cat sections →
               link d = current_url p) as Hlinks.
  { intros d Hd. apply list_elem_of_omap in Hd as (s & _ & Hd).
    destruct (is_ap s); [done|].
    destruct (section_h3 s); [|done]. by injection Hd as <-. }
  split.
  - unfold find_document. run_monad. simpl. rewrite Hc.
    set (doc := section_document ts p (current_url p) sec n1 n2 n3 cat t').
    assert (doc ∈ filter (fun d => link d = current_url p)
                    (collection st ++ section_documents ts p n1 n2 n3 cat sections))
      as Hin.
    { apply list_elem_of_filter. split; [done|].
      apply elem_of_app. right. apply list_elem_of_omap.
      exists sec. split; [done|]. by rewrite Hap, Ht. }
    destruct (filter _ _) as [|d ds] eqn:Hf;
      [by apply not_elem_of_nil in Hin|].
    exists d. split; [done|].
    assert (d ∈ filter (fun d => link d = current_url p)
                  (collection st ++ section_documents ts p n1 n2 n3 cat sections))
      as Hd by (rewrite Hf; left).
    by apply list_elem_of_filter in Hd as [Hd _].
  - intros Hl Hold. unfold find_document. run_monad. simpl. rewrite Hc.
    destruct (filter _ _) as [|d ds] eqn:Hf; [done|].
    assert (d ∈ filter (fun d => link d = l)
                  (collection st ++ section_documents ts p n1 n2 n3 cat sections))
      as Hd by (rewrite Hf; left).
    apply list_elem_of_filter in Hd as [Hd [Hin|Hin]%elem_of_app].
    + by destruct (Hold d Hin).
    + destruct Hl. by rewrite <- Hd, (Hlinks d Hin).
Qed.

Lemma scraped_page_is_found_by_its_address_witness :
  let st' :=
    (handle_product_page the_timestamp "https://www.mcmaster.com/other"
       "Fasteners" "Washers" "Fastening" "Flat" "" groups_and_marker_state).2 in
  (∃ d, (find_document (current_url groups_and_marker_page) st').1
          = Ok (Some d) ∧
        link d = current_url groups_and_marker_page) ∧
  ("https://www.mcmaster.com/other" ≠ current_url groups_and_marker_page →
   (∀ d, d ∈ collection groups_and_marker_state →
         link d ≠ "https://www.mcmaster.com/other") →
   (find_document "https://www.mcmaster.com/other" st').1 = Ok None).
Proof.
  apply (scraped_page_is_found_by_its_address the_timestamp
           "https://www.mcmaster.com/other" "Fasteners" "Washers" "Fastening"
           "Flat" "" groups_and_marker_state groups_and_marker_page
           [socket_cap_section] socket_cap_section "Socket Cap");
    try reflexivity.
  - constructor; [right; by eexists|constructor].
  - constructor.
Defined.
